(** * Ensemble coordinator and online weight learning of win-go-1minserver

    A shallow embedding of the JavaScript sources [kbt_models.js],
    [ai_models.js], [prediction_helpers.js] and [model_manager.js], and of
    [getEngineName] of [ensemble.js] and the learning update and
    [generateWingoUrl] of [server.js].

    Numbers.  JavaScript numbers are modelled as exact rationals ([Q]);
    integer-valued counters and timestamps as [Z].  The places where the
    code can produce NaN or an infinity from finite inputs (a division by
    zero) are written out at the place.  The learning rate of [learn] is
    any number, NaN and the infinities included, and the weight of a model
    is a number or NaN.  [Math.pow] and [Math.sqrt] are irrational in
    general and are taken through the class [JSMath].  The arithmetic is
    exact here and in doubles in the code; the two can part where a result
    hangs on the last place of a double, and there the statements say so:
    a product within a hair of a half under the [Math.round] of
    [calculateEnhancedConfidence], and a share of BIG as far from one level
    as from the next in [fibonacciPrediction].

    Exceptions.  A property read on [null]/[undefined] raises a TypeError;
    such code is in the [result] monad.  An element of a history that is
    neither is an object whose properties may be missing.

    Clock.  [Date.now()] is an explicit argument [now], read as one value
    throughout a call of [predict].

    Objects.  A model object is its fields ([Model.state]) together with
    its two methods ([Predictor.t]); [learn] returns the new fields, and
    the manager puts them back in the place of the model. *)

From Stdlib Require Import ZArith Znumtheory QArith Qcanon Qround Qabs Lqa Lia.
From Stdlib Require Import List String Ascii Bool DecimalString Permutation.
From Stdlib Require Import Qpower Sorted.
Import ListNotations.

Local Open Scope string_scope.
Local Open Scope list_scope.
Local Open Scope Q_scope.

(** ** JavaScript numbers as rationals *)

(** [a <= b], [a < b], [a > b] and [a === b] on numbers, as booleans. *)
Definition Qleb (a b : Q) : bool := Qle_bool a b.
Definition Qltb (a b : Q) : bool := negb (Qle_bool b a).
Definition Qgtb (a b : Q) : bool := Qltb b a.
Definition Qgeb (a b : Q) : bool := Qle_bool b a.
Definition Qeqb (a b : Q) : bool := Qeq_bool a b.

(** [Math.max(a, b)] and [Math.min(a, b)]. *)
Definition Math_max (a b : Q) : Q := if Qle_bool a b then b else a.
Definition Math_min (a b : Q) : Q := if Qle_bool a b then a else b.

(** [Math.abs(a)]. *)
Definition Math_abs (a : Q) : Q := Qabs a.

(** [Math.round(a)]: the nearest integer, a tie going up. *)
Definition Math_round (a : Q) : Z := Qfloor (a + (1 # 2)).

(** [x || d] on numbers: [0] is falsy. *)
Definition num_or (x d : Q) : Q := if Qeq_bool x 0 then d else x.

(** [x || d] on integers. *)
Definition int_or (x d : Z) : Z := if Z.eqb x 0 then d else x.

(** [s || d] on strings: the empty string is falsy. *)
Definition str_or (s d : string) : string :=
  match s with EmptyString => d | _ => s end.

(** An integer inside a template literal or a string concatenation. *)
Definition string_of_Z (z : Z) : string := NilZero.string_of_int (Z.to_int z).

(** The built-ins that leave the rationals. *)
Class JSMath := {
  Math_pow : Q -> Q -> Q;
  Math_sqrt : Q -> Q;
  Math_sqrt_nonneg : forall x, 0 <= Math_sqrt x;
  Math_sqrt_pos : forall x, 0 < x -> 0 < Math_sqrt x
}.

(** [Math.sqrt(x)] is NaN ([None]) on a negative number. *)
Definition js_sqrt {M : JSMath} (x : Q) : option Q :=
  if Qltb x 0 then None else Some (Math_sqrt x).

(** An instance for evaluation at concrete inputs.  It is [Math.pow] and
    [Math.sqrt] only where the exact result is rational: [Math_pow] with an
    integer exponent, [Math_sqrt] of the square of a rational.  Elsewhere it
    takes the floor of the exponent and the integer roots of numerator and
    denominator, which the built-ins do not.  The theorems hold of every
    instance of the class; this one serves the examples. *)
Definition pow_int (b e : Q) : Q := Qpower b (Qfloor e).
Definition sqrt_exact (x : Q) : Q :=
  let r := Qred x in
  Z.sqrt (Qnum r) # Pos.sqrt (Qden r).

Lemma sqrt_exact_nonneg (x : Q) : 0 <= sqrt_exact x.
Proof.
  unfold sqrt_exact, Qle; simpl.
  pose proof (Z.sqrt_nonneg (Qnum (Qred x))). lia.
Qed.

Lemma sqrt_exact_pos (x : Q) : 0 < x -> 0 < sqrt_exact x.
Proof.
  intros Hx. unfold sqrt_exact, Qlt; simpl.
  assert (H : 0 < Qred x) by (rewrite Qred_correct; exact Hx).
  unfold Qlt in H; simpl in H.
  assert (0 < Z.sqrt (Qnum (Qred x)))%Z by (apply Z.sqrt_pos; lia).
  lia.
Qed.

Definition ExactMath : JSMath :=
  {| Math_pow := pow_int;
     Math_sqrt := sqrt_exact;
     Math_sqrt_nonneg := sqrt_exact_nonneg;
     Math_sqrt_pos := sqrt_exact_pos |}.

Lemma pow_int_integer (b : Q) (n : Z) : pow_int b (inject_Z n) = Qpower b n.
Proof.
  unfold pow_int. rewrite Qfloor_Z. reflexivity.
Qed.

Lemma Pos_sqrt_square (d : positive) : Pos.sqrt (d * d) = d.
Proof.
  apply Pos2Z.inj. rewrite Pos2Z.inj_sqrt, Pos2Z.inj_mul.
  apply Z.sqrt_square. lia.
Qed.

Lemma Qred_square (r : Q) : Qred r = r -> Qred (r * r) = r * r.
Proof.
  intros H. apply Qred_identity. apply Qred_identity2 in H.
  destruct r as [n d]. unfold Qmult; cbn [Qnum Qden] in *.
  rewrite Pos2Z.inj_mul.
  apply Z.coprime_mul_l; apply Z.coprime_mul_r; exact H.
Qed.

Lemma sqrt_exact_square (q : Q) : 0 <= q -> sqrt_exact (q * q) == q.
Proof.
  intros Hq. unfold sqrt_exact. cbv zeta.
  assert (E : Qred (q * q) = Qred q * Qred q).
  { rewrite <- (Qred_square (Qred q)) by apply Qred_involutive.
    apply Qred_complete. rewrite !Qred_correct. reflexivity. }
  rewrite E.
  assert (Hr : 0 <= Qred q) by (rewrite Qred_correct; exact Hq).
  apply Qeq_trans with (Qred q); [|apply Qred_correct].
  destruct (Qred q) as [n d]. unfold Qmult; cbn [Qnum Qden].
  rewrite Pos_sqrt_square, Z.sqrt_square; [reflexivity|].
  unfold Qle in Hr; cbn in Hr. lia.
Qed.

(** ** Exceptions *)

Inductive result (A : Type) : Type :=
| Ok (a : A)
| Throw.
Arguments Ok {A} a.
Arguments Throw {A}.

Definition bind {A B : Type} (r : result A) (k : A -> result B) : result B :=
  match r with
  | Ok a => k a
  | Throw => Throw
  end.

Notation "x <- r ;; k" := (bind r (fun x => k))
  (at level 61, r at next level, right associativity).

(** [try { r } catch (err) { h }]. *)
Definition try_catch {A : Type} (r : result A) (h : A) : A :=
  match r with
  | Ok a => a
  | Throw => h
  end.

(** ** Numbers that may be NaN

    [None] is NaN.  Arithmetic and [Math.min]/[Math.max] propagate it; a
    comparison with it is false; it is falsy. *)
Definition num : Type := option Q.

Definition nan2 (f : Q -> Q -> Q) (a b : num) : num :=
  match a, b with
  | Some x, Some y => Some (f x y)
  | _, _ => None
  end.
Definition nan_add : num -> num -> num := nan2 Qplus.
Definition nan_sub : num -> num -> num := nan2 Qminus.
Definition nan_mul : num -> num -> num := nan2 Qmult.
Definition nan_max : num -> num -> num := nan2 Math_max.
Definition nan_min : num -> num -> num := nan2 Math_min.
Definition nan_abs (a : num) : num := option_map Math_abs a.
(** [x || d] *)
Definition nan_or (x : num) (d : Q) : Q :=
  match x with Some v => num_or v d | None => d end.

(** ** Numbers that may be infinite

    The learning rate of [learn] is any number: [Infinity] and [-Infinity]
    too, and NaN ([ENaN]).  The arithmetic of the line that updates the
    weight is written out for them. *)
Inductive ext : Type :=
| Fin (q : Q)
| PInf
| NInf
| ENaN.

Definition ext_of_num (x : num) : ext :=
  match x with
  | Some q => Fin q
  | None => ENaN
  end.

(** The sign of a number that is not NaN. *)
Definition ext_sign (x : ext) : comparison :=
  match x with
  | Fin q => Qcompare q 0
  | PInf => Gt
  | NInf => Lt
  | ENaN => Eq
  end.

(** [a * b]: zero times an infinity is NaN. *)
Definition ext_mul (a b : ext) : ext :=
  match a, b with
  | ENaN, _ | _, ENaN => ENaN
  | Fin x, Fin y => Fin (x * y)
  | _, _ =>
      match ext_sign a, ext_sign b with
      | Eq, _ | _, Eq => ENaN
      | Gt, Gt | Lt, Lt => PInf
      | _, _ => NInf
      end
  end.

(** [a + b]: the sum of the two infinities is NaN. *)
Definition ext_add (a b : ext) : ext :=
  match a, b with
  | ENaN, _ | _, ENaN => ENaN
  | Fin x, Fin y => Fin (x + y)
  | PInf, NInf | NInf, PInf => ENaN
  | PInf, _ | _, PInf => PInf
  | NInf, _ | _, NInf => NInf
  end.

(** [Math.max(a, x)] for a finite [a]. *)
Definition ext_max (a : Q) (x : ext) : ext :=
  match x with
  | Fin q => Fin (Math_max a q)
  | PInf => PInf
  | NInf => Fin a
  | ENaN => ENaN
  end.

(** [Math.pow(b, e)] for a finite base: with an infinite exponent the
    result depends on [Math.abs(b)] being below, at or above 1. *)
Definition ext_pow {M : JSMath} (b : Q) (e : ext) : ext :=
  match e with
  | Fin y => Fin (Math_pow b y)
  | PInf =>
      match Qcompare (Math_abs b) 1 with
      | Lt => Fin 0
      | Eq => ENaN
      | Gt => PInf
      end
  | NInf =>
      match Qcompare (Math_abs b) 1 with
      | Lt => PInf
      | Eq => ENaN
      | Gt => Fin 0
      end
  | ENaN => ENaN
  end.

(** [Math.max(lo, Math.min(hi, x))] for finite [lo] and [hi]: a number, or
    NaN for NaN. *)
Definition ext_clamp (lo hi : Q) (x : ext) : num :=
  match x with
  | Fin q => Some (Math_max lo (Math_min hi q))
  | PInf => Some (Math_max lo hi)
  | NInf => Some lo
  | ENaN => None
  end.

(** ** The learning state of a model ([KBTModel], [AIModel]) *)

Module Model.
Record state : Type := mk {
  id : string;
  name : string;
  weight : num;
  history : list Z;
  wins : Z;
  losses : Z;
  lookback : Z;
  emaAccuracy : Q;
  emaAlpha : Q;
  minWeight : Q;
  maxWeight : Q;
  decay : Q
}.
End Model.

(** The record [{ wins, losses, weight, emaAccuracy }] that [learn] returns. *)
Module Stats.
Record t : Type := mk {
  wins : Z;
  losses : Z;
  weight : num;
  emaAccuracy : Q
}.
End Stats.

(** The second argument of [learn]: left out; an object whose [lr] is a
    finite number ([Some]) or is not a number at all ([None]); an object
    whose [lr] is NaN; an object whose [lr] is [Infinity] or, with
    [negative], [-Infinity].  The last three are numbers for [typeof]. *)
Inductive LearnArg : Type :=
| NoArg
| ObjArg (lr : option Q)
| ObjNaN
| ObjInfinity (negative : bool).

(** [new KBTModel(id)] *)
Definition KBTModel_new (id : string) : Model.state :=
  {| Model.id := id;
     Model.name := "KBT Ultralogic";
     Model.weight := Some 1;
     Model.history := [];
     Model.wins := 0;
     Model.losses := 0;
     Model.lookback := 200;
     Model.emaAccuracy := 1 # 2;
     Model.emaAlpha := 5 # 100;
     Model.minWeight := 2 # 10;
     Model.maxWeight := 3;
     Model.decay := 999 # 1000 |}.

(** [new AIModel(id)] *)
Definition AIModel_new (id : string) : Model.state :=
  {| Model.id := id;
     Model.name := "FLONZA_V4_HYBRID";
     Model.weight := Some 1;
     Model.history := [];
     Model.wins := 0;
     Model.losses := 0;
     Model.lookback := 200;
     Model.emaAccuracy := 1 # 2;
     Model.emaAlpha := 5 # 100;
     Model.minWeight := 2 # 10;
     Model.maxWeight := 3;
     Model.decay := 999 # 1000 |}.

(** [this.history.push(v); if (this.history.length > this.lookback) this.history.shift();] *)
Definition push_outcome (h : list Z) (v : Z) (lookback : Z) : list Z :=
  let h' := h ++ [v] in
  if (lookback <? Z.of_nat (List.length h'))%Z then tl h' else h'.

Section Learn.
Context {M : JSMath}.

(** [KBTModel.prototype.learn(wasWin, options = {})] *)
Definition KBTModel_learn (s : Model.state) (wasWin : bool) (options : LearnArg)
  : Model.state * Stats.t :=
  let v := if wasWin then 1%Z else 0%Z in
  let history := push_outcome (Model.history s) v (Model.lookback s) in
  let wins := if wasWin then (Model.wins s + 1)%Z else Model.wins s in
  let losses := if wasWin then Model.losses s else (Model.losses s + 1)%Z in
  let total := (wins + losses)%Z in
  let instantAcc :=
    if (0 <? total)%Z then inject_Z wins / inject_Z total else 1 # 2 in
  let emaAccuracy :=
    Model.emaAccuracy s * (1 - Model.emaAlpha s) + instantAcc * Model.emaAlpha s in
  let advantage := emaAccuracy - (1 # 2) in
  let delta := advantage * (1 # 2) in
  let lr : ext :=
    match options with
    | ObjArg (Some x) => ext_max (1 # 10) (Fin x)
    | ObjNaN => ext_max (1 # 10) ENaN
    | ObjInfinity negative => ext_max (1 # 10) (if negative then NInf else PInf)
    | _ => Fin 1
    end in
  let weight :=
    ext_clamp (Model.minWeight s) (Model.maxWeight s)
      (ext_add (ext_mul (ext_of_num (Model.weight s)) (ext_pow (Model.decay s) lr))
         (ext_mul (Fin (1 + delta)) lr)) in
  ({| Model.id := Model.id s;
      Model.name := Model.name s;
      Model.weight := weight;
      Model.history := history;
      Model.wins := wins;
      Model.losses := losses;
      Model.lookback := Model.lookback s;
      Model.emaAccuracy := emaAccuracy;
      Model.emaAlpha := Model.emaAlpha s;
      Model.minWeight := Model.minWeight s;
      Model.maxWeight := Model.maxWeight s;
      Model.decay := Model.decay s |},
   {| Stats.wins := wins;
      Stats.losses := losses;
      Stats.weight := weight;
      Stats.emaAccuracy := emaAccuracy |}).

(** [AIModel.prototype.learn(wasWin)], which reads its options from
    [arguments[1]]. *)
Definition AIModel_learn (s : Model.state) (wasWin : bool) (arg1 : LearnArg)
  : Model.state * Stats.t :=
  let v := if wasWin then 1%Z else 0%Z in
  let history := push_outcome (Model.history s) v (Model.lookback s) in
  let wins := if wasWin then (Model.wins s + 1)%Z else Model.wins s in
  let losses := if wasWin then Model.losses s else (Model.losses s + 1)%Z in
  let total := (wins + losses)%Z in
  let instantAcc :=
    if (0 <? total)%Z then inject_Z wins / inject_Z total else 1 # 2 in
  let emaAccuracy :=
    Model.emaAccuracy s * (1 - Model.emaAlpha s) + instantAcc * Model.emaAlpha s in
  let advantage := emaAccuracy - (1 # 2) in
  let delta := advantage * (1 # 2) in
  let lr : ext :=
    match arg1 with
    | NoArg => Fin 1
    | ObjArg None => Fin 1
    | ObjArg (Some x) => ext_max (1 # 10) (Fin x)
    | ObjNaN => ext_max (1 # 10) ENaN
    | ObjInfinity negative => ext_max (1 # 10) (if negative then NInf else PInf)
    end in
  let weight :=
    ext_clamp (Model.minWeight s) (Model.maxWeight s)
      (ext_add (ext_mul (ext_of_num (Model.weight s)) (ext_pow (Model.decay s) lr))
         (ext_mul (Fin (1 + delta)) lr)) in
  ({| Model.id := Model.id s;
      Model.name := Model.name s;
      Model.weight := weight;
      Model.history := history;
      Model.wins := wins;
      Model.losses := losses;
      Model.lookback := Model.lookback s;
      Model.emaAccuracy := emaAccuracy;
      Model.emaAlpha := Model.emaAlpha s;
      Model.minWeight := Model.minWeight s;
      Model.maxWeight := Model.maxWeight s;
      Model.decay := Model.decay s |},
   {| Stats.wins := wins;
      Stats.losses := losses;
      Stats.weight := weight;
      Stats.emaAccuracy := emaAccuracy |}).

End Learn.

(** ** Events, histories, options and signals *)

(** One element of the history: an object whose [resultType], [number] and
    [createTime] may be missing.  [createTime] holds the epoch milliseconds
    that [new Date(createTime).getTime()] yields; [None] is a missing or
    falsy value. *)
Module Event.
Record t : Type := mk {
  resultType : option string;
  number : option Z;
  createTime : option Z
}.
End Event.

(** The [history] argument: anything that is not an array, or an array
    whose elements are events or [null]/[undefined] ([None]). *)
Inductive History : Type :=
| NotArray
| HArray (entries : list (option Event.t)).

(** The [options] argument of [predict]: [null], or an object.  Leaving the
    argument out makes it the empty object [OptionsObj None None]. *)
Inductive Options : Type :=
| OptionsNull
| OptionsObj (consecutiveLosses : option Z) (lastPrediction : option string).

(** The [logic] of a signal is a number in [kbt_models.js] and a string in
    [ai_models.js]. *)
Inductive Logic : Type :=
| LogicNum (n : Z)
| LogicStr (s : string).

(** An entry of the [contributors] list of [flonzaElitePredict]. *)
Module SubVote.
Record t : Type := mk {
  model : string;
  prediction : option string;
  confidence : option Q
}.
End SubVote.

(** What a model's [predict] returns. *)
Module Signal.
Record t : Type := mk {
  prediction : string;
  confidence : Q;
  logic : option Logic;
  patterns : option (list string);
  contributors : option (list SubVote.t);
  modelId : option string;
  modelName : option string;
  modelWeight : option num
}.
End Signal.

(** [{ prediction: 'BIG', confidence: 50 }] *)
Definition neutral : Signal.t :=
  {| Signal.prediction := "BIG";
     Signal.confidence := 50;
     Signal.logic := None;
     Signal.patterns := None;
     Signal.contributors := None;
     Signal.modelId := None;
     Signal.modelName := None;
     Signal.modelWeight := None |}.

(** An element of [this.models]: the learning state with the two methods
    the manager calls.  [predict] may throw, or return a falsy value
    ([Ok None]). *)
Module Predictor.
Record t : Type := mk {
  st : Model.state;
  predict : Model.state -> Z -> History -> Options -> result (option Signal.t);
  learn : Model.state -> bool -> LearnArg -> Model.state * Stats.t
}.
End Predictor.

(** [{ model: m, p, score }] *)
Module Pred.
Record t : Type := mk {
  model : Predictor.t;
  p : Signal.t;
  score : Q
}.
End Pred.

(** An entry of [contributing]; [reliability] is set on the consensus path
    only. *)
Module Contributor.
Record t : Type := mk {
  id : string;
  name : string;
  weight : num;
  prediction : string;
  confidence : Q;
  reliability : option (option Q)
}.
End Contributor.

(** The object [ModelManager.predict] returns.  [chosenModel] is [null] in
    the no-models answer; [contributing] is missing ([None]) where the code
    builds the object without it. *)
Module Decision.
Record t : Type := mk {
  prediction : string;
  confidence : Q;
  logic : string;
  patterns : list string;
  chosenModel : option string;
  contributing : option (list Contributor.t)
}.
End Decision.

(** The [ModelManager] fields that [predict] and [learn] read.  The pg pool
    and [lastPredictions] are left out: persistence is fire-and-forget and
    [lastPredictions] is never read. *)
Module Manager.
Record t : Type := mk {
  models : list Predictor.t;
  minConfidence : Q;
  consensusThreshold : Q;
  stabilityWindow : Z
}.
End Manager.

(** ** Array helpers *)

(** [new Set(l)], in insertion order. *)
Fixpoint set_from (seen : list string) (l : list string) : list string :=
  match l with
  | [] => []
  | x :: r =>
      if existsb (String.eqb x) seen then set_from seen r
      else x :: set_from (x :: seen) r
  end.
Definition Set_of (l : list string) : list string := set_from [] l.

(** [l.filter(r => r.resultType === ty).length]; reading [r.resultType]
    throws on a [null] element. *)
Definition is_type (ty : string) (e : Event.t) : bool :=
  match Event.resultType e with
  | Some s => String.eqb s ty
  | None => false
  end.

Fixpoint count_type (ty : string) (l : list (option Event.t)) : result Z :=
  match l with
  | [] => Ok 0%Z
  | None :: _ => Throw
  | Some e :: r =>
      n <- count_type ty r ;;
      Ok (if is_type ty e then (n + 1)%Z else n)
  end.

(** [preds.sort((a, b) => b.score - a.score)]: the stable sort, scores
    descending. *)
Fixpoint insert_pred (x : Pred.t) (l : list Pred.t) : list Pred.t :=
  match l with
  | [] => [x]
  | y :: r =>
      if Qltb (Pred.score x) (Pred.score y) then y :: insert_pred x r
      else x :: y :: r
  end.

Fixpoint sort_preds (l : list Pred.t) : list Pred.t :=
  match l with
  | [] => []
  | x :: r => insert_pred x (sort_preds r)
  end.

(** ** prediction_helpers.js: the consensus analysis *)

Module Consensus.
Record t : Type := mk {
  agreement : option Q;
  prediction : string
}.
End Consensus.

Module Overlap.
Record t : Type := mk {
  score : option Q;
  patterns : list string
}.
End Overlap.

(** A comparison [x > c] where [x] may be NaN ([None]): false on NaN. *)
Definition nan_gtb (x : option Q) (c : Q) : bool :=
  match x with
  | Some v => Qgtb v c
  | None => false
  end.

(** [calculateConsensusStrength(predictions)]; with no prediction the
    quotient is 0/0. *)
Definition calculateConsensusStrength (predictions : list Pred.t) : Consensus.t :=
  let total := Z.of_nat (List.length predictions) in
  let bigVotes :=
    Z.of_nat (List.length
      (filter (fun p => String.eqb (Signal.prediction (Pred.p p)) "BIG") predictions)) in
  let agreement :=
    if (total =? 0)%Z then None
    else Some (inject_Z (Z.max bigVotes (total - bigVotes)) / inject_Z total) in
  {| Consensus.agreement := agreement;
     Consensus.prediction :=
       if Qgtb (inject_Z bigVotes) (inject_Z total / 2) then "BIG" else "SMALL" |}.

(** [p.patterns || []] *)
Definition patterns_or_empty (s : Signal.t) : list string :=
  match Signal.patterns s with
  | Some l => l
  | None => []
  end.

(** [analyzePatternOverlap(predictions)]; with no pattern at all the
    quotient is 0/0. *)
Definition analyzePatternOverlap (predictions : list Pred.t) : Overlap.t :=
  let allPatterns := flat_map (fun p => patterns_or_empty (Pred.p p)) predictions in
  let uniquePatterns := Set_of allPatterns in
  let overlap :=
    if (List.length allPatterns =? 0)%nat then None
    else Some (1 - inject_Z (Z.of_nat (List.length uniquePatterns))
                   / inject_Z (Z.of_nat (List.length allPatterns))) in
  {| Overlap.score := overlap; Overlap.patterns := uniquePatterns |}.

(** The object [reliability] of [assessModelReliability], keyed by model
    id: the newest binding of a key is the first one found. *)
Definition Reliability : Type := list (string * Q).

Fixpoint rel_get (r : Reliability) (k : string) : option Q :=
  match r with
  | [] => None
  | (k', v) :: r' => if String.eqb k' k then Some v else rel_get r' k
  end.

Definition rel_set (r : Reliability) (k : string) (v : Q) : Reliability :=
  (k, v) :: r.

(** [assessModelReliability(predictions)] *)
Definition assessModelReliability (predictions : list Pred.t) : Reliability :=
  fold_left
    (fun reliability p =>
       let m := Predictor.st (Pred.model p) in
       rel_set reliability (Model.id m)
         (Math_min 1 (nan_or (Model.weight m) (1 # 2)
                      * num_or (Model.emaAccuracy m) (1 # 2) * 2)))
    predictions [].

(** [calculateEnhancedConfidence(params)].  [agreement] and [score] are
    [consensusStrength.agreement] and [patternOverlap.score], which are
    numbers at the one call.  A key that [modelReliability] lacks would
    make the sum NaN; the caller passes the object built from the same
    [predictions], which has every key (lemma [rel_get_assess]), and the
    case reads [0] here.  The product under [Math.round] is exact here;
    the code has it in doubles, and where it is at a half (or within the
    error of the doubles of one) the code may round to the other
    neighbour: twelve new [KBTModel]s on two BIG events give 78 here and
    77 in the code. *)
Definition calculateEnhancedConfidence (predictions : list Pred.t)
    (agreement score : Q) (modelReliability : Reliability) : Q :=
  let baseConfidence :=
    fold_left
      (fun acc p =>
         acc + Signal.confidence (Pred.p p)
               * match rel_get modelReliability
                         (Model.id (Predictor.st (Pred.model p))) with
                 | Some r => r
                 | None => 0
                 end)
      predictions 0
    / inject_Z (Z.of_nat (List.length predictions)) in
  let enhancementFactor :=
    Math_min (13 # 10) (1 + agreement * (2 # 10) + score * (1 # 10)) in
  Math_min 92 (inject_Z (Math_round (baseConfidence * enhancementFactor))).

(** ** model_manager.js: [ModelManager.predict] *)

(** [new ModelManager()] holds [models], filled by the caller of this
    definition, and the settings below. *)
Definition ModelManager_new (models : list Predictor.t) : Manager.t :=
  {| Manager.models := models;
     Manager.minConfidence := 65;
     Manager.consensusThreshold := 75 # 100;
     Manager.stabilityWindow := 100 |}.

(** The callback of [this.models.map(...)]: the model's signal, or the
    neutral one when [predict] returns a falsy value or throws. *)
Definition run_model (now : Z) (history : History) (options : Options)
    (m : Predictor.t) : Pred.t :=
  try_catch
    (r <- Predictor.predict m (Predictor.st m) now history options ;;
     let p := match r with Some s => s | None => neutral end in
     let score := num_or (Signal.confidence p) 50
                  * nan_or (Model.weight (Predictor.st m)) 1 in
     Ok {| Pred.model := m; Pred.p := p; Pred.score := score |})
    {| Pred.model := m;
       Pred.p := neutral;
       Pred.score := 50 * nan_or (Model.weight (Predictor.st m)) 1 |}.

(** [x.model.id || x.model.name] *)
Definition id_or_name (m : Predictor.t) : string :=
  str_or (Model.id (Predictor.st m)) (Model.name (Predictor.st m)).

(** [top.p.logic || 'model'], inside a template literal. *)
Definition logic_or_model (s : Signal.t) : string :=
  match Signal.logic s with
  | Some (LogicNum n) => if (n =? 0)%Z then "model" else string_of_Z n
  | Some (LogicStr t) => str_or t "model"
  | None => "model"
  end.

(** The [contributing] list of the consensus branch. *)
Definition contributing_consensus (modelReliability : Reliability)
    (preds : list Pred.t) : list Contributor.t :=
  map (fun x =>
         let m := Predictor.st (Pred.model x) in
         {| Contributor.id := id_or_name (Pred.model x);
            Contributor.name := Model.name m;
            Contributor.weight :=
              nan_mul (Model.weight m)
                (Some match rel_get modelReliability (Model.id m) with
                      | Some r => num_or r 1
                      | None => 1
                      end);
            Contributor.prediction := Signal.prediction (Pred.p x);
            Contributor.confidence := Signal.confidence (Pred.p x);
            Contributor.reliability := Some (rel_get modelReliability (Model.id m)) |})
      preds.

(** The [contributing] list of the top-model branch. *)
Definition contributing_top (preds : list Pred.t) : list Contributor.t :=
  map (fun x =>
         let m := Predictor.st (Pred.model x) in
         {| Contributor.id := id_or_name (Pred.model x);
            Contributor.name := Model.name m;
            Contributor.weight := Model.weight m;
            Contributor.prediction := Signal.prediction (Pred.p x);
            Contributor.confidence := Signal.confidence (Pred.p x);
            Contributor.reliability := None |})
      preds.

(** The [contributing] list of the single-model branch, which reads
    [x.model.id] without the fallback to the name. *)
Definition contributing_single (preds : list Pred.t) : list Contributor.t :=
  map (fun x =>
         let m := Predictor.st (Pred.model x) in
         {| Contributor.id := Model.id m;
            Contributor.name := Model.name m;
            Contributor.weight := Model.weight m;
            Contributor.prediction := Signal.prediction (Pred.p x);
            Contributor.confidence := Signal.confidence (Pred.p x);
            Contributor.reliability := None |})
      preds.

(** The object of the fallback on the recent bias; it has no
    [contributing]. *)
Definition fallback_decision (prediction : string) (adjustedConf : Q) : Decision.t :=
  {| Decision.prediction := prediction;
     Decision.confidence := Math_max 55 (inject_Z (Math_round (adjustedConf - 10)));
     Decision.logic := "fallback-low-consensus-bias";
     Decision.patterns := [];
     Decision.chosenModel := Some "fallback";
     Decision.contributing := None |}.

(** The object built under [if (useTop)]. *)
Definition top_decision (top : Pred.t) (adjustedConf : Q) (preds : list Pred.t)
  : Decision.t :=
  {| Decision.prediction := Signal.prediction (Pred.p top);
     Decision.confidence := adjustedConf;
     Decision.logic :=
       Model.id (Predictor.st (Pred.model top)) ++ ":" ++ logic_or_model (Pred.p top);
     Decision.patterns := patterns_or_empty (Pred.p top);
     Decision.chosenModel := Some (id_or_name (Pred.model top));
     Decision.contributing := Some (contributing_top preds) |}.

(** The recent bias: the share of BIG among the first 20 elements of the
    history, [0.5] for an empty one. *)
Definition recent_bias (history : History) : result Q :=
  let look := match history with HArray l => l | NotArray => [] end in
  let recent := firstn 20 look in
  bigCount <- count_type "BIG" recent ;;
  Ok (if (List.length recent =? 0)%nat then 1 # 2
      else inject_Z bigCount / inject_Z (Z.of_nat (List.length recent))).

(** The [else] branch of the consensus test: the top model, or the
    fallback on the recent bias when the two best scores are close. *)
Definition low_consensus (p0 p1 : Pred.t) (preds : list Pred.t) (history : History)
  : result Decision.t :=
  let top := p0 in
  let adjustedConf := Signal.confidence (Pred.p top) in
  let gap := Pred.score p0 - Pred.score p1 in
  if Qltb gap 15 then
    bias <- recent_bias history ;;
    if Qgtb bias (6 # 10) then Ok (fallback_decision "BIG" adjustedConf)
    else if Qltb bias (4 # 10) then Ok (fallback_decision "SMALL" adjustedConf)
    else Ok (top_decision top
               (Math_max 50 (inject_Z (Math_round (adjustedConf - 12)))) preds)
  else Ok (top_decision top adjustedConf preds).

(** The object of the consensus branch. *)
Definition consensus_decision (p0 p1 : Pred.t) (preds : list Pred.t)
    (consensusStrength : Consensus.t) (agreement score : Q)
    (modelReliability : Reliability) : Decision.t :=
  let combinedConf :=
    calculateEnhancedConfidence preds agreement score modelReliability in
  {| Decision.prediction := Consensus.prediction consensusStrength;
     Decision.confidence := combinedConf;
     Decision.logic :=
       "ENHANCED_ENSEMBLE: " ++ Model.id (Predictor.st (Pred.model p0))
       ++ "+" ++ Model.id (Predictor.st (Pred.model p1));
     Decision.patterns :=
       Set_of (patterns_or_empty (Pred.p p0) ++ patterns_or_empty (Pred.p p1)
               ++ [ ("Consensus_" ++ string_of_Z (Math_round (agreement * 100)))%string;
                    ("PatternMatch_" ++ string_of_Z (Math_round (score * 100)))%string ])%list;
     Decision.chosenModel := Some "enhanced_ensemble";
     Decision.contributing := Some (contributing_consensus modelReliability preds) |}.

(** The value of [final] before the floor, with two models or more
    ([p0] and [p1] head the sorted [preds]). *)
Definition decide (p0 p1 : Pred.t) (preds : list Pred.t) (history : History)
  : result Decision.t :=
  let consensusStrength := calculateConsensusStrength preds in
  let patternOverlap := analyzePatternOverlap preds in
  let modelReliability := assessModelReliability preds in
  match Consensus.agreement consensusStrength, Overlap.score patternOverlap with
  | Some agreement, Some score =>
      if Qgtb agreement (75 # 100) && Qgtb score (6 # 10) then
        Ok (consensus_decision p0 p1 preds consensusStrength agreement score
              modelReliability)
      else low_consensus p0 p1 preds history
  | _, _ => low_consensus p0 p1 preds history
  end.

(** [if (final.confidence < this.minConfidence) final.confidence = this.minConfidence;] *)
Definition enforce_minConfidence (minConfidence : Q) (final : Decision.t) : Decision.t :=
  if Qltb (Decision.confidence final) minConfidence then
    {| Decision.prediction := Decision.prediction final;
       Decision.confidence := minConfidence;
       Decision.logic := Decision.logic final;
       Decision.patterns := Decision.patterns final;
       Decision.chosenModel := Decision.chosenModel final;
       Decision.contributing := Decision.contributing final |}
  else final.

(** The answer with no model. *)
Definition no_models_decision (minConfidence : Q) : Decision.t :=
  {| Decision.prediction := "UNKNOWN";
     Decision.confidence := Math_max 50 (num_or minConfidence 50);
     Decision.logic := "no-models";
     Decision.patterns := [];
     Decision.chosenModel := None;
     Decision.contributing := Some [] |}.

(** The answer with a single model. *)
Definition single_decision (minConfidence : Q) (top : Pred.t) (preds : list Pred.t)
  : Decision.t :=
  {| Decision.prediction := Signal.prediction (Pred.p top);
     Decision.confidence := Math_max minConfidence (Signal.confidence (Pred.p top));
     Decision.logic :=
       Model.id (Predictor.st (Pred.model top)) ++ ":" ++ logic_or_model (Pred.p top);
     Decision.patterns := patterns_or_empty (Pred.p top);
     Decision.chosenModel := Some (Model.id (Predictor.st (Pred.model top)));
     Decision.contributing := Some (contributing_single preds) |}.

(** [ModelManager.prototype.predict(history, options = {})].  No model is
    written to: the manager is an argument only. *)
Definition ModelManager_predict (mm : Manager.t) (now : Z) (history : History)
    (options : Options) : result Decision.t :=
  match Manager.models mm with
  | [] => Ok (no_models_decision (Manager.minConfidence mm))
  | _ =>
      let preds := sort_preds (map (run_model now history options) (Manager.models mm)) in
      match preds with
      | p0 :: p1 :: _ =>
          final <- decide p0 p1 preds history ;;
          Ok (enforce_minConfidence (Manager.minConfidence mm) final)
      | [top] => Ok (single_decision (Manager.minConfidence mm) top preds)
      | [] => Throw
      end
  end.

(** ** model_manager.js: [ModelManager.learn] and [learnMultiple] *)

(** The [context] argument: an object whose [consecutiveLosses] may be
    missing. *)
Module LearnContext.
Record t : Type := mk {
  consecutiveLosses : option Z
}.
End LearnContext.

(** An entry of the list [learnMultiple] returns. *)
Module LearnResult.
Record t : Type := mk {
  id : string;
  lr : Q;
  res : Stats.t
}.
End LearnResult.

(** [1 + Math.min(3, streak * 0.4)] with [streak = context.consecutiveLosses || 0]. *)
Definition baseLR (context : LearnContext.t) : Q :=
  let streak :=
    match LearnContext.consecutiveLosses context with
    | Some n => n
    | None => 0%Z
    end in
  1 + Math_min 3 (inject_Z streak * (4 # 10)).

(** [this.models.find(x => (x.id || x.name) === key)] followed by
    [m.learn(wasWin, { lr })] on the model found, which is updated in its
    place. *)
Fixpoint learn_in (models : list Predictor.t) (key : string) (wasWin : bool) (lr : Q)
  : option (list Predictor.t * Predictor.t * Stats.t) :=
  match models with
  | [] => None
  | m :: rest =>
      if String.eqb (id_or_name m) key then
        let (s', res) := Predictor.learn m (Predictor.st m) wasWin (ObjArg (Some lr)) in
        let m' := {| Predictor.st := s';
                     Predictor.predict := Predictor.predict m;
                     Predictor.learn := Predictor.learn m |} in
        Some (m' :: rest, m', res)
      else
        match learn_in rest key wasWin lr with
        | Some (rest', m', res) => Some (m :: rest', m', res)
        | None => None
        end
  end.

Definition with_models (mm : Manager.t) (models : list Predictor.t) : Manager.t :=
  {| Manager.models := models;
     Manager.minConfidence := Manager.minConfidence mm;
     Manager.consensusThreshold := Manager.consensusThreshold mm;
     Manager.stabilityWindow := Manager.stabilityWindow mm |}.

(** [ModelManager.prototype.learn(chosenModelId, wasWin, context = {})];
    [None] is the [null] of an unknown id. *)
Definition ModelManager_learn (mm : Manager.t) (chosenModelId : string)
    (wasWin : bool) (context : LearnContext.t) : Manager.t * option Stats.t :=
  let lr := baseLR context in
  match learn_in (Manager.models mm) chosenModelId wasWin lr with
  | None => (mm, None)
  | Some (models', _, res) => (with_models mm models', Some res)
  end.

(** [(c.weight || 1) * (c.confidence || 50)] *)
Definition contribution_score (c : Contributor.t) : Q :=
  nan_or (Contributor.weight c) 1 * num_or (Contributor.confidence c) 50.

(** [contributions.reduce((s, c) => s + ..., 0) || 1] *)
Definition totalScore (contributions : list Contributor.t) : Q :=
  num_or (fold_left (fun s c => s + contribution_score c) contributions 0) 1.

(** The [share] of a contributor. *)
Definition share (total : Q) (c : Contributor.t) : Q :=
  contribution_score c / total.

(** [baseLR * (0.2 + 0.8 * share)] *)
Definition lr2 (base total : Q) (c : Contributor.t) : Q :=
  base * ((2 # 10) + (8 # 10) * share total c).

(** One turn of the [for (const c of contributions)] loop. *)
Definition learnMultiple_step (wasWin : bool) (base total : Q)
    (acc : list Predictor.t * list LearnResult.t) (c : Contributor.t)
  : list Predictor.t * list LearnResult.t :=
  let (models, results) := acc in
  match learn_in models (Contributor.id c) wasWin (lr2 base total c) with
  | None => (models, results)
  | Some (models', m', r) =>
      (models',
       results ++ [ {| LearnResult.id := Model.id (Predictor.st m');
                       LearnResult.lr := lr2 base total c;
                       LearnResult.res := r |} ])
  end.

(** [ModelManager.prototype.learnMultiple(contributions = [], wasWin, context = {})];
    [None] is the [null] of an empty list. *)
Definition ModelManager_learnMultiple (mm : Manager.t)
    (contributions : list Contributor.t) (wasWin : bool) (context : LearnContext.t)
  : Manager.t * option (list LearnResult.t) :=
  match contributions with
  | [] => (mm, None)
  | _ =>
      let total := totalScore contributions in
      let base := baseLR context in
      let (models', results) :=
        fold_left (learnMultiple_step wasWin base total) contributions
          (Manager.models mm, []) in
      (with_models mm models', Some results)
  end.

(** ** Reading the elements of a history *)

(** A property read on an element: a TypeError on [null]/[undefined]. *)
Definition get (x : option Event.t) : result Event.t :=
  match x with
  | Some e => Ok e
  | None => Throw
  end.

(** [l[i].prop]: an index out of range reads [undefined]. *)
Definition at_ (l : list (option Event.t)) (i : nat) : result Event.t :=
  match nth_error l i with
  | Some x => get x
  | None => Throw
  end.

(** [a === b] on two [resultType] values ([None] is [undefined]). *)
Definition rt_eqb (a b : option string) : bool :=
  match a, b with
  | Some x, Some y => String.eqb x y
  | None, None => true
  | _, _ => false
  end.

(** [t === "BIG" ? "SMALL" : "BIG"] *)
Definition opposite (t : option string) : string :=
  if rt_eqb t (Some "BIG") then "SMALL" else "BIG".

(** [new Date(e.createTime || Date.now()).getTime()] *)
Definition event_time (now : Z) (e : Event.t) : Z :=
  match Event.createTime e with
  | Some t => if (t =? 0)%Z then now else t
  | None => now
  end.

(** The loop [for (i = 1; i < l.length; i++)] that reads the times [t1] of
    [l[i-1]] and [t2] of [l[i]] and pushes [f t1 t2]. *)
Fixpoint intervals_from (f : Z -> Z -> Z) (now : Z) (prev : option Event.t)
    (l : list (option Event.t)) : result (list Z) :=
  match l with
  | [] => Ok []
  | x :: r =>
      p <- get prev ;;
      c <- get x ;;
      rest <- intervals_from f now x r ;;
      Ok (f (event_time now p) (event_time now c) :: rest)
  end.

Definition intervals_of (f : Z -> Z -> Z) (now : Z) (l : list (option Event.t))
  : result (list Z) :=
  match l with
  | [] => Ok []
  | x :: r => intervals_from f now x r
  end.

(** [l.reduce((a, b) => a + b, 0)] *)
Definition sumQ (l : list Q) : Q := fold_left Qplus l 0.
Definition sumZ (l : list Z) : Z := fold_left Z.add l 0%Z.

Definition Qnat (n : nat) : Q := inject_Z (Z.of_nat n).

(** The loop that counts how far the run of [last] goes on from the head
    of [l] ([if (l[i].resultType === last) n++; else break;]). *)
Fixpoint run_length (last : option string) (l : list (option Event.t)) : result Z :=
  match l with
  | [] => Ok 0%Z
  | x :: r =>
      e <- get x ;;
      if rt_eqb (Event.resultType e) last then
        n <- run_length last r ;; Ok (n + 1)%Z
      else Ok 0%Z
  end.

(** The loop of [enhancedTrendAnalysis] and [machineLearningPrediction]
    that tells whether BIG and SMALL alternate: [prev] is [l[i-1]] and the
    list holds [l[i]] onwards.  [l[i]] is read only after [l[i-1]] was found
    to be BIG or SMALL. *)
Fixpoint alternating_loop (prev : option Event.t) (l : list (option Event.t))
  : result bool :=
  match l with
  | [] => Ok true
  | x :: r =>
      a <- get prev ;;
      if is_type "BIG" a then
        b <- get x ;;
        if negb (is_type "SMALL" b) then Ok false else alternating_loop x r
      else if is_type "SMALL" a then
        b <- get x ;;
        if negb (is_type "BIG" b) then Ok false else alternating_loop x r
      else alternating_loop x r
  end.

(** [for (let i = 1; i < Math.min(6, l.length); i++)] over that loop. *)
Definition alternating_upto6 (l : list (option Event.t)) : result bool :=
  match l with
  | [] => Ok true
  | x :: r => alternating_loop x (firstn 5 r)
  end.

(** ** prediction_helpers.js: the pattern detectors *)

Module Streak.
Record t : Type := mk {
  type : option string;
  length : Z
}.
End Streak.

Module Streaks.
Record t : Type := mk {
  current : Streak.t;
  historical : list Streak.t
}.
End Streaks.

(** [calculateStreakStrength(streaks)] *)
Definition calculateStreakStrength (streaks : Streaks.t) : Q :=
  let currentLen := int_or (Streak.length (Streaks.current streaks)) 0 in
  let historicalMax :=
    match map Streak.length (Streaks.historical streaks) with
    | [] => 0%Z
    | x :: r => fold_left Z.max r x
    end in
  let maxLen := Z.max currentLen historicalMax in
  Math_min 1 (inject_Z maxLen / 10).

Fixpoint detectStreaks_loop (current : Streak.t) (historical : list Streak.t)
    (l : list (option Event.t)) : result Streaks.t :=
  match l with
  | [] => Ok {| Streaks.current := current; Streaks.historical := historical |}
  | x :: r =>
      e <- get x ;;
      if rt_eqb (Event.resultType e) (Streak.type current) then
        detectStreaks_loop
          {| Streak.type := Streak.type current;
             Streak.length := (Streak.length current + 1)%Z |}
          historical r
      else
        detectStreaks_loop
          {| Streak.type := Event.resultType e; Streak.length := 1%Z |}
          (historical ++ [current]) r
  end.

Module StreakInfo.
Record t : Type := mk {
  streaks : Streaks.t;
  strength : num
}.
End StreakInfo.

(** [detectStreaks(history)] *)
Definition detectStreaks (history : list (option Event.t)) : result StreakInfo.t :=
  h0 <- at_ history 0 ;;
  streaks <- detectStreaks_loop
               {| Streak.type := Event.resultType h0; Streak.length := 1%Z |}
               [] (tl history) ;;
  Ok {| StreakInfo.streaks := streaks;
        StreakInfo.strength := Some (calculateStreakStrength streaks) |}.

Module AltInfo.
Record t : Type := mk {
  alternations : Z;
  perfectCount : Z;
  strength : num
}.
End AltInfo.

(** The loop of [detectAlternations]: [prev2] is [l[i-2]], missing at
    [i = 1]; [prev] is [l[i-1]]. *)
Fixpoint detectAlternations_loop (prev2 : option Event.t) (prev : option Event.t)
    (l : list (option Event.t)) : result (Z * Z) :=
  match l with
  | [] => Ok (0%Z, 0%Z)
  | x :: r =>
      cur <- get x ;;
      p <- get prev ;;
      rest <- detectAlternations_loop (Some p) x r ;;
      let (alternations, perfectCount) := rest in
      if negb (rt_eqb (Event.resultType cur) (Event.resultType p)) then
        Ok ((alternations + 1)%Z,
            match prev2 with
            | Some q =>
                if rt_eqb (Event.resultType cur) (Event.resultType q)
                then (perfectCount + 1)%Z else perfectCount
            | None => perfectCount
            end)
      else Ok (alternations, perfectCount)
  end.

(** [detectAlternations(history)]; with two elements the quotient is 0/0. *)
Definition detectAlternations (history : list (option Event.t)) : result AltInfo.t :=
  counts <- match history with
            | [] => Ok (0%Z, 0%Z)
            | x :: r => detectAlternations_loop None x r
            end ;;
  let (alternations, perfectCount) := counts in
  let strength :=
    if (List.length history =? 2)%nat then None
    else Some (inject_Z perfectCount / (Qnat (List.length history) - 2)) in
  Ok {| AltInfo.alternations := alternations;
        AltInfo.perfectCount := perfectCount;
        AltInfo.strength := strength |}.

Module DistInfo.
Record t : Type := mk {
  ratio : num;
  bias : num;
  strength : num
}.
End DistInfo.

(** [analyzeDistribution(history)]; with no element the ratio is 0/0. *)
Definition analyzeDistribution (history : list (option Event.t)) : result DistInfo.t :=
  bigCount <- count_type "BIG" history ;;
  let ratio : num :=
    if (List.length history =? 0)%nat then None
    else Some (inject_Z bigCount / Qnat (List.length history)) in
  Ok {| DistInfo.ratio := ratio;
        DistInfo.bias := nan_abs (nan_sub (Some (1 # 2)) ratio);
        DistInfo.strength :=
          nan_sub (Some 1) (nan_mul (Some 2) (nan_abs (nan_sub (Some (1 # 2)) ratio))) |}.

Module TimingInfo.
Record t : Type := mk {
  stability : num;
  strength : num
}.
End TimingInfo.

Definition nan_div : num -> num -> num := nan2 Qdiv.

(** The loop of [calculateVolatility]: [1] where [l[i]] and [l[i-1]]
    differ. *)
Fixpoint changes_from (prev : option Event.t) (l : list (option Event.t))
  : result (list Z) :=
  match l with
  | [] => Ok []
  | x :: r =>
      cur <- get x ;;
      p <- get prev ;;
      rest <- changes_from x r ;;
      Ok ((if negb (rt_eqb (Event.resultType cur) (Event.resultType p))
           then 1%Z else 0%Z) :: rest)
  end.

(** [calculateVolatility(history)]; with fewer than two elements the
    quotient is 0/0. *)
Definition calculateVolatility (history : list (option Event.t)) : result num :=
  changes <- match history with
             | [] => Ok []
             | x :: r => changes_from x r
             end ;;
  Ok (if (List.length changes =? 0)%nat then None
      else Some (inject_Z (sumZ changes) / Qnat (List.length changes))).

(** [detectManipulation(history)]; with fewer than two elements the
    quotient is 0/0. *)
Definition detectManipulation (now : Z) (history : list (option Event.t))
  : result num :=
  intervals <- intervals_of (fun t1 t2 => (t2 - t1)%Z) now history ;;
  Ok (if (List.length intervals =? 0)%nat then None
      else
        let avg := inject_Z (sumZ intervals) / Qnat (List.length intervals) in
        let anomalies :=
          List.length
            (filter (fun i => Qgtb (Math_abs (inject_Z i - avg)) (avg * (5 # 10)))
               intervals) in
        Some (Qnat anomalies / Qnat (List.length intervals))).

(** [assessMarketStability(history)] *)
Module MarketStability.
Record t : Type := mk {
  stabilityFactor : Q;
  isStable : bool
}.
End MarketStability.

Definition assessMarketStability (now : Z) (history : list (option Event.t))
  : result MarketStability.t :=
  v <- calculateVolatility history ;;
  m <- detectManipulation now history ;;
  let volatility := nan_or v 0 in
  let manipulation := nan_or m 0 in
  let stabilityFactor := 1 - Math_max volatility manipulation in
  Ok {| MarketStability.stabilityFactor := Math_max 0 (Math_min 1 stabilityFactor);
        MarketStability.isStable := Qgtb stabilityFactor (5 # 10) |}.

(** [analyzeWindow(history)] *)
Module WindowInfo.
Record t : Type := mk {
  prediction : string;
  confidence : Q;
  bias : Q
}.
End WindowInfo.

Definition analyzeWindow (history : list (option Event.t)) : result WindowInfo.t :=
  let windowSize := Nat.min (List.length history) 15 in
  if (windowSize =? 0)%nat then
    Ok {| WindowInfo.prediction := "BIG";
          WindowInfo.confidence := 1 # 2;
          WindowInfo.bias := 1 # 2 |}
  else
    let window := firstn windowSize history in
    bigCount <- count_type "BIG" window ;;
    let ratio := inject_Z bigCount / Qnat windowSize in
    Ok {| WindowInfo.prediction := if Qgtb ratio (5 # 10) then "BIG" else "SMALL";
          WindowInfo.confidence := Math_abs (ratio - (5 # 10));
          WindowInfo.bias := ratio |}.

(** [detectPatternStrength(history)] *)
Module PatternStrength.
Record t : Type := mk {
  strength : Q;
  pattern : string
}.
End PatternStrength.

Definition detectPatternStrength (history : list (option Event.t))
  : result PatternStrength.t :=
  streaks <- detectStreaks history ;;
  alternations <- detectAlternations history ;;
  let s := nan_or (StreakInfo.strength streaks) 0 in
  let a := nan_or (AltInfo.strength alternations) 0 in
  Ok {| PatternStrength.strength := Math_max s a;
        PatternStrength.pattern := if Qgtb s a then "streak" else "alternation" |}.

(** [windows.map(w => ...)] of [analyzeTrendStrength]: the count of BIG in
    the first [w] elements, over [w]. *)
Fixpoint trend_ratios (history : list (option Event.t)) (windows : list nat)
  : result (list Q) :=
  match windows with
  | [] => Ok []
  | w :: ws =>
      bigCount <- count_type "BIG" (firstn w history) ;;
      rest <- trend_ratios history ws ;;
      Ok (inject_Z bigCount / Qnat w :: rest)
  end.

(** [analyzeTrendStrength(history)] *)
Definition analyzeTrendStrength (history : list (option Event.t)) : result Q :=
  let windows := [5; 10; 15; 20]%nat in
  trends <- trend_ratios history windows ;;
  let consistency :=
    match trends with
    | [] => 0
    | t0 :: rest =>
        fst (fold_left
               (fun (st : Q * Q) b => (fst st + Math_abs (b - snd st), b))
               rest (0, t0))
    end / (Qnat (List.length trends) - 1) in
  Ok (1 - consistency).

(** [calculateMomentum(history)] *)
Module Momentum.
Record t : Type := mk {
  momentum : Q;
  direction : string
}.
End Momentum.

Definition big_ratio (l : list (option Event.t)) : result Q :=
  if (List.length l =? 0)%nat then Ok (5 # 10)
  else
    bigCount <- count_type "BIG" l ;;
    Ok (inject_Z bigCount / Qnat (List.length l)).

Definition calculateMomentum (history : list (option Event.t)) : result Momentum.t :=
  let recent := firstn 10 history in
  let older := firstn 10 (skipn 10 history) in
  recentRatio <- big_ratio recent ;;
  olderRatio <- big_ratio older ;;
  Ok {| Momentum.momentum := recentRatio - olderRatio;
        Momentum.direction :=
          if Qgtb (recentRatio - olderRatio) 0 then "BIG" else "SMALL" |}.

(** [detectCyclicalPatterns(history)] *)
Module Cyclical.
Record t : Type := mk {
  isCyclical : bool;
  cycleLength : Z;
  strength : Q
}.
End Cyclical.

Fixpoint sequences_loop (sequences : list (list (option string)))
    (currentSeq : list (option string)) (prev : option Event.t)
    (l : list (option Event.t)) : result (list (list (option string))) :=
  match l with
  | [] => Ok (sequences ++ [currentSeq])
  | x :: r =>
      cur <- get x ;;
      p <- get prev ;;
      if rt_eqb (Event.resultType cur) (Event.resultType p) then
        sequences_loop sequences (currentSeq ++ [Event.resultType cur]) x r
      else
        sequences_loop (sequences ++ [currentSeq]) [Event.resultType cur] x r
  end.

Definition detectCyclicalPatterns (history : list (option Event.t))
  : result Cyclical.t :=
  match history with
  | [] => Ok {| Cyclical.isCyclical := false;
                Cyclical.cycleLength := 0%Z;
                Cyclical.strength := 0 |}
  | x :: r =>
      h0 <- get x ;;
      sequences <- sequences_loop [] [Event.resultType h0] x r ;;
      let avgLength :=
        fold_left (fun s (seq : list (option string)) => s + Qnat (List.length seq))
          sequences 0
        / Qnat (List.length sequences) in
      let isCyclical :=
        Qltb (Math_abs (avgLength - inject_Z (Math_round avgLength))) (5 # 10) in
      Ok {| Cyclical.isCyclical := isCyclical;
            Cyclical.cycleLength := Math_round avgLength;
            Cyclical.strength := if isCyclical then 8 # 10 else 2 # 10 |}
  end.

(** What [combineSignals] reads of a signal: [confidence] where it is a
    number, [strength] otherwise (NaN and a missing property are both
    falsy), and [prediction]. *)
Module SigView.
Record t : Type := mk {
  confidence : option Q;
  strength : num;
  prediction : option string
}.
End SigView.

Module Combined.
Record t : Type := mk {
  finalPrediction : string;
  strength : Q;
  activePatterns : list (string * Q)
}.
End Combined.

(** [weights[type] || 0.1] of [combineSignals] *)
Definition signal_weight (type : string) : Q :=
  if String.eqb type "short" then 3 # 10
  else if String.eqb type "long" then 2 # 10
  else if String.eqb type "pattern" then 2 # 10
  else if String.eqb type "trend" then 1 # 10
  else if String.eqb type "market" then 2 # 10
  else 1 # 10.

(** [combineSignals(signals)], the entries of [signals] in their order. *)
Definition combineSignals (signals : list (string * SigView.t)) : Combined.t :=
  let '(bigScore, smallScore, totalWeight) :=
    fold_left
      (fun (acc : Q * Q * Q) (entry : string * SigView.t) =>
         let '(bigScore, smallScore, totalWeight) := acc in
         let (type, signal) := entry in
         let weight := signal_weight type in
         let conf :=
           match SigView.confidence signal with
           | Some c => c
           | None => nan_or (SigView.strength signal) (5 # 10)
           end in
         if rt_eqb (SigView.prediction signal) (Some "BIG")
         then (bigScore + weight * conf, smallScore, totalWeight + weight)
         else (bigScore, smallScore + weight * conf, totalWeight + weight))
      signals (0, 0, 0) in
  let normalizedBig := bigScore / totalWeight in
  let normalizedSmall := smallScore / totalWeight in
  {| Combined.finalPrediction :=
       if Qgtb normalizedBig normalizedSmall then "BIG" else "SMALL";
     Combined.strength := Math_abs (normalizedBig - normalizedSmall);
     Combined.activePatterns := [] |}.

Section Providers.
Context {M : JSMath}.

(** [analyzeTimingPatterns(history)].  With fewer than two elements the
    average is 0/0.  A zero average divides the deviation by zero: 0/0 for
    a zero deviation, and otherwise [+Infinity], of which [Math.min(1, _)]
    is [1] (the deviation is not negative, [Math_sqrt_nonneg]). *)
Definition analyzeTimingPatterns (now : Z) (history : list (option Event.t))
  : result TimingInfo.t :=
  intervals <- intervals_of (fun t1 t2 => (t2 - t1)%Z) now history ;;
  let stability : num :=
    if (List.length intervals =? 0)%nat then None
    else
      let avg := inject_Z (sumZ intervals) / Qnat (List.length intervals) in
      let variance :=
        fold_left (fun a b => a + Math_pow (inject_Z b - avg) 2) intervals 0
        / Qnat (List.length intervals) in
      match js_sqrt variance with
      | None => None
      | Some sd =>
          if Qeqb avg 0 then
            if Qeqb sd 0 then None else Some (1 - 1)
          else Some (1 - Math_min 1 (sd / avg))
      end in
  Ok {| TimingInfo.stability := stability; TimingInfo.strength := stability |}.

(** [assessMarketCondition(history)] *)
Definition assessMarketCondition (now : Z) (history : list (option Event.t))
  : result num :=
  volatility <- calculateVolatility history ;;
  manipulation <- detectManipulation now history ;;
  let stability := nan_sub (Some 1) (nan_max volatility manipulation) in
  Ok (nan_max (Some (7 # 10)) stability).

End Providers.

(** ** kbt_models.js *)

(** The [patterns] object of [neuralNetworkPrediction]. *)
Module Patterns.
Record t : Type := mk {
  streaks : StreakInfo.t;
  alternations : AltInfo.t;
  distributions : DistInfo.t;
  timing : TimingInfo.t
}.
End Patterns.

(** The object [calculatePatternWeights] returns; its third key is
    [distribution]. *)
Module Weights.
Record t : Type := mk {
  streaks : num;
  alternations : num;
  distribution : num;
  timing : num
}.
End Weights.

(** [calculatePatternWeights(patterns)] *)
Definition calculatePatternWeights (patterns : Patterns.t) : Weights.t :=
  {| Weights.streaks :=
       nan_min (Some 1)
         (nan_mul (StreakInfo.strength (Patterns.streaks patterns)) (Some (12 # 10)));
     Weights.alternations :=
       nan_mul (AltInfo.strength (Patterns.alternations patterns)) (Some (8 # 10));
     Weights.distribution :=
       nan_mul (DistInfo.strength (Patterns.distributions patterns)) (Some (6 # 10));
     Weights.timing :=
       nan_mul (TimingInfo.strength (Patterns.timing patterns)) (Some (4 # 10)) |}.

(** [Object.entries(patterns)], each pattern by its [strength]. *)
Definition pattern_entries (patterns : Patterns.t) : list (string * num) :=
  [ ("streaks", StreakInfo.strength (Patterns.streaks patterns));
    ("alternations", AltInfo.strength (Patterns.alternations patterns));
    ("distributions", DistInfo.strength (Patterns.distributions patterns));
    ("timing", TimingInfo.strength (Patterns.timing patterns)) ].

(** [weights[pattern]]: [undefined] ([None]) for any other key. *)
Definition weight_of (weights : Weights.t) (pattern : string) : option num :=
  if String.eqb pattern "streaks" then Some (Weights.streaks weights)
  else if String.eqb pattern "alternations" then Some (Weights.alternations weights)
  else if String.eqb pattern "distribution" then Some (Weights.distribution weights)
  else if String.eqb pattern "timing" then Some (Weights.timing weights)
  else None.

(** [determineBestPrediction(patterns, weights)].  No pattern object has a
    [prediction] property, so [data.prediction] is [undefined] ([None]). *)
Definition determineBestPrediction (patterns : Patterns.t) (weights : Weights.t)
  : string :=
  let result :=
    fold_left
      (fun (acc : option string * Q) (entry : string * num) =>
         let (pattern, strength) := entry in
         let weightedStrength :=
           match weight_of weights pattern with
           | Some w => nan_mul strength w
           | None => None
           end in
         match weightedStrength with
         | Some v => if Qgtb v (snd acc) then (@None string, v) else acc
         | None => acc
         end)
      (pattern_entries patterns) (None, 0) in
  match fst result with
  | Some prediction => str_or prediction "BIG"
  | None => "BIG"
  end.

(** [calculateBaseConfidence(patterns)] *)
Definition calculateBaseConfidence (patterns : Patterns.t) : num :=
  let strengths := map snd (pattern_entries patterns) in
  let avgStrength :=
    nan_div (fold_left nan_add strengths (Some 0))
      (Some (Qnat (List.length strengths))) in
  nan_add (Some 70) (nan_mul avgStrength (Some 25)).

(** A candidate [{ prediction, confidence, logic }]. *)
Definition candidate (prediction : string) (confidence : Q) (logic : Z) : Signal.t :=
  {| Signal.prediction := prediction;
     Signal.confidence := confidence;
     Signal.logic := Some (LogicNum logic);
     Signal.patterns := None;
     Signal.contributors := None;
     Signal.modelId := None;
     Signal.modelName := None;
     Signal.modelWeight := None |}.

(** The object [neuralNetworkPrediction] returns; its confidence may be
    NaN. *)
Module NN.
Record t : Type := mk {
  prediction : string;
  confidence : num;
  logic : Z;
  patterns : list string
}.
End NN.

(** [fibonacciPrediction(recent)].  The distances to the levels are exact
    here.  A share of 0.559 is as far from 0.5 as from 0.618, and the
    earlier level stays; in the doubles of the code 0.618 is the closer
    one by a last place.  (At the shares 0.118 and 0.441, the other two
    such ties, the doubles keep the earlier level too.) *)
Definition fibonacciPrediction (recent : list (option Event.t)) : result Signal.t :=
  let levels := [0; 236 # 1000; 382 # 1000; 5 # 10; 618 # 1000; 786 # 1000; 1] in
  bigCount <- count_type "BIG" recent ;;
  let totalResults := List.length recent in
  if (totalResults =? 0)%nat then Ok (candidate "BIG" 50 25)
  else
    let ratio := inject_Z bigCount / Qnat totalResults in
    let closestLevel :=
      match levels with
      | [] => 0
      | l0 :: rest =>
          fold_left
            (fun prev curr =>
               if Qltb (Math_abs (curr - ratio)) (Math_abs (prev - ratio))
               then curr else prev)
            rest l0
      end in
    if Qgeb closestLevel (618 # 1000) then Ok (candidate "SMALL" 75 25)
    else if Qleb closestLevel (382 # 1000) && negb (Qeqb closestLevel 0)
    then Ok (candidate "BIG" 75 25)
    else
      r0 <- at_ recent 0 ;;
      Ok (candidate (opposite (Event.resultType r0)) 70 25).

(** [machineLearningPrediction(recent)] *)
Definition machineLearningPrediction (recent : list (option Event.t))
  : result Signal.t :=
  bigCount <- count_type "BIG" recent ;;
  let smallCount := (Z.of_nat (List.length recent) - bigCount)%Z in
  r0 <- at_ recent 0 ;;
  let lastType := Event.resultType r0 in
  n <- run_length lastType (tl recent) ;;
  let streakLength := (1 + n)%Z in
  alternating <- alternating_upto6 recent ;;
  if (3 <=? streakLength)%Z then Ok (candidate (opposite lastType) 85 28)
  else if alternating then
    rl <- at_ recent (List.length recent - 1) ;;
    Ok (candidate (opposite (Event.resultType rl)) 80 28)
  else if Qgtb (inject_Z bigCount / Qnat (List.length recent)) (6 # 10)
  then Ok (candidate "SMALL" 78 28)
  else if Qgtb (inject_Z smallCount / Qnat (List.length recent)) (6 # 10)
  then Ok (candidate "BIG" 78 28)
  else Ok (candidate (if (smallCount <? bigCount)%Z then "SMALL" else "BIG") 75 28).

(** [activePatternsKBT.push(tag); predictions.push(c);] *)
Definition push2 (acc : list string * list Signal.t) (tag : string) (c : Signal.t)
  : list string * list Signal.t :=
  (fst acc ++ [tag], snd acc ++ [c]).

(** The candidate of the greatest confidence, the first of them. *)
Definition best_candidate (first : Signal.t) (rest : list Signal.t) : Signal.t :=
  fold_left
    (fun bestPrediction c =>
       if Qgtb (Signal.confidence c) (Signal.confidence bestPrediction)
       then c else bestPrediction)
    rest first.

Section KBT.
Context {M : JSMath}.

(** [neuralNetworkPrediction(recent)] *)
Definition neuralNetworkPrediction (now : Z) (recent : list (option Event.t))
  : result NN.t :=
  bigCount <- count_type "BIG" recent ;;
  streaks <- detectStreaks recent ;;
  alternations <- detectAlternations recent ;;
  distributions <- analyzeDistribution recent ;;
  timing <- analyzeTimingPatterns now recent ;;
  let patterns :=
    {| Patterns.streaks := streaks;
       Patterns.alternations := alternations;
       Patterns.distributions := distributions;
       Patterns.timing := timing |} in
  let weights := calculatePatternWeights patterns in
  let prediction := determineBestPrediction patterns weights in
  let baseConfidence := calculateBaseConfidence patterns in
  marketCondition <- assessMarketCondition now recent ;;
  let finalConfidence := nan_min (Some 92) (nan_mul baseConfidence marketCondition) in
  Ok {| NN.prediction := prediction;
        NN.confidence := nan_max (Some 70) finalConfidence;
        NN.logic := 19%Z;
        NN.patterns :=
          map (fun e : string * num => ("Strong_" ++ fst e)%string)
            (filter (fun e : string * num => nan_gtb (snd e) (7 # 10))
               (pattern_entries patterns)) |}.

(** [enhancedTrendAnalysis(history, options = {})] *)
Definition enhancedTrendAnalysis (now : Z) (history : History) (options : Options)
  : result Signal.t :=
  let fallback :=
    {| Signal.prediction := "BIG";
       Signal.confidence := 60;
       Signal.logic := Some (LogicNum 8);
       Signal.patterns := Some ["fallback"];
       Signal.contributors := None;
       Signal.modelId := None;
       Signal.modelName := None;
       Signal.modelWeight := None |} in
  match history with
  | NotArray => Ok fallback
  | HArray h =>
      let len := List.length h in
      if (len <? 3)%nat then Ok fallback
      else
        h0 <- at_ h 0 ;;
        let lastStreakType := Event.resultType h0 in
        n <- run_length lastStreakType (tl h) ;;
        let streakLength := (1 + n)%Z in
        let acc :=
          if (3 <=? streakLength)%Z then
            push2 ([], []) ("Streak of " ++ string_of_Z streakLength)
              (candidate (opposite lastStreakType)
                 (Math_min 90 (70 + inject_Z streakLength * 5)) 1)
          else ([], []) in
        alternating <- alternating_upto6 h ;;
        acc <- (if alternating && (4 <=? len)%nat then
                  hl <- at_ h (len - 1) ;;
                  Ok (push2 acc "Alternating pattern"
                        (candidate (opposite (Event.resultType hl)) 80 3))
                else Ok acc) ;;
        acc <- (if (5 <=? len)%nat then
                  let lastThree := firstn 3 h in
                  l0 <- at_ lastThree 0 ;;
                  l1 <- at_ lastThree 1 ;;
                  if rt_eqb (Event.resultType l0) (Event.resultType l1) then
                    l2 <- at_ lastThree 2 ;;
                    if rt_eqb (Event.resultType l0) (Event.resultType l2) then
                      Ok (push2 acc "Triple pattern"
                            (candidate (opposite (Event.resultType l0)) 85 5))
                    else Ok acc
                  else Ok acc
                else Ok acc) ;;
        let lookback := Nat.min 30 len in
        bigCount <- count_type "BIG" (firstn lookback h) ;;
        let bigPercent := inject_Z bigCount / Qnat lookback * 100 in
        let shortWindow := firstn 10 h in
        let longWindow := firstn lookback h in
        shortBig <- count_type "BIG" shortWindow ;;
        let shortBigPercent := inject_Z shortBig / Qnat (List.length shortWindow) * 100 in
        longBig <- count_type "BIG" longWindow ;;
        let longBigPercent := inject_Z longBig / Qnat (List.length longWindow) * 100 in
        let acc :=
          if Qgtb (Math_abs (bigPercent - 50)) 15
             && Qltb (Math_abs (shortBigPercent - longBigPercent)) 20
          then
            push2 acc "Stable weighted probability"
              (candidate (if Qgtb bigPercent 50 then "SMALL" else "BIG")
                 (Math_min 85 (Math_abs (bigPercent - 50) + 35)) 8)
          else acc in
        acc <- match options with
               | OptionsNull => Throw
               | OptionsObj consecutiveLosses lastPrediction =>
                   match consecutiveLosses, lastPrediction with
                   | Some cl, Some lp =>
                       if negb (cl =? 0)%Z && (2 <=? cl)%Z
                          && negb (String.eqb lp "")
                       then
                         Ok (push2 acc "Loss recovery"
                               (candidate (opposite (Some lp))
                                  (75 + inject_Z cl * 5) 22))
                       else Ok acc
                   | _, _ => Ok acc
                   end
               end ;;
        acc <- (if (4 <=? len)%nat then
                  a0 <- at_ h 0 ;;
                  a2 <- at_ h 2 ;;
                  if rt_eqb (Event.resultType a0) (Event.resultType a2) then
                    a1 <- at_ h 1 ;;
                    a3 <- at_ h 3 ;;
                    if rt_eqb (Event.resultType a1) (Event.resultType a3) then
                      Ok (push2 acc "Mirror pattern"
                            (candidate (opposite (Event.resultType a1)) 75 6))
                    else Ok acc
                  else Ok acc
                else Ok acc) ;;
        acc <- (if (8 <=? len)%nat then
                  nnPrediction <- neuralNetworkPrediction now h ;;
                  match NN.confidence nnPrediction with
                  | Some c =>
                      if Qgtb c 70 then
                        Ok (push2 acc "AI detected"
                              {| Signal.prediction := NN.prediction nnPrediction;
                                 Signal.confidence := c;
                                 Signal.logic := Some (LogicNum (NN.logic nnPrediction));
                                 Signal.patterns := Some (NN.patterns nnPrediction);
                                 Signal.contributors := None;
                                 Signal.modelId := None;
                                 Signal.modelName := None;
                                 Signal.modelWeight := None |})
                      else Ok acc
                  | None => Ok acc
                  end
                else Ok acc) ;;
        acc <- (if (8 <=? len)%nat then
                  fibPrediction <- fibonacciPrediction h ;;
                  if Qgtb (Signal.confidence fibPrediction) 65
                  then Ok (push2 acc "Fibonacci pattern" fibPrediction)
                  else Ok acc
                else Ok acc) ;;
        acc <- (if (10 <=? len)%nat then
                  mlPrediction <- machineLearningPrediction h ;;
                  if Qgtb (Signal.confidence mlPrediction) 75
                  then Ok (push2 acc "ML detected" mlPrediction)
                  else Ok acc
                else Ok acc) ;;
        let activePatternsKBT := fst acc in
        predictions <- match snd acc with
                       | [] =>
                           b0 <- at_ h 0 ;;
                           b1 <- at_ h 1 ;;
                           if (2 <=? len)%nat
                              && rt_eqb (Event.resultType b0) (Event.resultType b1)
                           then Ok (candidate (opposite (Event.resultType b0)) 65 4, [])
                           else Ok (candidate (opposite (Event.resultType b0)) 60 12, [])
                       | first :: rest => Ok (first, rest)
                       end ;;
        let bestPrediction := best_candidate (fst predictions) (snd predictions) in
        Ok {| Signal.prediction := Signal.prediction bestPrediction;
              Signal.confidence := Signal.confidence bestPrediction;
              Signal.logic := Signal.logic bestPrediction;
              Signal.patterns := Some activePatternsKBT;
              Signal.contributors := Signal.contributors bestPrediction;
              Signal.modelId := Signal.modelId bestPrediction;
              Signal.modelName := Signal.modelName bestPrediction;
              Signal.modelWeight := Signal.modelWeight bestPrediction |}
  end.

(** [KBTModel.prototype.predict(history, options = {})] *)
Definition KBTModel_predict (this : Model.state) (now : Z) (history : History)
    (options : Options) : result (option Signal.t) :=
  result <- enhancedTrendAnalysis now history options ;;
  Ok (Some {| Signal.prediction := Signal.prediction result;
              Signal.confidence := Signal.confidence result;
              Signal.logic := Signal.logic result;
              Signal.patterns := Signal.patterns result;
              Signal.contributors := Signal.contributors result;
              Signal.modelId := Some (Model.id this);
              Signal.modelName := Some (Model.name this);
              Signal.modelWeight := Some (Model.weight this) |}).

(** [new KBTModel(id)] with its methods. *)
Definition KBTModel (id : string) : Predictor.t :=
  {| Predictor.st := KBTModel_new id;
     Predictor.predict := KBTModel_predict;
     Predictor.learn := KBTModel_learn |}.

End KBT.

(** ** ai_models.js *)

(** What [model1], [model2] and [model4] return. *)
Module Sub.
Record t : Type := mk {
  prediction : string;
  confidence : Q;
  patterns : list string
}.
End Sub.

(** What [model3_manipulationDetector] returns. *)
Module Anomaly.
Record t : Type := mk {
  isManipulated : bool;
  riskScore : Q
}.
End Anomaly.

(** The loop of [model1_patternAnalysis] that looks for two equal
    neighbours among the first six elements. *)
Fixpoint differ_loop (prev : option Event.t) (l : list (option Event.t))
  : result bool :=
  match l with
  | [] => Ok true
  | x :: r =>
      cur <- get x ;;
      p <- get prev ;;
      if rt_eqb (Event.resultType cur) (Event.resultType p) then Ok false
      else differ_loop x r
  end.

(** [model1_patternAnalysis(hist)] *)
Definition model1_patternAnalysis (hist : list (option Event.t)) : result Sub.t :=
  let recent := firstn 20 hist in
  bigCount <- count_type "BIG" recent ;;
  let smallCount := (Z.of_nat (List.length recent) - bigCount)%Z in
  r0 <- at_ recent 0 ;;
  let current := Event.resultType r0 in
  n <- run_length current (tl recent) ;;
  let streak := (1 + n)%Z in
  if (3 <=? streak)%Z then
    Ok {| Sub.prediction := opposite current;
          Sub.confidence := Math_min 90 (70 + inject_Z streak * 3);
          Sub.patterns := [("Streak_" ++ string_of_Z streak)%string] |}
  else
    alt <- match recent with
           | [] => Ok true
           | x :: r => differ_loop x (firstn 5 r)
           end ;;
    if alt && (4 <=? List.length recent)%nat then
      rl <- at_ recent (List.length recent - 1) ;;
      Ok {| Sub.prediction := opposite (Event.resultType rl);
            Sub.confidence := 82;
            Sub.patterns := ["Alternating"] |}
    else
      mirror <- (if (4 <=? List.length recent)%nat then
                   a0 <- at_ recent 0 ;;
                   a2 <- at_ recent 2 ;;
                   if rt_eqb (Event.resultType a0) (Event.resultType a2) then
                     a1 <- at_ recent 1 ;;
                     a3 <- at_ recent 3 ;;
                     Ok (rt_eqb (Event.resultType a1) (Event.resultType a3))
                   else Ok false
                 else Ok false) ;;
      if mirror then
        a1 <- at_ recent 1 ;;
        Ok {| Sub.prediction := opposite (Event.resultType a1);
              Sub.confidence := 78;
              Sub.patterns := ["Mirror"] |}
      else
        let bias :=
          Math_abs (inject_Z bigCount - inject_Z smallCount)
          / Qnat (List.length recent) in
        if Qgtb bias (3 # 10) then
          Ok {| Sub.prediction := if (smallCount <? bigCount)%Z then "SMALL" else "BIG";
                Sub.confidence := 70 + bias * 30;
                Sub.patterns :=
                  [("Bias_" ++ (if (smallCount <? bigCount)%Z then "BIG" else "SMALL"))%string] |}
        else
          Ok {| Sub.prediction := "BIG";
                Sub.confidence := 60;
                Sub.patterns := ["No_clear_pattern"] |}.

(** [l.map(r => r.number)] *)
Fixpoint numbers_of (l : list (option Event.t)) : result (list (option Z)) :=
  match l with
  | [] => Ok []
  | x :: r =>
      e <- get x ;;
      rest <- numbers_of r ;;
      Ok (Event.number e :: rest)
  end.

(** [freq[n]++] on the array [freq] of ten counters. *)
Fixpoint bump (freq : list Z) (n : nat) : list Z :=
  match freq, n with
  | [], _ => []
  | c :: r, O => (c + 1)%Z :: r
  | c :: r, S k => c :: bump r k
  end.

(** [freq.indexOf(v)], [-1] when [v] is not in it. *)
Fixpoint indexOf (freq : list Z) (v : Z) (i : Z) : Z :=
  match freq with
  | [] => (-1)%Z
  | c :: r => if (c =? v)%Z then i else indexOf r v (i + 1)%Z
  end.

(** [model2_colorNumberAnalysis(hist)].  A number from 0 to 9 bumps its
    counter.  A greater one that is an array index writes NaN past the end
    of [freq] and leaves holes before it, so that [Math.max(...freq)] is NaN
    and [indexOf] finds nothing; any other number writes a plain property,
    which the spread does not see.  (The spread passes an argument for
    each index up to the greatest one written: beyond the number of
    arguments its stack allows, some hundred thousand, an engine throws a
    RangeError instead.  The limit is the engine's own and is not
    modelled: the definition returns the result of the NaN there.) *)
Definition model2_colorNumberAnalysis (hist : list (option Event.t)) : result Sub.t :=
  nums <- numbers_of (firstn 30 hist) ;;
  let freq :=
    fold_left
      (fun freq n =>
         match n with
         | Some k => if (0 <=? k)%Z && (k <=? 9)%Z then bump freq (Z.to_nat k) else freq
         | None => freq
         end)
      nums (repeat 0%Z 10) in
  let sparse :=
    existsb
      (fun n => match n with
                | Some k => (10 <=? k)%Z && (k <? 4294967295)%Z
                | None => false
                end)
      nums in
  let hotNumber :=
    if sparse then (-1)%Z
    else
      let maxFreq := match freq with [] => 0%Z | c :: r => fold_left Z.max r c end in
      indexOf freq maxFreq 0%Z in
  if (5 <=? hotNumber)%Z then
    Ok {| Sub.prediction := "BIG";
          Sub.confidence := 75;
          Sub.patterns := [("Hot_BIG_" ++ string_of_Z hotNumber)%string] |}
  else if (hotNumber <? 5)%Z then
    Ok {| Sub.prediction := "SMALL";
          Sub.confidence := 75;
          Sub.patterns := [("Hot_SMALL_" ++ string_of_Z hotNumber)%string] |}
  else
    Ok {| Sub.prediction := "BIG";
          Sub.confidence := 62;
          Sub.patterns := ["Neutral_numbers"] |}.

Section AI.
Context {M : JSMath}.

(** [model3_manipulationDetector(hist)] *)
Definition model3_manipulationDetector (now : Z) (hist : list (option Event.t))
  : result Anomaly.t :=
  let recent := firstn 50 hist in
  intervals <- intervals_of (fun t1 t2 => Z.abs (t1 - t2)) now recent ;;
  let n := List.length intervals in
  let avgInterval :=
    if (n =? 0)%nat then 60000 else inject_Z (sumZ intervals) / Qnat n in
  let stdDev : num :=
    if (n =? 0)%nat then Some 0
    else
      js_sqrt
        (fold_left (fun sum x => sum + Math_pow (inject_Z x - avgInterval) 2)
           intervals 0
         / Qnat n) in
  let isManipulated :=
    nan_gtb stdDev 8000 || existsb (fun iv => (120000 <? iv)%Z) intervals in
  Ok {| Anomaly.isManipulated := isManipulated;
        Anomaly.riskScore := if isManipulated then 9 # 10 else 1 # 10 |}.

(** [model4_hybridPredictor(hist)] *)
Definition model4_hybridPredictor (now : Z) (hist : list (option Event.t))
  : result Sub.t :=
  let recent := firstn 15 hist in
  let extended := firstn 30 hist in
  if (List.length recent =? 0)%nat then
    Ok {| Sub.prediction := "BIG"; Sub.confidence := 60; Sub.patterns := ["no_data"] |}
  else
    shortTerm <- analyzeWindow recent ;;
    longTerm <- analyzeWindow extended ;;
    patternStrength <- detectPatternStrength recent ;;
    trendStrength <- analyzeTrendStrength extended ;;
    marketCondition <- assessMarketStability now extended ;;
    momentum <- calculateMomentum recent ;;
    volatility <- calculateVolatility extended ;;
    cyclical <- detectCyclicalPatterns extended ;;
    let of_window (w : WindowInfo.t) :=
      {| SigView.confidence := Some (WindowInfo.confidence w);
         SigView.strength := None;
         SigView.prediction := Some (WindowInfo.prediction w) |} in
    let of_strength (s : num) :=
      {| SigView.confidence := None;
         SigView.strength := s;
         SigView.prediction := None |} in
    let signals :=
      combineSignals
        [ ("short", of_window shortTerm);
          ("long", of_window longTerm);
          ("pattern", of_strength (Some (PatternStrength.strength patternStrength)));
          ("trend", of_strength None);
          ("market", of_strength None);
          ("momentum", of_strength None);
          ("volatility", of_strength None);
          ("cyclical", of_strength (Some (Cyclical.strength cyclical))) ] in
    let prediction := Combined.finalPrediction signals in
    let baseConf := Math_min 92 (70 + Combined.strength signals * 25) in
    let adjustedConf := baseConf * MarketStability.stabilityFactor marketCondition in
    Ok {| Sub.prediction := prediction;
          Sub.confidence := Math_max 70 (Math_min 92 adjustedConf);
          Sub.patterns :=
            "Neural_Trend"
            :: map (fun e : string * Q => ("Strong_" ++ fst e)%string)
                 (filter (fun e : string * Q => Qgtb (snd e) (7 # 10))
                    (Combined.activePatterns signals)) |}.

(** The loop of [detectTrueRandomness] that counts the runs. *)
Fixpoint count_runs (prev : Z) (seq : list Z) : Z :=
  match seq with
  | [] => 0%Z
  | x :: r => ((if (x =? prev)%Z then 0 else 1) + count_runs x r)%Z
  end.

(** [hist.slice(0, 50).map(r => r.resultType === "BIG" ? 1 : 0)] *)
Fixpoint bits_of (l : list (option Event.t)) : result (list Z) :=
  match l with
  | [] => Ok []
  | x :: r =>
      e <- get x ;;
      rest <- bits_of r ;;
      Ok ((if is_type "BIG" e then 1%Z else 0%Z) :: rest)
  end.

(** [detectTrueRandomness(hist)].  The square root is taken of a positive
    number and is positive ([Math_sqrt_pos]). *)
Definition detectTrueRandomness (hist : list (option Event.t)) : result Q :=
  seq <- bits_of (firstn 50 hist) ;;
  if (List.length seq <? 10)%nat then Ok (5 # 10)
  else
    let runs := match seq with
                | [] => 1%Z
                | x :: r => (1 + count_runs x r)%Z
                end in
    let n1 := inject_Z (Z.of_nat (List.length (filter (fun x => (x =? 1)%Z) seq))) in
    let n2 := Qnat (List.length seq) - n1 in
    let expectedRuns := (2 * n1 * n2) / (n1 + n2) + 1 in
    let variance :=
      if negb (Qeqb n1 0) && negb (Qeqb n2 0) then
        (2 * n1 * n2 * (2 * n1 * n2 - n1 - n2))
        / (Math_pow (n1 + n2) 2 * (n1 + n2 - 1))
      else 1 in
    let z :=
      if Qgtb variance 0
      then Math_abs (inject_Z runs - expectedRuns) / Math_sqrt variance
      else 0 in
    Ok (Math_max 0 (1 - Math_abs z / 3)).

(** [flonzaElitePredict(history)] *)
Definition flonzaElitePredict (now : Z) (history : History) : result Signal.t :=
  let fallback :=
    {| Signal.prediction := "BIG";
       Signal.confidence := 55;
       Signal.logic := Some (LogicStr "fallback");
       Signal.patterns := Some ["insufficient_data"];
       Signal.contributors := None;
       Signal.modelId := None;
       Signal.modelName := None;
       Signal.modelWeight := None |} in
  match history with
  | NotArray => Ok fallback
  | HArray h =>
      if (List.length h <? 10)%nat then Ok fallback
      else
        pattern <- model1_patternAnalysis h ;;
        colorNumber <- model2_colorNumberAnalysis h ;;
        anomaly <- model3_manipulationDetector now h ;;
        hybrid <- model4_hybridPredictor now h ;;
        let of_sub (name : string) (r : Sub.t) :=
          {| SubVote.model := name;
             SubVote.prediction := Some (Sub.prediction r);
             SubVote.confidence := Some (Sub.confidence r) |} in
        let models :=
          [ of_sub "pattern" pattern;
            of_sub "colorNumber" colorNumber;
            {| SubVote.model := "anomaly";
               SubVote.prediction := None;
               SubVote.confidence := None |};
            of_sub "hybrid" hybrid ] in
        let '(totalWeight, big, small) :=
          fold_left
            (fun (acc : Q * Q * Q) (result : SubVote.t) =>
               let '(totalWeight, big, small) := acc in
               let weight :=
                 match SubVote.confidence result with
                 | Some c => num_or c 60
                 | None => 60
                 end / 100 in
               (totalWeight + weight,
                if rt_eqb (SubVote.prediction result) (Some "BIG")
                then big + weight else big,
                if rt_eqb (SubVote.prediction result) (Some "SMALL")
                then small + weight else small))
            models (0, 0, 0) in
        let finalPrediction := if Qgtb big small then "BIG" else "SMALL" in
        let chosen := if Qgtb big small then big else small in
        let avgConfidence :=
          Math_min 90 (Math_max 65 (chosen / totalWeight * 100)) in
        randomnessScore <- detectTrueRandomness h ;;
        let patternStrength := Sub.confidence pattern / 100 in
        let anomalyRisk := if Anomaly.isManipulated anomaly then 5 # 10 else 1 in
        let stabilityFactor :=
          (patternStrength + (1 - randomnessScore) + anomalyRisk) / 3 in
        let adjustedConfidence :=
          inject_Z (Math_round (avgConfidence * stabilityFactor)) in
        Ok {| Signal.prediction := finalPrediction;
              Signal.confidence := Math_max 65 adjustedConfidence;
              Signal.logic := Some (LogicStr "FLONZA_V4_ENHANCED");
              Signal.patterns :=
                Some (filter (fun p => negb (String.eqb p ""))
                        (Sub.patterns pattern ++ Sub.patterns colorNumber
                         ++ (if Anomaly.isManipulated anomaly
                             then ["⚠️ manipulation_risk"] else [])));
              Signal.contributors := Some models;
              Signal.modelId := None;
              Signal.modelName := None;
              Signal.modelWeight := None |}
  end.

(** [AIModel.prototype.predict(history, options = {})] *)
Definition AIModel_predict (this : Model.state) (now : Z) (history : History)
    (options : Options) : result (option Signal.t) :=
  result <- flonzaElitePredict now history ;;
  Ok (Some {| Signal.prediction := Signal.prediction result;
              Signal.confidence := Signal.confidence result;
              Signal.logic := Signal.logic result;
              Signal.patterns := Signal.patterns result;
              Signal.contributors := Signal.contributors result;
              Signal.modelId := Some (Model.id this);
              Signal.modelName := Some (Model.name this);
              Signal.modelWeight := Some (Model.weight this) |}).

(** [new AIModel(id)] with its methods. *)
Definition AIModel (id : string) : Predictor.t :=
  {| Predictor.st := AIModel_new id;
     Predictor.predict := AIModel_predict;
     Predictor.learn := AIModel_learn |}.

(** The manager as its constructor leaves it: [new KBTModel('KBT')] and
    [new AIModel('AI_FLONZA')]. *)
Definition ModelManager_default : Manager.t :=
  ModelManager_new [KBTModel "KBT"; AIModel "AI_FLONZA"].

End AI.

(** ** Definitions the statements use *)

(** A sequence of [learn] calls, each with its [wasWin] and its second
    argument, run from the state [s]. *)
Definition learn_calls (learn : Model.state -> bool -> LearnArg -> Model.state * Stats.t)
    (calls : list (bool * LearnArg)) (s : Model.state) : Model.state :=
  fold_left (fun s c => fst (learn s (fst c) (snd c))) calls s.

(** [clamp(x, lo, hi)] *)
Definition clamp (x lo hi : Q) : Q := Math_max lo (Math_min hi x).

(** The update of [learn] in the words of the specification (4.1, steps 1
    to 6), with the default settings written as constants.  A weight that
    is NaN stays NaN. *)
Definition learn_spec {M : JSMath} (s : Model.state) (wasWin : bool) (lr : Q)
  : Model.state * Stats.t :=
  let appended := Model.history s ++ [if wasWin then 1%Z else 0%Z] in
  let outcomeHistory :=
    if (200 <? Z.of_nat (List.length appended))%Z then tl appended else appended in
  let wins := if wasWin then (Model.wins s + 1)%Z else Model.wins s in
  let losses := if wasWin then Model.losses s else (Model.losses s + 1)%Z in
  let instantAccuracy := inject_Z wins / inject_Z (wins + losses) in
  let emaAccuracy :=
    Model.emaAccuracy s * (1 - (5 # 100)) + instantAccuracy * (5 # 100) in
  let advantage := emaAccuracy - (1 # 2) in
  let delta := advantage * (1 # 2) in
  let weight :=
    option_map
      (fun weight =>
         clamp (weight * Math_pow (999 # 1000) lr + (1 + delta) * lr) (2 # 10) 3)
      (Model.weight s) in
  ({| Model.id := Model.id s;
      Model.name := Model.name s;
      Model.weight := weight;
      Model.history := outcomeHistory;
      Model.wins := wins;
      Model.losses := losses;
      Model.lookback := Model.lookback s;
      Model.emaAccuracy := emaAccuracy;
      Model.emaAlpha := Model.emaAlpha s;
      Model.minWeight := Model.minWeight s;
      Model.maxWeight := Model.maxWeight s;
      Model.decay := Model.decay s |},
   {| Stats.wins := wins;
      Stats.losses := losses;
      Stats.weight := weight;
      Stats.emaAccuracy := emaAccuracy |}).

(** The settings of a model as its constructor leaves them, and counters
    that are not negative. *)
Definition default_settings (s : Model.state) : Prop :=
  Model.lookback s = 200%Z /\ Model.emaAlpha s = 5 # 100
  /\ Model.minWeight s = 2 # 10 /\ Model.maxWeight s = 3
  /\ Model.decay s = 999 # 1000
  /\ (0 <= Model.wins s)%Z /\ (0 <= Model.losses s)%Z.

(** The sorted list [preds] of [ModelManager.predict]. *)
Definition sorted_preds (mm : Manager.t) (now : Z) (history : History)
    (options : Options) : list Pred.t :=
  sort_preds (map (run_model now history options) (Manager.models mm)).

(** The test [consensusStrength.agreement > 0.75 && patternOverlap.score > 0.6]. *)
Definition consensus_reached (preds : list Pred.t) : bool :=
  nan_gtb (Consensus.agreement (calculateConsensusStrength preds)) (75 # 100)
  && nan_gtb (Overlap.score (analyzePatternOverlap preds)) (6 # 10).

(** The reliability [assessModelReliability] computes for a model. *)
Definition reliability_of (m : Predictor.t) : Q :=
  Math_min 1 (nan_or (Model.weight (Predictor.st m)) (1 # 2)
              * num_or (Model.emaAccuracy (Predictor.st m)) (1 # 2) * 2).

(** None of the first 20 elements of the history is [null]/[undefined]. *)
Definition no_null_recent (history : History) : bool :=
  match history with
  | NotArray => true
  | HArray l =>
      forallb (fun x : option Event.t => match x with Some _ => true | None => false end)
        (firstn 20 l)
  end.

(** Every event of the history has a [createTime] (one that is not
    falsy). *)
Definition stamped (x : option Event.t) : bool :=
  match x with
  | Some e =>
      match Event.createTime e with
      | Some t => negb (t =? 0)%Z
      | None => false
      end
  | None => true
  end.

Definition timestamped (history : History) : bool :=
  match history with
  | NotArray => true
  | HArray l => forallb stamped l
  end.

(** The confidence of the consensus path in the words of the
    specification (4.2): the mean of the confidences weighted by the
    reliabilities, times the enhancement factor, capped at 92. *)
Definition enhanced_confidence_spec (preds : list Pred.t) (agreement overlap : Q) : Q :=
  let weighted_mean :=
    sumQ (map (fun p => Signal.confidence (Pred.p p) * reliability_of (Pred.model p))
            preds)
    / sumQ (map (fun p => reliability_of (Pred.model p)) preds) in
  Math_min 92
    (weighted_mean * Math_min (13 # 10) (1 + agreement * (2 # 10) + overlap * (1 # 10))).




(** ** Inputs of the examples *)

Definition event (resultType : string) (number : Z) (createTime : option Z)
  : option Event.t :=
  Some {| Event.resultType := Some resultType;
          Event.number := Some number;
          Event.createTime := createTime |}.

(** [predict(history)] and [learn(id, wasWin)] with no further argument. *)
Definition no_options : Options := OptionsObj None None.
Definition no_context : LearnContext.t := {| LearnContext.consecutiveLosses := None |}.

(** The manager as constructed, evaluated with [ExactMath]. *)
Definition default_manager : Manager.t := @ModelManager_default ExactMath.

(** Two events, both BIG, a minute apart. *)
Definition two_big : History :=
  HArray [event "BIG" 7 (Some 1700000060000%Z); event "BIG" 8 (Some 1700000000000%Z)].



(** Eleven events, all BIG with number 7: the newest has no [createTime],
    the ten before it are a minute apart, the newest of them at
    1700000000000. *)
Definition eleven_big : History :=
  HArray (event "BIG" 7 None
          :: map (fun i => event "BIG" 7 (Some (1700000000000 - 60000 * Z.of_nat i)%Z))
               (seq 0 10)).

(** The same eleven events, the newest one stamped a minute after the
    others. *)
Definition eleven_stamped : History :=
  HArray (event "BIG" 7 (Some 1700000060000%Z)
          :: map (fun i => event "BIG" 7 (Some (1700000000000 - 60000 * Z.of_nat i)%Z))
               (seq 0 10)).

(** A manager of three [KBTModel]s, each after thirty lost rounds credited
    through [ModelManager.learn]. *)
Definition lost_round (mm : Manager.t) : Manager.t :=
  fst (ModelManager_learn
         (fst (ModelManager_learn
                 (fst (ModelManager_learn mm "K1" false no_context))
                 "K2" false no_context))
         "K3" false no_context).

Definition three_KBT : Manager.t :=
  Nat.iter 30 lost_round
    (ModelManager_new
       [@KBTModel ExactMath "K1"; @KBTModel ExactMath "K2"; @KBTModel ExactMath "K3"]).

(** A manager of twelve new [KBTModel]s. *)
Definition twelve_KBT : Manager.t :=
  ModelManager_new
    (map (fun i => @KBTModel ExactMath (string_of_Z (Z.of_nat i))) (seq 0 12)).


(** The contributors of the decision on [eleven_big]. *)
Definition decided_contributions : list Contributor.t :=
  [ {| Contributor.id := "KBT"; Contributor.name := "KBT Ultralogic";
       Contributor.weight := Some 1; Contributor.prediction := "SMALL";
       Contributor.confidence := 90; Contributor.reliability := None |};
    {| Contributor.id := "AI_FLONZA"; Contributor.name := "FLONZA_V4_HYBRID";
       Contributor.weight := Some 1; Contributor.prediction := "SMALL";
       Contributor.confidence := 65; Contributor.reliability := None |} ].

(** The facts about a list of contributors that hold on every path that
    builds one: an entry per model, in the order of the scores, with the
    model's name and the category and confidence of its signal. *)
Definition contributors_of (preds : list Pred.t) (l : list Contributor.t) : Prop :=
  l <> []
  /\ map Contributor.name l
     = map (fun x => Model.name (Predictor.st (Pred.model x))) preds
  /\ map Contributor.prediction l = map (fun x => Signal.prediction (Pred.p x)) preds
  /\ map Contributor.confidence l = map (fun x => Signal.confidence (Pred.p x)) preds.

(** A model whose [predict] returns a fixed signal: a stand-in for the
    scenarios of the specification (section 8). *)
Definition fixed_signal (prediction : string) (confidence : Q) : Signal.t :=
  {| Signal.prediction := prediction;
     Signal.confidence := confidence;
     Signal.logic := None;
     Signal.patterns := None;
     Signal.contributors := None;
     Signal.modelId := None;
     Signal.modelName := None;
     Signal.modelWeight := None |}.

Definition fixed_model (id : string) (s : Signal.t) : Predictor.t :=
  {| Predictor.st := KBTModel_new id;
     Predictor.predict := fun _ _ _ _ => Ok (Some s);
     Predictor.learn := @KBTModel_learn ExactMath |}.

(** One BIG and one SMALL event: a recent bias of exactly 0.5. *)
Definition big_small : History :=
  HArray [event "BIG" 7 (Some 1700000060000%Z); event "SMALL" 2 (Some 1700000000000%Z)].


(** ** Definitions the further statements use *)

(** The second argument has an [lr] that is finite, or none that is a
    number. *)
Definition finite_lr (options : LearnArg) : Prop :=
  match options with
  | NoArg | ObjArg _ => True
  | ObjNaN | ObjInfinity _ => False
  end.

(** The [lr] of [learn] where it is finite: [Math.max(0.1, options.lr)]
    for a numeric [options.lr], [1.0] otherwise. *)
Definition learn_lr (options : LearnArg) : Q :=
  match options with
  | ObjArg (Some x) => Math_max (1 # 10) x
  | _ => 1
  end.

(** The value [v] that [learn] pushes for an outcome. *)
Definition outcome (c : bool * LearnArg) : Z := if fst c then 1%Z else 0%Z.

(** The learning rates [ModelManager.learn] passes, [1 + Math.min(3, streak * 0.4)]
    for a streak that is not negative, and the default one. *)
Definition manager_rate (arg : LearnArg) : Prop :=
  match arg with
  | ObjArg (Some lr) => 1 <= lr <= 4
  | NoArg | ObjArg None => True
  | ObjNaN | ObjInfinity _ => False
  end.

(** A model whose [learn] is the one of the repository's two classes. *)
Definition learns_as_repository {M : JSMath} (m : Predictor.t) : Prop :=
  forall s wasWin arg, Predictor.learn m s wasWin arg = KBTModel_learn s wasWin arg.


(** The model object after [m.learn(wasWin, { lr })]. *)
Definition learned (m : Predictor.t) (wasWin : bool) (lr : Q) : Predictor.t :=
  {| Predictor.st := fst (Predictor.learn m (Predictor.st m) wasWin (ObjArg (Some lr)));
     Predictor.predict := Predictor.predict m;
     Predictor.learn := Predictor.learn m |}.

(** [this.models.find(x => (x.id || x.name) === key)] *)
Definition find_model (models : list Predictor.t) (key : string)
  : option Predictor.t :=
  find (fun m => String.eqb (id_or_name m) key) models.

(** [this.models.find(m => (m.id || m.name) === c.id)] finds a model. *)
Definition known (models : list Predictor.t) (c : Contributor.t) : bool :=
  existsb (fun m => String.eqb (id_or_name m) (Contributor.id c)) models.

(** The contributors of the decision on [eleven_big], after an entry
    that names no model. *)
Definition with_stranger : list Contributor.t :=
  {| Contributor.id := "enhanced_ensemble"; Contributor.name := "";
     Contributor.weight := Some 1; Contributor.prediction := "SMALL";
     Contributor.confidence := 70; Contributor.reliability := None |}
  :: decided_contributions.

(** [b.score - a.score <= 0]: [a] may stay before [b]. *)
Definition score_ge (a b : Pred.t) : Prop := Pred.score b <= Pred.score a.

(** [s.startsWith(p)] *)
Fixpoint starts_with (p s : string) : bool :=
  match p, s with
  | EmptyString, _ => true
  | String a p', String b s' => Ascii.eqb a b && starts_with p' s'
  | String _ _, EmptyString => false
  end.

(** The place of a pattern tag in the order in which the code pushes the
    tags: those of [enhancedTrendAnalysis] (0 to 9), of
    [model1_patternAnalysis] (10), of [model2_colorNumberAnalysis] (11) and
    the two of [flonzaElitePredict] (12, 13); 14 for any other string. *)
Definition tag_rank (t : string) : nat :=
  if starts_with "Streak of " t then 0
  else if String.eqb t "Alternating pattern" then 1
  else if String.eqb t "Triple pattern" then 2
  else if String.eqb t "Stable weighted probability" then 3
  else if String.eqb t "Loss recovery" then 4
  else if String.eqb t "Mirror pattern" then 5
  else if String.eqb t "AI detected" then 6
  else if String.eqb t "Fibonacci pattern" then 7
  else if String.eqb t "ML detected" then 8
  else if String.eqb t "fallback" then 9
  else if starts_with "Streak_" t || String.eqb t "Alternating" || String.eqb t "Mirror"
          || starts_with "Bias_" t || String.eqb t "No_clear_pattern" then 10
  else if starts_with "Hot_" t then 11
  else if String.eqb t "⚠️ manipulation_risk" then 12
  else if String.eqb t "insufficient_data" then 13
  else 14.

(** The test of the loss-recovery candidate of [enhancedTrendAnalysis]:
    [options.consecutiveLosses && options.consecutiveLosses >= 2 && options.lastPrediction]. *)
Definition loss_recovery (options : Options) : bool :=
  match options with
  | OptionsObj (Some cl) (Some lp) =>
      negb (cl =? 0)%Z && (2 <=? cl)%Z && negb (String.eqb lp "")
  | _ => false
  end.

(** [options.consecutiveLosses], [0] where it is missing. *)
Definition losses_of (options : Options) : Z :=
  match options with
  | OptionsObj (Some cl) _ => cl
  | _ => 0%Z
  end.

(** The candidates that [enhancedTrendAnalysis] can push, by their
    [logic]: the confidence each of them can have. *)
Definition logic_confidence (options : Options) (logic : Z) (confidence : Q) : Prop :=
  (logic = 1%Z /\ 85 <= confidence <= 90)
  \/ (logic = 3%Z /\ confidence = 80)
  \/ (logic = 5%Z /\ confidence = 85)
  \/ (logic = 8%Z /\ 50 < confidence <= 85)
  \/ (logic = 22%Z /\ loss_recovery options = true
       /\ confidence = 75 + inject_Z (losses_of options) * 5)
  \/ (logic = 6%Z /\ confidence = 75)
  \/ (logic = 19%Z /\ 70 < confidence <= 92)
  \/ (logic = 25%Z /\ (confidence = 75 \/ confidence = 70))
  \/ (logic = 28%Z /\ (confidence = 85 \/ confidence = 80 \/ confidence = 78))
  \/ (logic = 4%Z /\ confidence = 65)
  \/ (logic = 12%Z /\ confidence = 60).

Definition kbt_candidate (options : Options) (c : Signal.t) : Prop :=
  (Signal.prediction c = "BIG" \/ Signal.prediction c = "SMALL")
  /\ exists logic, Signal.logic c = Some (LogicNum logic)
                   /\ logic_confidence options logic (Signal.confidence c).

(** Tags in the strict order of their ranks, the ranks from [lo] up to
    [hi] (excluded). *)
Definition ranked (lo hi : nat) (tags : list string) : Prop :=
  StronglySorted (fun a b => (tag_rank a < tag_rank b)%nat) tags
  /\ Forall (fun t => (lo <= tag_rank t < hi)%nat) tags.

(** One step of [enhancedTrendAnalysis]: nothing is pushed, or a tag of
    rank [k] with a candidate. *)
Definition pushed (options : Options) (k : nat)
    (acc acc' : list string * list Signal.t) : Prop :=
  acc' = acc
  \/ exists t c, acc' = push2 acc t c /\ tag_rank t = k /\ kbt_candidate options c.

(** What holds of the tags and candidates pushed so far. *)
Definition acc_ok (options : Options) (k : nat) (acc : list string * list Signal.t)
  : Prop :=
  ranked 0 k (fst acc) /\ Forall (kbt_candidate options) (snd acc).

(** [Array.isArray(history) ? history : []] *)
Definition entries (history : History) : list (option Event.t) :=
  match history with
  | HArray l => l
  | NotArray => []
  end.

(** Options of a third loss in a row after a BIG prediction. *)
Definition three_losses : Options := OptionsObj (Some 3%Z) (Some "BIG").

(** [p.p.prediction === "BIG"] *)
Definition votes_BIG (p : Pred.t) : bool :=
  String.eqb (Signal.prediction (Pred.p p)) "BIG".

(** ** kbt_models.js, the appended CommonJS module: [ModelManager.prototype] *)

(** [options = options || {}] *)
Definition options_or_empty (options : Options) : Options :=
  match options with
  | OptionsNull => OptionsObj None None
  | OptionsObj _ _ => options
  end.

(** The [contributing] list of the consensus branch of
    [ModelManager.prototype.predict]: [x.model.id], and the weight times
    [modelReliability[x.model.id]], which is NaN for a missing key. *)
Definition prototype_contributing_consensus (modelReliability : Reliability)
    (preds : list Pred.t) : list Contributor.t :=
  map (fun x =>
         let m := Predictor.st (Pred.model x) in
         {| Contributor.id := Model.id m;
            Contributor.name := Model.name m;
            Contributor.weight :=
              nan_mul (Model.weight m) (rel_get modelReliability (Model.id m));
            Contributor.prediction := Signal.prediction (Pred.p x);
            Contributor.confidence := Signal.confidence (Pred.p x);
            Contributor.reliability := Some (rel_get modelReliability (Model.id m)) |})
      preds.

(** The object of the consensus branch of [ModelManager.prototype.predict]. *)
Definition prototype_consensus_decision (p0 p1 : Pred.t) (preds : list Pred.t)
    (consensusStrength : Consensus.t) (agreement score : Q)
    (modelReliability : Reliability) : Decision.t :=
  let combinedConf :=
    calculateEnhancedConfidence preds agreement score modelReliability in
  {| Decision.prediction := Consensus.prediction consensusStrength;
     Decision.confidence := combinedConf;
     Decision.logic :=
       "ENHANCED_ENSEMBLE: " ++ Model.id (Predictor.st (Pred.model p0))
       ++ "+" ++ Model.id (Predictor.st (Pred.model p1));
     Decision.patterns :=
       Set_of (patterns_or_empty (Pred.p p0) ++ patterns_or_empty (Pred.p p1)
               ++ [ ("Consensus_" ++ string_of_Z (Math_round (agreement * 100)))%string;
                    ("PatternMatch_" ++ string_of_Z (Math_round (score * 100)))%string ])%list;
     Decision.chosenModel := Some "enhanced_ensemble";
     Decision.contributing :=
       Some (prototype_contributing_consensus modelReliability preds) |}.

(** The object built under [if (useTop && !final)]: [chosenModel] and the
    ids of [contributing] are [model.id], without the fallback to the
    name. *)
Definition prototype_top_decision (top : Pred.t) (adjustedConf : Q)
    (preds : list Pred.t) : Decision.t :=
  {| Decision.prediction := Signal.prediction (Pred.p top);
     Decision.confidence := adjustedConf;
     Decision.logic :=
       Model.id (Predictor.st (Pred.model top)) ++ ":" ++ logic_or_model (Pred.p top);
     Decision.patterns := patterns_or_empty (Pred.p top);
     Decision.chosenModel := Some (Model.id (Predictor.st (Pred.model top)));
     Decision.contributing := Some (contributing_single preds) |}.

(** [ModelManager.prototype.predict = function(history, options)].  With no
    model, [preds[0]] is [undefined] and [top.p] throws. *)
Definition ModelManager_prototype_predict (mm : Manager.t) (now : Z)
    (history : History) (options : Options) : result Decision.t :=
  let options := options_or_empty options in
  let preds := sort_preds (map (run_model now history options) (Manager.models mm)) in
  let final : option Decision.t :=
    match preds with
    | p0 :: p1 :: _ =>
        let consensusStrength := calculateConsensusStrength preds in
        let patternOverlap := analyzePatternOverlap preds in
        let modelReliability := assessModelReliability preds in
        match Consensus.agreement consensusStrength, Overlap.score patternOverlap with
        | Some agreement, Some score =>
            if Qgtb agreement (75 # 100) && Qgtb score (6 # 10) then
              Some (prototype_consensus_decision p0 p1 preds consensusStrength
                      agreement score modelReliability)
            else None
        | _, _ => None
        end
    | _ => None
    end in
  final <- match final with
           | Some f => Ok f
           | None =>
               match preds with
               | [] => Throw
               | top :: rest =>
                   let adjustedConf := Signal.confidence (Pred.p top) in
                   match rest with
                   | p1 :: _ =>
                       let gap := Pred.score top - Pred.score p1 in
                       if Qltb gap 15 then
                         bias <- recent_bias history ;;
                         if Qgtb bias (6 # 10)
                         then Ok (fallback_decision "BIG" adjustedConf)
                         else if Qltb bias (4 # 10)
                         then Ok (fallback_decision "SMALL" adjustedConf)
                         else Ok (prototype_top_decision top
                                    (Math_max 50 (inject_Z (Math_round (adjustedConf - 12))))
                                    preds)
                       else Ok (prototype_top_decision top adjustedConf preds)
                   | [] => Ok (prototype_top_decision top adjustedConf preds)
                   end
               end
           end ;;
  Ok (enforce_minConfidence (Manager.minConfidence mm) final).

(** [this.models.find(x => x.id === key)] followed by [m.learn(wasWin, { lr })]. *)
Fixpoint prototype_learn_in (models : list Predictor.t) (key : string) (wasWin : bool)
    (lr : Q) : option (list Predictor.t * Predictor.t * Stats.t) :=
  match models with
  | [] => None
  | m :: rest =>
      if String.eqb (Model.id (Predictor.st m)) key then
        let (s', res) := Predictor.learn m (Predictor.st m) wasWin (ObjArg (Some lr)) in
        let m' := {| Predictor.st := s';
                     Predictor.predict := Predictor.predict m;
                     Predictor.learn := Predictor.learn m |} in
        Some (m' :: rest, m', res)
      else
        match prototype_learn_in rest key wasWin lr with
        | Some (rest', m', res) => Some (m :: rest', m', res)
        | None => None
        end
  end.

(** [ModelManager.prototype.learn = function(chosenModelId, wasWin, context)];
    the pg pool is [null] unless [init] was given one. *)
Definition ModelManager_prototype_learn (mm : Manager.t) (chosenModelId : string)
    (wasWin : bool) (context : LearnContext.t) : Manager.t * option Stats.t :=
  let lr := baseLR context in
  match prototype_learn_in (Manager.models mm) chosenModelId wasWin lr with
  | None => (mm, None)
  | Some (models', _, res) => (with_models mm models', Some res)
  end.

(** An entry of the list [stats()] and [dumpModelState()] return. *)
Module ModelStats.
Record t : Type := mk {
  id : string;
  name : string;
  weight : num;
  wins : Z;
  losses : Z;
  emaAccuracy : Q
}.
End ModelStats.

(** [ModelManager.prototype.stats()], which is [dumpModelState()] in
    model_manager.js. *)
Definition dumpModelState (mm : Manager.t) : list ModelStats.t :=
  map (fun m =>
         let s := Predictor.st m in
         {| ModelStats.id := Model.id s;
            ModelStats.name := Model.name s;
            ModelStats.weight := Model.weight s;
            ModelStats.wins := Model.wins s;
            ModelStats.losses := Model.losses s;
            ModelStats.emaAccuracy := Model.emaAccuracy s |})
      (Manager.models mm).

(** Every model has an id (one that is not the empty string). *)
Definition has_id (m : Predictor.t) : Prop := Model.id (Predictor.st m) <> "".

(** ** ensemble.js *)

(** [s.includes(sub)] *)
Fixpoint includes (s sub : string) : bool :=
  starts_with sub s
  || match s with
     | EmptyString => false
     | String _ s' => includes s' sub
     end.

(** The white space that [parseInt] skips, in the UTF-8 bytes of the
    string: TAB, LF, VT, FF, CR and SP, U+00A0, and the three-byte
    U+1680, U+2000 to U+200A, U+2028, U+2029, U+202F, U+205F, U+3000 and
    U+FEFF. *)
Definition white_space1 (a : ascii) : bool :=
  let n := nat_of_ascii a in
  ((9 <=? n) && (n <=? 13) || (n =? 32))%nat.

Definition white_space2 (a b : ascii) : bool :=
  ((nat_of_ascii a =? 194) && (nat_of_ascii b =? 160))%nat.

Definition white_space3 (a b c : ascii) : bool :=
  let x := nat_of_ascii a in
  let y := nat_of_ascii b in
  let z := nat_of_ascii c in
  ((x =? 225) && (y =? 154) && (z =? 128)
   || (x =? 226) && (y =? 128)
      && ((128 <=? z) && (z <=? 138) || (z =? 168) || (z =? 169) || (z =? 175))
   || (x =? 226) && (y =? 129) && (z =? 159)
   || (x =? 227) && (y =? 128) && (z =? 128)
   || (x =? 239) && (y =? 187) && (z =? 191))%nat.

Fixpoint trim_start (s : string) : string :=
  match s with
  | EmptyString => s
  | String a r =>
      if white_space1 a then trim_start r
      else
        match r with
        | EmptyString => s
        | String b r2 =>
            if white_space2 a b then trim_start r2
            else
              match r2 with
              | EmptyString => s
              | String c r3 => if white_space3 a b c then trim_start r3 else s
              end
        end
  end.

(** The value of a digit in a radix up to 36. *)
Definition digit_value (a : ascii) : option Z :=
  let n := nat_of_ascii a in
  if ((48 <=? n) && (n <=? 57))%nat then Some (Z.of_nat n - 48)%Z
  else if ((97 <=? n) && (n <=? 122))%nat then Some (Z.of_nat n - 87)%Z
  else if ((65 <=? n) && (n <=? 90))%nat then Some (Z.of_nat n - 55)%Z
  else None.

(** The digits of the radix at the head of the string, as a number;
    [None] when there is none. *)
Fixpoint leading_digits (radix : Z) (acc : option Z) (s : string) : option Z :=
  match s with
  | EmptyString => acc
  | String a r =>
      match digit_value a with
      | Some d =>
          if (d <? radix)%Z then
            leading_digits radix
              (Some (match acc with Some v => v * radix + d | None => d end)%Z) r
          else acc
      | None => acc
      end
  end.

(** [parseInt(s)] with no radix: white space, a sign, [0x] or [0X] for the
    radix 16, and the digits; NaN ([None]) when there is no digit.  The
    value is the exact integer. *)
Definition parseInt (s : string) : option Z :=
  let s := trim_start s in
  let (sign, s) :=
    match s with
    | String "-"%char r => ((-1)%Z, r)
    | String "+"%char r => (1%Z, r)
    | _ => (1%Z, s)
    end in
  let (radix, s) :=
    match s with
    | String "0"%char (String "x"%char r) => (16%Z, r)
    | String "0"%char (String "X"%char r) => (16%Z, r)
    | _ => (10%Z, s)
    end in
  option_map (Z.mul sign) (leading_digits radix None s).

(** The argument of [getEngineName]: a string, a number (NaN is [None]),
    or [undefined]. *)
Inductive LogicIdentifier : Type :=
| IdString (s : string)
| IdNumber (n : num)
| IdUndefined.

(** [l.includes(id)] on an array of integers: NaN is in none. *)
Definition includes_number (l : list Z) (id : num) : bool :=
  match id with
  | Some v => existsb (fun k => Qeq_bool (inject_Z k) v) l
  | None => false
  end.

(** [id === k] for an integer [k]: NaN equals nothing. *)
Definition strict_equals (id : num) (k : Z) : bool :=
  match id with
  | Some v => Qeq_bool v (inject_Z k)
  | None => false
  end.

(** [getEngineName(logicIdentifier)] *)
Definition getEngineName (logicIdentifier : LogicIdentifier) : string :=
  let by_name : option string :=
    match logicIdentifier with
    | IdString s =>
        if includes s "FLONZA_V4_HYBRID" then Some "Advanced AI"
        else if includes s "DUAL" then
          if includes s "19" || includes s "28" then Some "Machine Learning"
          else if includes s "25" then Some "Fibonacci Engine"
          else if includes s "22" then Some "Loss Recovery"
          else Some "Hybrid AI"
        else None
    | _ => None
    end in
  match by_name with
  | Some name => name
  | None =>
      let id : num :=
        match logicIdentifier with
        | IdNumber n => n
        | IdString s => option_map inject_Z (parseInt s)
        | IdUndefined => option_map inject_Z (parseInt "undefined")
        end in
      if includes_number [1; 3; 4; 5; 6; 8; 12]%Z id then "Pattern Bias"
      else if includes_number [19; 28]%Z id then "Machine Learning"
      else if strict_equals id 25 then "Fibonacci Engine"
      else if strict_equals id 22 then "Loss Recovery"
      else "Trend Logic"
  end.

(** The [logic] strings of the decisions of a manager of a [KBTModel]
    called KBT and an [AIModel] called AI_FLONZA. *)
Definition roster_logics : list string :=
  "fallback-low-consensus-bias"
  :: map (fun x => ("KBT:" ++ x)%string)
       ("model" :: map string_of_Z [1; 3; 5; 8; 22; 6; 19; 25; 28; 4; 12]%Z)
  ++ map (fun x => ("AI_FLONZA:" ++ x)%string) ["model"; "fallback"; "FLONZA_V4_ENHANCED"].

(** ** server.js: what is stored with a prediction, and the learning
    update for a resolved one *)

(** [finalPrediction.chosenModel || 'ensemble'], the [model_id] stored with
    a prediction. *)
Definition stored_model_id (d : Decision.t) : string :=
  match Decision.chosenModel d with
  | Some s => str_or s "ensemble"
  | None => "ensemble"
  end.

(** [finalPrediction.contributing || []], the [contributors] stored with
    a prediction. *)
Definition stored_contributors (d : Decision.t) : list Contributor.t :=
  match Decision.contributing d with
  | Some l => l
  | None => []
  end.

(** The learning update of [fetchAndProcess] for a resolved prediction.
    [model_id] and [contributors] are the columns of the row read back
    ([None] is [null]); [consecutiveLosses] is the counter of the module,
    which the update sets first.  The result is the manager and the
    counter. *)
Definition learning_update (mm : Manager.t) (consecutiveLosses : Z)
    (model_id : option string) (contributors : option (list Contributor.t))
    (isWin : bool) : Manager.t * Z :=
  let consecutiveLosses := if isWin then 0%Z else (consecutiveLosses + 1)%Z in
  let context := {| LearnContext.consecutiveLosses := Some consecutiveLosses |} in
  let modelId :=
    match model_id with
    | Some EmptyString => None
    | Some s => Some s
    | None => None
    end in
  match modelId with
  | Some id =>
      if negb (String.eqb id "ensemble") then
        (fst (ModelManager_learn mm id isWin context), consecutiveLosses)
      else
        let contrib := match contributors with Some l => l | None => [] end in
        match contrib with
        | [] => (mm, consecutiveLosses)
        | _ => (fst (ModelManager_learnMultiple mm contrib isWin context),
                consecutiveLosses)
        end
  | None => (mm, consecutiveLosses)
  end.

(** The counter after the update. *)
Definition next_losses (consecutiveLosses : Z) (isWin : bool) : Z :=
  if isWin then 0%Z else (consecutiveLosses + 1)%Z.

(** No model is called [ensemble], and each has an id or a name. *)
Definition named (m : Predictor.t) : Prop :=
  id_or_name m <> "" /\ id_or_name m <> "ensemble".

(** ** server.js: [generateWingoUrl] *)

(** [s.padStart(4, '0')] *)
Definition padStart4 (s : string) : string :=
  (string_of_list_ascii (repeat "0"%char (4 - String.length s)) ++ s)%string.

(** The [drawNumber] of [generateWingoUrl]; [msSinceMidnight] is
    [now - new Date(now.getFullYear(), now.getMonth(), now.getDate())]. *)
Definition drawNumber (msSinceMidnight : Z) : string :=
  let minutesSinceMidnight := (msSinceMidnight / 60000)%Z in
  padStart4 (string_of_Z (Z.rem (minutesSinceMidnight + 1440) 1440)).

(** [generateWingoUrl()]; [today] is
    [now.toISOString().slice(0, 10).replace(/-/g, "")]. *)
Definition generateWingoUrl (today : string) (msSinceMidnight : Z) : string :=
  ("https://wingo.oss-ap-southeast-7.aliyuncs.com/WinGo_1_" ++ today ++ "10001"
   ++ drawNumber msSinceMidnight ++ "_past100_draws")%string.

(** The four digits of every minute of a day. *)
Definition draw_checked (n : nat) : bool :=
  let s := padStart4 (string_of_Z (Z.of_nat n)) in
  (String.length s =? 4)%nat
  && forallb (fun a => (48 <=? nat_of_ascii a)%nat && (nat_of_ascii a <=? 57)%nat)
       (list_ascii_of_string s)
  && match parseInt s with
     | Some v => (v =? Z.of_nat n)%Z
     | None => false
     end.


(** * Properties *)

(** ** Comparisons, [Math.max] and [Math.min] *)

Lemma Qltb_lt (a b : Q) : Qltb a b = true <-> a < b.
Proof.
  unfold Qltb. rewrite negb_true_iff. split; intros H.
  - apply Qnot_le_lt. intros Hle. apply Qle_bool_iff in Hle. congruence.
  - destruct (Qle_bool b a) eqn:E; [|reflexivity].
    apply Qle_bool_iff in E. lra.
Qed.

Lemma Qltb_ge (a b : Q) : Qltb a b = false <-> b <= a.
Proof.
  unfold Qltb. rewrite negb_false_iff. apply Qle_bool_iff.
Qed.

Lemma Math_max_l (a b : Q) : a <= Math_max a b.
Proof.
  unfold Math_max. destruct (Qle_bool a b) eqn:E.
  - apply Qle_bool_iff in E. exact E.
  - lra.
Qed.

Lemma Math_max_r (a b : Q) : b <= Math_max a b.
Proof.
  unfold Math_max. destruct (Qle_bool a b) eqn:E.
  - lra.
  - assert (H : ~ a <= b) by (intros H; apply Qle_bool_iff in H; congruence). lra.
Qed.

Lemma Math_min_l (a b : Q) : Math_min a b <= a.
Proof.
  unfold Math_min. destruct (Qle_bool a b) eqn:E.
  - lra.
  - assert (H : ~ a <= b) by (intros H; apply Qle_bool_iff in H; congruence). lra.
Qed.

Lemma Math_min_r (a b : Q) : Math_min a b <= b.
Proof.
  unfold Math_min. destruct (Qle_bool a b) eqn:E.
  - apply Qle_bool_iff in E. exact E.
  - lra.
Qed.

Lemma Math_max_of_le (a b : Q) : a <= b -> Math_max a b = b.
Proof.
  intros H. unfold Math_max. apply Qle_bool_iff in H. rewrite H. reflexivity.
Qed.

Lemma Math_max_lub (a b c : Q) : a <= c -> b <= c -> Math_max a b <= c.
Proof.
  intros Ha Hb. unfold Math_max. destruct (Qle_bool a b); assumption.
Qed.

Lemma Math_min_glb (a b c : Q) : c <= a -> c <= b -> c <= Math_min a b.
Proof.
  intros Ha Hb. unfold Math_min. destruct (Qle_bool a b); assumption.
Qed.

Lemma Math_round_near (x : Q) : Qabs (inject_Z (Math_round x) - x) <= 1 # 2.
Proof.
  unfold Math_round. apply Qabs_Qle_condition.
  pose proof (Qfloor_le (x + (1 # 2))) as L.
  pose proof (Qlt_floor (x + (1 # 2))) as U.
  rewrite inject_Z_plus in U. change (inject_Z 1) with 1 in U.
  set (r := inject_Z (Qfloor (x + (1 # 2)))) in *. split; lra.
Qed.

Lemma clamp_bounds (x lo hi : Q) : lo <= hi -> lo <= clamp x lo hi <= hi.
Proof.
  intros H. unfold clamp. split.
  - apply Math_max_l.
  - apply Math_max_lub; [exact H | apply Math_min_l].
Qed.

(** ** The learning rule *)

Section LearnProperties.
Context {M : JSMath}.

(** C10. [KBTModel.learn] and [AIModel.learn] are the same update: from the
    same state, with the same [wasWin] and the same second argument (left
    out, an object without a numeric [lr], or [{lr}] with [lr] any number),
    they give the same next state and return the same
    [{wins, losses, weight, emaAccuracy}]. *)
Theorem learn_KBT_AI_equal (s : Model.state) (wasWin : bool) (arg : LearnArg) :
  KBTModel_learn s wasWin arg = AIModel_learn s wasWin arg.
Proof.
  destruct arg as [|[lr|]| |negative]; reflexivity.
Qed.

Lemma KBTModel_learn_settings (s : Model.state) (wasWin : bool) (arg : LearnArg) :
  default_settings s -> default_settings (fst (KBTModel_learn s wasWin arg)).
Proof.
  unfold default_settings, KBTModel_learn; cbn.
  intros (Hl & Ha & Hmin & Hmax & Hd & Hw & Hlo).
  repeat split; try assumption; destruct wasWin; lia.
Qed.

Lemma learn_calls_settings (calls : list (bool * LearnArg)) (s : Model.state) :
  default_settings s -> default_settings (learn_calls KBTModel_learn calls s).
Proof.
  revert s. induction calls as [|c calls IH]; intros s Hs; cbn.
  - exact Hs.
  - apply IH. apply KBTModel_learn_settings. exact Hs.
Qed.

Lemma learn_calls_AI (calls : list (bool * LearnArg)) (s : Model.state) :
  learn_calls AIModel_learn calls s = learn_calls KBTModel_learn calls s.
Proof.
  revert s. induction calls as [|c calls IH]; intros s.
  - reflexivity.
  - change (learn_calls AIModel_learn calls (fst (AIModel_learn s (fst c) (snd c)))
            = learn_calls KBTModel_learn calls (fst (KBTModel_learn s (fst c) (snd c)))).
    rewrite IH. reflexivity.
Qed.

Lemma AIModel_learn_KBT (s : Model.state) (wasWin : bool) (arg : LearnArg) :
  AIModel_learn s wasWin arg = KBTModel_learn s wasWin arg.
Proof.
  destruct arg as [|[lr|]| |negative]; reflexivity.
Qed.

Lemma KBTModel_new_settings (id : string) : default_settings (KBTModel_new id).
Proof. unfold default_settings; cbn. repeat split; lia. Qed.

Lemma AIModel_new_settings (id : string) : default_settings (AIModel_new id).
Proof. unfold default_settings; cbn. repeat split; lia. Qed.

Lemma instantAcc_range (w t : Z) :
  (0 <= w <= t)%Z -> (0 < t)%Z -> 0 <= inject_Z w / inject_Z t <= 1.
Proof.
  intros [H0 H1] Ht.
  assert (Qt : 0 < inject_Z t) by (unfold Qlt; simpl; lia).
  assert (Qw : 0 <= inject_Z w) by (unfold Qle; simpl; lia).
  assert (Qwt : inject_Z w <= inject_Z t) by (rewrite <- Zle_Qle; exact H1).
  split.
  - apply Qle_shift_div_l; [exact Qt|]. lra.
  - apply Qle_shift_div_r; [exact Qt|]. lra.
Qed.

Lemma KBTModel_learn_ema (s : Model.state) (wasWin : bool) (arg : LearnArg) :
  default_settings s -> 0 < Model.emaAccuracy s < 1 ->
  0 < Model.emaAccuracy (fst (KBTModel_learn s wasWin arg)) < 1.
Proof.
  intros (Hl & Ha & Hmin & Hmax & Hd & Hw & Hlo) He.
  unfold KBTModel_learn; cbn [fst Model.emaAccuracy]. rewrite Ha.
  set (wins := if wasWin then (Model.wins s + 1)%Z else Model.wins s).
  set (losses := if wasWin then Model.losses s else (Model.losses s + 1)%Z).
  assert (Ht : (0 <? wins + losses)%Z = true).
  { apply Z.ltb_lt. subst wins losses. destruct wasWin; lia. }
  rewrite Ht.
  assert (R : 0 <= inject_Z wins / inject_Z (wins + losses) <= 1).
  { apply instantAcc_range; subst wins losses; destruct wasWin; lia. }
  set (i := inject_Z wins / inject_Z (wins + losses)) in *.
  lra.
Qed.

Lemma learn_calls_ema (calls : list (bool * LearnArg)) (s : Model.state) :
  default_settings s -> 0 < Model.emaAccuracy s < 1 ->
  0 < Model.emaAccuracy (learn_calls KBTModel_learn calls s) < 1.
Proof.
  revert s. induction calls as [|c calls IH]; intros s Hs He.
  - exact He.
  - change (learn_calls KBTModel_learn (c :: calls) s)
      with (learn_calls KBTModel_learn calls (fst (KBTModel_learn s (fst c) (snd c)))).
    apply IH; [apply KBTModel_learn_settings; exact Hs|].
    apply KBTModel_learn_ema; assumption.
Qed.

(** The weight after a call whose [lr] is finite, from a weight that is
    a number: the clamp of the specification. *)
Lemma KBTModel_learn_weight_finite (s : Model.state) (wasWin : bool) (arg : LearnArg) :
  finite_lr arg ->
  Model.weight (fst (KBTModel_learn s wasWin arg))
  = option_map
      (fun w =>
         clamp (w * Math_pow (Model.decay s) (learn_lr arg)
                + (1 + (Model.emaAccuracy (fst (KBTModel_learn s wasWin arg)) - (1 # 2))
                       * (1 # 2)) * learn_lr arg)
           (Model.minWeight s) (Model.maxWeight s))
      (Model.weight s).
Proof.
  intros Hf. unfold KBTModel_learn; cbn [fst Model.weight Model.emaAccuracy].
  destruct arg as [|[lr|]| |negative]; try contradiction;
    destruct (Model.weight s) as [w|]; reflexivity.
Qed.

(** An [lr] of [-Infinity] is the [lr] 0.1, as of any number below it. *)
Lemma KBTModel_learn_NInf (s : Model.state) (wasWin : bool) :
  KBTModel_learn s wasWin (ObjInfinity true)
  = KBTModel_learn s wasWin (ObjArg (Some (1 # 10))).
Proof. reflexivity. Qed.

(** An [lr] of [Infinity] takes the weight to [maxWeight]. *)
Lemma KBTModel_learn_PInf (s : Model.state) (wasWin : bool) (w : Q) :
  default_settings s -> 0 < Model.emaAccuracy s < 1 ->
  Model.weight s = Some w ->
  Model.weight (fst (KBTModel_learn s wasWin (ObjInfinity false))) = Some 3.
Proof.
  intros Hs He Hw.
  pose proof (KBTModel_learn_ema s wasWin (ObjInfinity false) Hs He) as He'.
  destruct Hs as (Hl & Ha & Hmin & Hmax & Hd & Hwi & Hlo).
  unfold KBTModel_learn in *; cbn [fst Model.weight Model.emaAccuracy] in *.
  rewrite Hw, Hd, Hmin, Hmax.
  set (ema := Model.emaAccuracy s * (1 - Model.emaAlpha s) + _ * Model.emaAlpha s) in *.
  cbn [ext_max ext_of_num ext_pow].
  change (Qcompare (Math_abs (999 # 1000)) 1) with Lt. cbv iota.
  assert (G : Qcompare (1 + (ema - (1 # 2)) * (1 # 2)) 0 = Gt).
  { apply Qgt_alt. lra. }
  unfold ext_mul at 2. cbn [ext_sign]. rewrite G.
  reflexivity.
Qed.



(** A weight that is a number between the bounds. *)
Lemma KBTModel_learn_weight_bounds (s : Model.state) (wasWin : bool) (arg : LearnArg)
    (w : Q) :
  default_settings s -> 0 < Model.emaAccuracy s < 1 ->
  Model.weight s = Some w -> arg <> ObjNaN ->
  exists w', Model.weight (fst (KBTModel_learn s wasWin arg)) = Some w'
             /\ 2 # 10 <= w' <= 3.
Proof.
  intros Hs He Hw Hn.
  assert (B : forall a, finite_lr a ->
                exists w', Model.weight (fst (KBTModel_learn s wasWin a)) = Some w'
                           /\ 2 # 10 <= w' <= 3).
  { intros a Hf. rewrite (KBTModel_learn_weight_finite s wasWin a Hf), Hw.
    destruct Hs as (_ & _ & Hmin & Hmax & _). rewrite Hmin, Hmax.
    eexists. split; [reflexivity|]. apply clamp_bounds. lra. }
  destruct arg as [|lr| |[|]].
  - apply B. exact I.
  - apply B. exact I.
  - contradiction.
  - rewrite KBTModel_learn_NInf. apply B. exact I.
  - exists 3. split; [apply (KBTModel_learn_PInf s wasWin w Hs He Hw) | lra].
Qed.

Lemma learn_calls_weight_bounds (calls : list (bool * LearnArg)) (s : Model.state)
    (w : Q) :
  default_settings s -> 0 < Model.emaAccuracy s < 1 ->
  Model.weight s = Some w -> 2 # 10 <= w <= 3 ->
  Forall (fun c => snd c <> ObjNaN) calls ->
  exists w', Model.weight (learn_calls KBTModel_learn calls s) = Some w'
             /\ 2 # 10 <= w' <= 3.
Proof.
  revert s w. induction calls as [|c calls IH]; intros s w Hs He Hw Hb Hc.
  - exists w. split; [exact Hw | exact Hb].
  - change (learn_calls KBTModel_learn (c :: calls) s)
      with (learn_calls KBTModel_learn calls (fst (KBTModel_learn s (fst c) (snd c)))).
    inversion Hc as [|? ? Hc0 Hcr]; subst.
    destruct (KBTModel_learn_weight_bounds s (fst c) (snd c) w Hs He Hw Hc0)
      as (w1 & Hw1 & Hb1).
    apply (IH _ w1); [apply KBTModel_learn_settings; exact Hs
                     |apply KBTModel_learn_ema; assumption
                     |exact Hw1 | exact Hb1 | exact Hcr].
Qed.


Lemma KBTModel_learn_spec (s : Model.state) (wasWin : bool) (lr : Q) :
  default_settings s -> 1 # 10 <= lr ->
  KBTModel_learn s wasWin (ObjArg (Some lr)) = learn_spec s wasWin lr.
Proof.
  intros (Hl & Ha & Hmin & Hmax & Hd & Hw & Hlo) Hlr.
  unfold KBTModel_learn, learn_spec, push_outcome, clamp.
  rewrite Hl, Ha, Hmin, Hmax, Hd.
  cbn [ext_max ext_pow]. rewrite (Math_max_of_le _ _ Hlr).
  assert (Ht : (0 <? (if wasWin then Model.wins s + 1 else Model.wins s)
                     + (if wasWin then Model.losses s else Model.losses s + 1))%Z = true).
  { apply Z.ltb_lt. destruct wasWin; lia. }
  rewrite Ht. destruct (Model.weight s) as [w|]; reflexivity.
Qed.

(** C1. In any state reached from a constructor by [learn] calls, a call
    [learn(wasWin, {lr})] with [lr >= 0.1] is the update of the
    specification, step by step: the outcome is appended to the history
    (the oldest dropped beyond 200), [wins] or [losses] is incremented,
    the instantaneous accuracy is [wins / (wins + losses)], [emaAccuracy]
    becomes [emaAccuracy * (1 - 0.05) + instantAccuracy * 0.05], and the
    weight becomes [clamp(weight * 0.999^lr + (1 + (emaAccuracy - 0.5) * 0.5) * lr, 0.2, 3.0)]
    with the new [emaAccuracy]; the record returned holds the new values.
    This holds of [KBTModel.learn] and of [AIModel.learn]. *)
Theorem learn_follows_spec (calls : list (bool * LearnArg)) (id : string)
    (wasWin : bool) (lr : Q) :
  1 # 10 <= lr ->
  (let s := learn_calls KBTModel_learn calls (KBTModel_new id) in
   KBTModel_learn s wasWin (ObjArg (Some lr)) = learn_spec s wasWin lr)
  /\ (let s := learn_calls AIModel_learn calls (AIModel_new id) in
      AIModel_learn s wasWin (ObjArg (Some lr)) = learn_spec s wasWin lr).
Proof.
  intros Hlr. split; cbn zeta.
  - apply KBTModel_learn_spec; [|exact Hlr].
    apply learn_calls_settings, KBTModel_new_settings.
  - rewrite AIModel_learn_KBT, learn_calls_AI.
    apply KBTModel_learn_spec; [|exact Hlr].
    apply learn_calls_settings, AIModel_new_settings.
Qed.

End LearnProperties.

(** A model that won twice and lost once learns from a win at [lr = 1]. *)
Lemma learn_follows_spec_witness :
  1 # 10 <= 1
  /\ (let s := learn_calls (@KBTModel_learn ExactMath)
                 [(true, NoArg); (false, ObjArg (Some 2)); (true, ObjArg None)]
                 (KBTModel_new "KBT") in
      @KBTModel_learn ExactMath s true (ObjArg (Some 1))
      = @learn_spec ExactMath s true 1).
Proof.
  split.
  - unfold Qle; simpl; lia.
  - apply (@learn_follows_spec ExactMath
             [(true, NoArg); (false, ObjArg (Some 2)); (true, ObjArg None)]
             "KBT" true 1).
    unfold Qle; simpl; lia.
Defined.



(** ** The decision of [ModelManager.predict] *)

Lemma insert_pred_length (x : Pred.t) (l : list Pred.t) :
  List.length (insert_pred x l) = S (List.length l).
Proof.
  induction l as [|y r IH]; cbn.
  - reflexivity.
  - destruct (Qltb (Pred.score x) (Pred.score y)); cbn; [rewrite IH|]; reflexivity.
Qed.

Lemma sort_preds_length (l : list Pred.t) :
  List.length (sort_preds l) = List.length l.
Proof.
  induction l as [|x r IH]; cbn.
  - reflexivity.
  - rewrite insert_pred_length, IH. reflexivity.
Qed.

Lemma sorted_preds_length (mm : Manager.t) now history options :
  List.length (sorted_preds mm now history options) = List.length (Manager.models mm).
Proof.
  unfold sorted_preds. rewrite sort_preds_length, length_map. reflexivity.
Qed.

Lemma enforce_minConfidence_confidence (minConfidence : Q) (final : Decision.t) :
  Decision.confidence (enforce_minConfidence minConfidence final)
  = Math_max minConfidence (Decision.confidence final).
Proof.
  unfold enforce_minConfidence, Math_max, Qltb.
  destruct (Qle_bool minConfidence (Decision.confidence final)); reflexivity.
Qed.

Lemma enforce_minConfidence_fields (minConfidence : Q) (final : Decision.t) :
  Decision.prediction (enforce_minConfidence minConfidence final)
  = Decision.prediction final
  /\ Decision.logic (enforce_minConfidence minConfidence final) = Decision.logic final
  /\ Decision.patterns (enforce_minConfidence minConfidence final)
     = Decision.patterns final
  /\ Decision.chosenModel (enforce_minConfidence minConfidence final)
     = Decision.chosenModel final
  /\ Decision.contributing (enforce_minConfidence minConfidence final)
     = Decision.contributing final.
Proof.
  unfold enforce_minConfidence.
  destruct (Qltb (Decision.confidence final) minConfidence); repeat split.
Qed.

Lemma no_models_floor (minConfidence : Q) :
  minConfidence <= Math_max 50 (num_or minConfidence 50).
Proof.
  unfold num_or. destruct (Qeq_bool minConfidence 0) eqn:E.
  - apply Qeq_bool_iff in E. rewrite E.
    apply Qle_trans with 50; [unfold Qle; simpl; lia | apply Math_max_l].
  - apply Math_max_r.
Qed.

Lemma count_type_returns (ty : string) (l : list (option Event.t)) :
  forallb (fun x : option Event.t => match x with Some _ => true | None => false end) l
  = true ->
  exists n, count_type ty l = Ok n.
Proof.
  induction l as [|[e|] r IH]; cbn; intros H.
  - exists 0%Z. reflexivity.
  - destruct (IH H) as [n Hn]. rewrite Hn. cbn. eexists. reflexivity.
  - discriminate.
Qed.

Lemma recent_bias_returns (history : History) :
  no_null_recent history = true -> exists bias, recent_bias history = Ok bias.
Proof.
  unfold recent_bias, no_null_recent. destruct history as [|l]; intros H.
  - cbn. eexists. reflexivity.
  - destruct (count_type_returns "BIG" _ H) as [n Hn]. rewrite Hn. cbn.
    eexists. reflexivity.
Qed.

Lemma low_consensus_returns (p0 p1 : Pred.t) preds history :
  no_null_recent history = true -> exists d, low_consensus p0 p1 preds history = Ok d.
Proof.
  intros H. unfold low_consensus.
  destruct (Qltb (Pred.score p0 - Pred.score p1) 15).
  - destruct (recent_bias_returns history H) as [bias Hb]. rewrite Hb. cbn.
    destruct (Qgtb bias (6 # 10)); [eexists; reflexivity|].
    destruct (Qltb bias (4 # 10)); eexists; reflexivity.
  - eexists. reflexivity.
Qed.

Lemma decide_returns (p0 p1 : Pred.t) preds history :
  no_null_recent history = true -> exists d, decide p0 p1 preds history = Ok d.
Proof.
  intros H. unfold decide.
  destruct (Consensus.agreement (calculateConsensusStrength preds)) as [a|];
    destruct (Overlap.score (analyzePatternOverlap preds)) as [s|];
    try (apply low_consensus_returns; exact H).
  destruct (Qgtb a (75 # 100) && Qgtb s (6 # 10)).
  - eexists. reflexivity.
  - apply low_consensus_returns. exact H.
Qed.

Lemma ModelManager_predict_unfold (mm : Manager.t) now history options :
  ModelManager_predict mm now history options
  = match sorted_preds mm now history options with
    | [] => Ok (no_models_decision (Manager.minConfidence mm))
    | [top] => Ok (single_decision (Manager.minConfidence mm) top [top])
    | p0 :: p1 :: rest =>
        final <- decide p0 p1 (p0 :: p1 :: rest) history ;;
        Ok (enforce_minConfidence (Manager.minConfidence mm) final)
    end.
Proof.
  unfold ModelManager_predict.
  pose proof (sorted_preds_length mm now history options) as L.
  unfold sorted_preds in *.
  destruct (Manager.models mm) as [|m ms]; [reflexivity|].
  destruct (sort_preds _) as [|p0 [|p1 rest]]; [discriminate L| |]; reflexivity.
Qed.

Lemma predict_returns (mm : Manager.t) now history options :
  no_null_recent history = true ->
  exists d, ModelManager_predict mm now history options = Ok d.
Proof.
  intros H. rewrite ModelManager_predict_unfold.
  destruct (sorted_preds mm now history options) as [|p0 [|p1 rest]];
    try (eexists; reflexivity).
  destruct (decide_returns p0 p1 (p0 :: p1 :: rest) history H) as [f Hf].
  rewrite Hf. cbn. eexists. reflexivity.
Qed.

(** C2. Whatever the history, the options and the roster (no model, one,
    or more), a decision that [ModelManager.predict] returns has a
    confidence of at least [minConfidence] (65 as constructed): with no
    model it is [max(50, minConfidence || 50)]; with one model and with
    more it is the greater of [minConfidence] and the confidence computed,
    so a lower one becomes [minConfidence] and no other is changed.  A
    decision is returned for every history none of whose first 20 elements
    is [null]. *)
Theorem predict_confidence_floor (mm : Manager.t) (now : Z) (history : History)
    (options : Options) :
  (no_null_recent history = true ->
   exists d, ModelManager_predict mm now history options = Ok d)
  /\ (forall d, ModelManager_predict mm now history options = Ok d ->
      Manager.minConfidence mm <= Decision.confidence d
      /\ match sorted_preds mm now history options with
         | [] =>
             Decision.confidence d
             = Math_max 50 (num_or (Manager.minConfidence mm) 50)
         | [top] =>
             Decision.confidence d
             = Math_max (Manager.minConfidence mm) (Signal.confidence (Pred.p top))
         | p0 :: p1 :: rest =>
             exists final,
               decide p0 p1 (p0 :: p1 :: rest) history = Ok final
               /\ Decision.confidence d
                  = Math_max (Manager.minConfidence mm) (Decision.confidence final)
         end).
Proof.
  split; [apply predict_returns|].
  rewrite ModelManager_predict_unfold.
  destruct (sorted_preds mm now history options) as [|p0 [|p1 rest]].
  - intros d [= <-]. split; [apply no_models_floor | reflexivity].
  - intros d [= <-]. split; [apply Math_max_l | reflexivity].
  - intros d. destruct (decide p0 p1 (p0 :: p1 :: rest) history) as [f|]; cbn;
      [|discriminate].
    intros [= <-]. rewrite enforce_minConfidence_confidence. split.
    + apply Math_max_l.
    + exists f. split; reflexivity.
Qed.

Lemma decide_low_consensus (p0 p1 : Pred.t) preds history :
  consensus_reached preds = false ->
  decide p0 p1 preds history = low_consensus p0 p1 preds history.
Proof.
  unfold consensus_reached, decide, nan_gtb.
  destruct (Consensus.agreement (calculateConsensusStrength preds)) as [a|];
    destruct (Overlap.score (analyzePatternOverlap preds)) as [s|];
    try reflexivity.
  intros ->. reflexivity.
Qed.

Lemma decide_consensus (p0 p1 : Pred.t) preds history (a s : Q) :
  Consensus.agreement (calculateConsensusStrength preds) = Some a ->
  Overlap.score (analyzePatternOverlap preds) = Some s ->
  75 # 100 < a -> 6 # 10 < s ->
  decide p0 p1 preds history
  = Ok (consensus_decision p0 p1 preds (calculateConsensusStrength preds) a s
          (assessModelReliability preds)).
Proof.
  intros Ha Hs La Ls. unfold decide. rewrite Ha, Hs.
  unfold Qgtb. apply Qltb_lt in La, Ls. rewrite La, Ls. reflexivity.
Qed.

(** C4 (amended). With two models or more, when the consensus test fails,
    the two best scores are less than 15 apart and the share of BIG among
    the first 20 events of the history is above 0.6, the decision is BIG
    with confidence [max(minConfidence, max(55, round(topConfidence - 10)))];
    when the share is below 0.4 it is SMALL with the same confidence.
    [topConfidence] is the confidence of the signal of the best score. *)
Theorem fallback_bias_decision (mm : Manager.t) (now : Z) (history : History)
    (options : Options) (p0 p1 : Pred.t) (rest : list Pred.t) (bias : Q) :
  sorted_preds mm now history options = p0 :: p1 :: rest ->
  consensus_reached (p0 :: p1 :: rest) = false ->
  Pred.score p0 - Pred.score p1 < 15 ->
  recent_bias history = Ok bias ->
  let confidence :=
    Math_max (Manager.minConfidence mm)
      (Math_max 55 (inject_Z (Math_round (Signal.confidence (Pred.p p0) - 10)))) in
  (6 # 10 < bias ->
   exists d, ModelManager_predict mm now history options = Ok d
             /\ Decision.prediction d = "BIG"
             /\ Decision.confidence d = confidence)
  /\ (bias < 4 # 10 ->
      exists d, ModelManager_predict mm now history options = Ok d
                /\ Decision.prediction d = "SMALL"
                /\ Decision.confidence d = confidence).
Proof.
  intros Hs Hc Hgap Hb confidence.
  rewrite ModelManager_predict_unfold, Hs, (decide_low_consensus _ _ _ _ Hc).
  unfold low_consensus. apply Qltb_lt in Hgap. rewrite Hgap, Hb. cbn [bind].
  split; intros H.
  - unfold Qgtb. apply Qltb_lt in H. rewrite H. cbn [bind].
    eexists. split; [reflexivity|]. split.
    + apply enforce_minConfidence_fields.
    + rewrite enforce_minConfidence_confidence. reflexivity.
  - assert (Hn : Qgtb bias (6 # 10) = false).
    { unfold Qgtb. apply Qltb_ge. lra. }
    apply Qltb_lt in H. rewrite Hn, H. cbn [bind].
    eexists. split; [reflexivity|]. split.
    + apply enforce_minConfidence_fields.
    + rewrite enforce_minConfidence_confidence. reflexivity.
Qed.

(** *** Reliabilities by model id *)

Lemma rel_get_app_skip (r1 r2 : Reliability) (k : string) :
  ~ In k (map fst r1) -> rel_get (r1 ++ r2) k = rel_get r2 k.
Proof.
  induction r1 as [|[k' v] r1 IH]; cbn; intros H.
  - reflexivity.
  - destruct (String.eqb k' k) eqn:E.
    + apply String.eqb_eq in E. exfalso. apply H. left. exact E.
    + apply IH. intros Hin. apply H. right. exact Hin.
Qed.

Lemma assess_fold (preds : list Pred.t) (acc : Reliability) :
  fold_left
    (fun reliability p =>
       let m := Predictor.st (Pred.model p) in
       rel_set reliability (Model.id m)
         (Math_min 1 (nan_or (Model.weight m) (1 # 2)
                      * num_or (Model.emaAccuracy m) (1 # 2) * 2)))
    preds acc
  = rev (map (fun p => (Model.id (Predictor.st (Pred.model p)),
                        reliability_of (Pred.model p))) preds) ++ acc.
Proof.
  revert acc. induction preds as [|p r IH]; intros acc; cbn.
  - reflexivity.
  - rewrite IH. rewrite <- app_assoc. reflexivity.
Qed.

Lemma rel_get_assess (preds : list Pred.t) (p : Pred.t) :
  NoDup (map (fun p => Model.id (Predictor.st (Pred.model p))) preds) ->
  In p preds ->
  rel_get (assessModelReliability preds) (Model.id (Predictor.st (Pred.model p)))
  = Some (reliability_of (Pred.model p)).
Proof.
  unfold assessModelReliability. rewrite assess_fold.
  generalize (@nil (string * Q)).
  induction preds as [|x r IH]; intros acc Hnd Hin; [destruct Hin|].
  cbn [map rev]. rewrite <- app_assoc. cbn [app].
  inversion Hnd as [|? ? Hx Hr]; subst.
  destruct Hin as [->|Hin].
  - rewrite rel_get_app_skip.
    + cbn. rewrite String.eqb_refl. reflexivity.
    + rewrite map_rev, map_map. cbn [fst]. intros Hin. apply in_rev in Hin.
      exact (Hx Hin).
  - apply IH; assumption.
Qed.

Lemma fold_left_ext_in {A B : Type} (f g : A -> B -> A) (l : list B) (a : A) :
  (forall x acc, In x l -> f acc x = g acc x) ->
  fold_left f l a = fold_left g l a.
Proof.
  revert a. induction l as [|x r IH]; intros a H; cbn.
  - reflexivity.
  - rewrite (H x a (or_introl eq_refl)). apply IH.
    intros y acc Hy. apply H. right. exact Hy.
Qed.

Lemma insert_pred_perm (x : Pred.t) (l : list Pred.t) :
  Permutation (insert_pred x l) (x :: l).
Proof.
  induction l as [|y r IH]; cbn.
  - apply Permutation_refl.
  - destruct (Qltb (Pred.score x) (Pred.score y)).
    + apply Permutation_trans with (y :: x :: r).
      * apply perm_skip. exact IH.
      * apply perm_swap.
    + apply Permutation_refl.
Qed.

Lemma sort_preds_perm (l : list Pred.t) : Permutation (sort_preds l) l.
Proof.
  induction l as [|x r IH]; cbn.
  - apply perm_nil.
  - apply Permutation_trans with (x :: sort_preds r).
    + apply insert_pred_perm.
    + apply perm_skip. exact IH.
Qed.

Lemma run_model_model now history options (m : Predictor.t) :
  Pred.model (run_model now history options m) = m.
Proof.
  unfold run_model, try_catch, bind.
  destruct (Predictor.predict m (Predictor.st m) now history options); reflexivity.
Qed.

Lemma sorted_preds_models (mm : Manager.t) now history options :
  Permutation (map Pred.model (sorted_preds mm now history options))
    (Manager.models mm).
Proof.
  unfold sorted_preds.
  apply Permutation_trans
    with (map Pred.model (map (run_model now history options) (Manager.models mm))).
  - apply Permutation_map, sort_preds_perm.
  - rewrite map_map.
    rewrite (map_ext _ (fun m => m)); [rewrite map_id; apply Permutation_refl|].
    intros m. apply run_model_model.
Qed.

(** C6 (amended). On the consensus path (two models or more, agreement
    above 0.75 and pattern overlap above 0.6), with model ids that differ,
    the category is the majority one and the confidence is
    [max(minConfidence, min(92, r))], where [r] is [base * factor] rounded
    to an integer, [base] is the sum of the confidences, each multiplied by
    the reliability [min(1, (weight || 0.5) * (emaAccuracy || 0.5) * 2)] of
    its model, divided by the number of models, and [factor] is
    [min(1.3, 1 + agreement * 0.2 + overlap * 0.1)].  The code rounds the
    product it has computed in doubles, which can differ from the exact one
    in its last places: [r] is an integer nearest to [base * factor], and
    where the product is within a thousandth of a half it is one of the two
    integers next to it. *)
Theorem consensus_confidence (mm : Manager.t) (now : Z) (history : History)
    (options : Options) (agreement overlap : Q) :
  let preds := sorted_preds mm now history options in
  NoDup (map (fun m => Model.id (Predictor.st m)) (Manager.models mm)) ->
  (2 <= List.length preds)%nat ->
  Consensus.agreement (calculateConsensusStrength preds) = Some agreement ->
  Overlap.score (analyzePatternOverlap preds) = Some overlap ->
  75 # 100 < agreement -> 6 # 10 < overlap ->
  let base :=
    fold_left
      (fun acc p => acc + Signal.confidence (Pred.p p) * reliability_of (Pred.model p))
      preds 0
    / inject_Z (Z.of_nat (List.length preds)) in
  let factor := Math_min (13 # 10) (1 + agreement * (2 # 10) + overlap * (1 # 10)) in
  exists (d : Decision.t) (r : Z),
    ModelManager_predict mm now history options = Ok d
    /\ Decision.prediction d = Consensus.prediction (calculateConsensusStrength preds)
    /\ Decision.confidence d
       = Math_max (Manager.minConfidence mm) (Math_min 92 (inject_Z r))
    /\ Qabs (inject_Z r - base * factor) <= (1 # 2) + (1 # 1000).
Proof.
  intros preds Hnd Hlen Ha Ho La Lo base factor.
  rewrite ModelManager_predict_unfold.
  assert (P : Permutation (map Pred.model preds) (Manager.models mm))
    by apply sorted_preds_models.
  fold preds. destruct preds as [|p0 [|p1 rest]];
    [cbn in Hlen; lia | cbn in Hlen; lia |].
  rewrite (decide_consensus _ _ _ _ _ _ Ha Ho La Lo). cbn [bind].
  eexists. exists (Math_round (base * factor)).
  split; [reflexivity|]. split; [|split].
  - apply enforce_minConfidence_fields.
  - rewrite enforce_minConfidence_confidence.
    unfold consensus_decision; cbn [Decision.confidence].
    unfold calculateEnhancedConfidence, base, factor.
    f_equal. f_equal. f_equal. f_equal. f_equal. f_equal.
    apply fold_left_ext_in. intros x acc Hx.
    rewrite rel_get_assess; [reflexivity| |exact Hx].
    apply (Permutation_map (fun m => Model.id (Predictor.st m))) in P.
    rewrite map_map in P.
    apply (Permutation_NoDup (Permutation_sym P)). exact Hnd.
  - pose proof (Math_round_near (base * factor)) as N.
    set (e := Qabs (inject_Z (Math_round (base * factor)) - base * factor)) in *.
    lra.
Qed.

Lemma contributing_top_shape (preds : list Pred.t) :
  map Contributor.name (contributing_top preds)
  = map (fun x => Model.name (Predictor.st (Pred.model x))) preds
  /\ map Contributor.prediction (contributing_top preds)
     = map (fun x => Signal.prediction (Pred.p x)) preds
  /\ map Contributor.confidence (contributing_top preds)
     = map (fun x => Signal.confidence (Pred.p x)) preds
  /\ map Contributor.weight (contributing_top preds)
     = map (fun x => Model.weight (Predictor.st (Pred.model x))) preds
  /\ map Contributor.id (contributing_top preds)
     = map (fun x => id_or_name (Pred.model x)) preds.
Proof.
  unfold contributing_top. rewrite !map_map. repeat split.
Qed.

Lemma contributing_single_shape (preds : list Pred.t) :
  map Contributor.name (contributing_single preds)
  = map (fun x => Model.name (Predictor.st (Pred.model x))) preds
  /\ map Contributor.prediction (contributing_single preds)
     = map (fun x => Signal.prediction (Pred.p x)) preds
  /\ map Contributor.confidence (contributing_single preds)
     = map (fun x => Signal.confidence (Pred.p x)) preds
  /\ map Contributor.weight (contributing_single preds)
     = map (fun x => Model.weight (Predictor.st (Pred.model x))) preds
  /\ map Contributor.id (contributing_single preds)
     = map (fun x => Model.id (Predictor.st (Pred.model x))) preds.
Proof.
  unfold contributing_single. rewrite !map_map. repeat split.
Qed.

Lemma contributing_consensus_shape (r : Reliability) (preds : list Pred.t) :
  map Contributor.name (contributing_consensus r preds)
  = map (fun x => Model.name (Predictor.st (Pred.model x))) preds
  /\ map Contributor.prediction (contributing_consensus r preds)
     = map (fun x => Signal.prediction (Pred.p x)) preds
  /\ map Contributor.confidence (contributing_consensus r preds)
     = map (fun x => Signal.confidence (Pred.p x)) preds
  /\ map Contributor.id (contributing_consensus r preds)
     = map (fun x => id_or_name (Pred.model x)) preds.
Proof.
  unfold contributing_consensus. rewrite !map_map. repeat split.
Qed.

Lemma low_consensus_contents (p0 p1 : Pred.t) (rest : list Pred.t) history d :
  low_consensus p0 p1 (p0 :: p1 :: rest) history = Ok d ->
  (Decision.contributing d = None
   /\ Decision.chosenModel d = Some "fallback"
   /\ Decision.logic d = "fallback-low-consensus-bias"
   /\ Decision.patterns d = [])
  \/ (Decision.contributing d = Some (contributing_top (p0 :: p1 :: rest))
      /\ Decision.chosenModel d = Some (id_or_name (Pred.model p0))
      /\ Decision.patterns d = patterns_or_empty (Pred.p p0)
      /\ Decision.prediction d = Signal.prediction (Pred.p p0)).
Proof.
  unfold low_consensus.
  destruct (Qltb (Pred.score p0 - Pred.score p1) 15).
  - destruct (recent_bias history) as [bias|]; cbn [bind]; [|discriminate].
    destruct (Qgtb bias (6 # 10)); [intros [= <-]; left; repeat split|].
    destruct (Qltb bias (4 # 10)); intros [= <-]; [left|right]; repeat split.
  - intros [= <-]. right. repeat split.
Qed.

(** C7 (amended). A decision of [ModelManager.predict] on a roster that is
    not empty has a strategy tag ([chosenModel]: ['enhanced_ensemble'],
    ['fallback'], or the id of the model of the best score, its name where
    the id is empty and there are two models or more).  The consensus,
    top-model and single-model decisions have a contributor list that is
    not empty, with
    an entry per model in the order of the scores, holding the model's id
    (or name), name, the category and the confidence of its signal, and its
    weight (on the consensus path, the weight times the reliability); the
    fallback-bias decision has no contributor list and no pattern.  The
    patterns of a top-model decision are those of the top signal; those of
    a consensus decision are the distinct tags of the two best signals and
    the two tags [Consensus_n] and [PatternMatch_n]. *)
Theorem decision_contents (mm : Manager.t) (now : Z) (history : History)
    (options : Options) (d : Decision.t) :
  Manager.models mm <> [] ->
  ModelManager_predict mm now history options = Ok d ->
  let preds := sorted_preds mm now history options in
  Decision.chosenModel d <> None
  /\ match Decision.contributing d with
     | None =>
         Decision.chosenModel d = Some "fallback"
         /\ Decision.logic d = "fallback-low-consensus-bias"
         /\ Decision.patterns d = []
     | Some l =>
         contributors_of preds l
         /\ List.length l = List.length (Manager.models mm)
         /\ ((Decision.chosenModel d = Some "enhanced_ensemble"
              /\ map Contributor.id l = map (fun x => id_or_name (Pred.model x)) preds
              /\ map Contributor.weight l
                 = map (fun x =>
                          nan_mul (Model.weight (Predictor.st (Pred.model x)))
                            (Some match rel_get (assessModelReliability preds)
                                          (Model.id (Predictor.st (Pred.model x))) with
                                  | Some r => num_or r 1
                                  | None => 1
                                  end)) preds
              /\ exists p0 p1 rest agreement overlap,
                   preds = p0 :: p1 :: rest
                   /\ Decision.patterns d
                      = Set_of (patterns_or_empty (Pred.p p0)
                                ++ patterns_or_empty (Pred.p p1)
                                ++ [ ("Consensus_"
                                      ++ string_of_Z (Math_round (agreement * 100)))%string;
                                     ("PatternMatch_"
                                      ++ string_of_Z (Math_round (overlap * 100)))%string ]))
             \/ (map Contributor.weight l
                 = map (fun x => Model.weight (Predictor.st (Pred.model x))) preds
                 /\ exists top rest,
                      preds = top :: rest
                      /\ Decision.chosenModel d
                         = Some match rest with
                                | [] => Model.id (Predictor.st (Pred.model top))
                                | _ => id_or_name (Pred.model top)
                                end
                      /\ Decision.prediction d = Signal.prediction (Pred.p top)
                      /\ Decision.patterns d = patterns_or_empty (Pred.p top)
                      /\ map Contributor.id l
                         = match rest with
                           | [] => map (fun x => Model.id (Predictor.st (Pred.model x))) preds
                           | _ => map (fun x => id_or_name (Pred.model x)) preds
                           end))
     end.
Proof.
  intros Hne Hd preds.
  pose proof (sorted_preds_length mm now history options) as L.
  rewrite ModelManager_predict_unfold in Hd. fold preds in Hd, L.
  destruct preds as [|p0 [|p1 rest]] eqn:Hs.
  - destruct (Manager.models mm); [contradiction|discriminate L].
  - injection Hd as <-. cbn [single_decision Decision.chosenModel Decision.contributing].
    split; [discriminate|].
    destruct (contributing_single_shape [p0]) as (E1 & E2 & E3 & E4 & E5).
    split; [|split].
    + unfold contributors_of. rewrite E1, E2, E3. repeat split. discriminate.
    + rewrite <- L. reflexivity.
    + right. split; [exact E4|]. exists p0, [].
      split; [reflexivity|]. split; [reflexivity|]. split; [reflexivity|].
      split; [reflexivity | exact E5].
  - destruct (decide p0 p1 (p0 :: p1 :: rest) history) as [f|] eqn:Hf;
      cbn [bind] in Hd; [|discriminate].
    injection Hd as <-.
    destruct (enforce_minConfidence_fields (Manager.minConfidence mm) f)
      as (F1 & F2 & F3 & F4 & F5).
    rewrite F1, F2, F3, F4, F5.
    assert (Len : forall (B : Type) (g : Pred.t -> B),
               List.length (map g (p0 :: p1 :: rest))
               = List.length (Manager.models mm)).
    { intros B g. rewrite length_map. exact L. }
    unfold decide in Hf.
    destruct (Consensus.agreement (calculateConsensusStrength (p0 :: p1 :: rest)))
      as [a|] eqn:Ha;
      destruct (Overlap.score (analyzePatternOverlap (p0 :: p1 :: rest)))
        as [s|] eqn:Hsc.
    1: destruct (Qgtb a (75 # 100) && Qgtb s (6 # 10)) eqn:Hc.
    1: { injection Hf as <-.
         cbn [consensus_decision Decision.chosenModel Decision.contributing
              Decision.patterns].
         split; [discriminate|].
         destruct (contributing_consensus_shape
                     (assessModelReliability (p0 :: p1 :: rest)) (p0 :: p1 :: rest))
           as (E1 & E2 & E3 & E4).
         split; [|split].
         - unfold contributors_of. rewrite E1, E2, E3. repeat split. discriminate.
         - apply Len.
         - left. split; [reflexivity|]. split; [exact E4|]. split.
           + unfold contributing_consensus. rewrite map_map. reflexivity.
           + exists p0, p1, rest, a, s. split; reflexivity. }
    all: apply low_consensus_contents in Hf;
      destruct Hf as [(C1 & C2 & C3 & C4)|(C1 & C2 & C3 & C4)];
      rewrite C1, C2;
      [ split; [discriminate|]; repeat split; assumption
      | split; [discriminate|];
        destruct (contributing_top_shape (p0 :: p1 :: rest)) as (E1 & E2 & E3 & E4 & E5);
        split; [|split];
        [ unfold contributors_of; rewrite E1, E2, E3; repeat split; discriminate
        | apply Len
        | right; split; [exact E4|]; exists p0, (p1 :: rest);
          split; [reflexivity|]; split; [reflexivity|]; split; [exact C4|];
          split; [exact C3 | exact E5] ] ].
Qed.

(** ** The models under the manager: exceptions and the clock *)

Lemma forallb_firstn {A : Type} (f : A -> bool) (n : nat) (l : list A) :
  forallb f l = true -> forallb f (firstn n l) = true.
Proof.
  revert l. induction n as [|n IH]; intros [|x r]; cbn; try reflexivity.
  intros H. apply andb_true_iff in H. destruct H as [Hx Hr].
  rewrite Hx. cbn. apply IH. exact Hr.
Qed.

Lemma event_time_stamped (now1 now2 : Z) (e : Event.t) :
  stamped (Some e) = true -> event_time now1 e = event_time now2 e.
Proof.
  unfold stamped, event_time. destruct (Event.createTime e) as [t|]; [|discriminate].
  destruct (t =? 0)%Z; [discriminate|reflexivity].
Qed.

Lemma intervals_from_stamped (f : Z -> Z -> Z) (now1 now2 : Z)
    (prev : option Event.t) (l : list (option Event.t)) :
  stamped prev = true -> forallb stamped l = true ->
  intervals_from f now1 prev l = intervals_from f now2 prev l.
Proof.
  revert prev. induction l as [|x r IH]; intros prev Hp Hl; cbn [intervals_from].
  - reflexivity.
  - cbn [forallb] in Hl. apply andb_true_iff in Hl. destruct Hl as [Hx Hr].
    destruct prev as [p|]; cbn [get bind]; [|reflexivity].
    destruct x as [c|]; cbn [get bind]; [|reflexivity].
    rewrite (IH (Some c) Hx Hr).
    rewrite (event_time_stamped now1 now2 p Hp), (event_time_stamped now1 now2 c Hx).
    reflexivity.
Qed.

Lemma intervals_of_stamped (f : Z -> Z -> Z) (now1 now2 : Z)
    (l : list (option Event.t)) :
  forallb stamped l = true -> intervals_of f now1 l = intervals_of f now2 l.
Proof.
  destruct l as [|x r]; [reflexivity|]. cbn [forallb intervals_of]. intros H.
  apply andb_true_iff in H. destruct H as [Hx Hr].
  apply intervals_from_stamped; assumption.
Qed.

Lemma detectManipulation_stamped (now1 now2 : Z) (l : list (option Event.t)) :
  forallb stamped l = true -> detectManipulation now1 l = detectManipulation now2 l.
Proof.
  intros H. unfold detectManipulation.
  rewrite (intervals_of_stamped _ now1 now2 l H). reflexivity.
Qed.

Lemma assessMarketStability_stamped (now1 now2 : Z) (l : list (option Event.t)) :
  forallb stamped l = true ->
  assessMarketStability now1 l = assessMarketStability now2 l.
Proof.
  intros H. unfold assessMarketStability.
  rewrite (detectManipulation_stamped now1 now2 l H). reflexivity.
Qed.

Lemma model4_stamped (now1 now2 : Z) (l : list (option Event.t)) :
  forallb stamped l = true ->
  model4_hybridPredictor now1 l = model4_hybridPredictor now2 l.
Proof.
  intros H. unfold model4_hybridPredictor.
  rewrite (assessMarketStability_stamped now1 now2 (firstn 30 l)
             (forallb_firstn _ _ _ H)).
  reflexivity.
Qed.

Section ModelProperties.
Context {M : JSMath}.

Lemma analyzeTimingPatterns_stamped (now1 now2 : Z) (l : list (option Event.t)) :
  forallb stamped l = true ->
  analyzeTimingPatterns now1 l = analyzeTimingPatterns now2 l.
Proof.
  intros H. unfold analyzeTimingPatterns.
  rewrite (intervals_of_stamped _ now1 now2 l H). reflexivity.
Qed.

Lemma assessMarketCondition_stamped (now1 now2 : Z) (l : list (option Event.t)) :
  forallb stamped l = true ->
  assessMarketCondition now1 l = assessMarketCondition now2 l.
Proof.
  intros H. unfold assessMarketCondition.
  rewrite (detectManipulation_stamped now1 now2 l H). reflexivity.
Qed.

Lemma neuralNetworkPrediction_stamped (now1 now2 : Z) (l : list (option Event.t)) :
  forallb stamped l = true ->
  neuralNetworkPrediction now1 l = neuralNetworkPrediction now2 l.
Proof.
  intros H. unfold neuralNetworkPrediction.
  rewrite (analyzeTimingPatterns_stamped now1 now2 l H).
  rewrite (assessMarketCondition_stamped now1 now2 l H).
  reflexivity.
Qed.

Lemma enhancedTrendAnalysis_stamped (now1 now2 : Z) (history : History)
    (options : Options) :
  timestamped history = true ->
  enhancedTrendAnalysis now1 history options
  = enhancedTrendAnalysis now2 history options.
Proof.
  destruct history as [|l]; [reflexivity|]. cbn [timestamped]. intros H.
  unfold enhancedTrendAnalysis.
  rewrite (neuralNetworkPrediction_stamped now1 now2 l H). reflexivity.
Qed.

Lemma model3_stamped (now1 now2 : Z) (l : list (option Event.t)) :
  forallb stamped l = true ->
  model3_manipulationDetector now1 l = model3_manipulationDetector now2 l.
Proof.
  intros H. unfold model3_manipulationDetector.
  rewrite (intervals_of_stamped _ now1 now2 (firstn 50 l) (forallb_firstn _ _ _ H)).
  reflexivity.
Qed.

Lemma flonzaElitePredict_stamped (now1 now2 : Z) (history : History) :
  timestamped history = true ->
  flonzaElitePredict now1 history = flonzaElitePredict now2 history.
Proof.
  destruct history as [|l]; [reflexivity|]. cbn [timestamped]. intros H.
  unfold flonzaElitePredict.
  rewrite (model3_stamped now1 now2 l H), (model4_stamped now1 now2 l H).
  reflexivity.
Qed.

(** A model of one of the two classes of the repository. *)
Definition of_repository (m : Predictor.t) : Prop :=
  Predictor.predict m = KBTModel_predict \/ Predictor.predict m = AIModel_predict.

Lemma run_model_stamped (now1 now2 : Z) (history : History) (options : Options)
    (m : Predictor.t) :
  of_repository m -> timestamped history = true ->
  run_model now1 history options m = run_model now2 history options m.
Proof.
  intros [E|E] H; unfold run_model; rewrite E.
  - unfold KBTModel_predict.
    rewrite (enhancedTrendAnalysis_stamped now1 now2 history options H). reflexivity.
  - unfold AIModel_predict.
    rewrite (flonzaElitePredict_stamped now1 now2 history H). reflexivity.
Qed.

(** C9 (amended). With models of the two classes of the repository, in
    any learning state, and a history each of whose events has a
    [createTime], [ModelManager.predict] returns the same decision (or
    throws alike) whenever it is called: the clock does not enter.  (An
    event without [createTime] is given the current time by the timing
    detectors.)  [predict] writes to no model: the embedding has the
    manager as an argument only, so a second call reads the same
    weights, counters, accuracies and outcome histories. *)
Theorem predict_repeatable (mm : Manager.t) (now1 now2 : Z) (history : History)
    (options : Options) :
  Forall of_repository (Manager.models mm) ->
  timestamped history = true ->
  ModelManager_predict mm now1 history options
  = ModelManager_predict mm now2 history options.
Proof.
  intros Hm Ht. unfold ModelManager_predict.
  rewrite (map_ext_in (run_model now1 history options)
             (run_model now2 history options)); [reflexivity|].
  intros m Hin. apply run_model_stamped; [|exact Ht].
  rewrite Forall_forall in Hm. apply Hm. exact Hin.
Qed.






End ModelProperties.

(** ** Credit assignment *)






Lemma learnMultiple_unfold (mm : Manager.t) (contributions : list Contributor.t)
    (wasWin : bool) (context : LearnContext.t) :
  contributions <> [] ->
  ModelManager_learnMultiple mm contributions wasWin context
  = (with_models mm
       (fst (fold_left
               (learnMultiple_step wasWin (baseLR context) (totalScore contributions))
               contributions (Manager.models mm, []))),
     Some (snd (fold_left
                  (learnMultiple_step wasWin (baseLR context) (totalScore contributions))
                  contributions (Manager.models mm, [])))).
Proof.
  intros Hne. unfold ModelManager_learnMultiple.
  destruct contributions as [|c0 cs]; [contradiction|].
  destruct (fold_left _ (c0 :: cs) _). reflexivity.
Qed.

Lemma learn_in_none (models : list Predictor.t) (key : string) wasWin lr :
  learn_in models key wasWin lr = None <-> ~ In key (map id_or_name models).
Proof.
  induction models as [|m rest IH]; cbn [learn_in map In].
  - split; [intros _ []|reflexivity].
  - destruct (String.eqb (id_or_name m) key) eqn:E.
    + apply String.eqb_eq in E.
      destruct (Predictor.learn m (Predictor.st m) wasWin (ObjArg (Some lr))).
      split; [discriminate|]. intros H. exfalso. apply H. left. exact E.
    + apply String.eqb_neq in E.
      destruct (learn_in rest key wasWin lr) as [[[r m'] res]|].
      * split; [discriminate|]. intros H. exfalso.
        assert (N : ~ In key (map id_or_name rest)) by (intros C; apply H; right; exact C).
        apply IH in N. discriminate N.
      * split; [|reflexivity]. intros _ [C|C]; [exact (E C)|].
        destruct IH as [IH _]. exact (IH eq_refl C).
Qed.

Lemma known_ids (models : list Predictor.t) (c : Contributor.t) :
  known models c
  = existsb (fun i => String.eqb i (Contributor.id c)) (map id_or_name models).
Proof.
  unfold known. induction models as [|m r IH]; cbn; [reflexivity|].
  rewrite IH. reflexivity.
Qed.

Lemma learn_in_known (models : list Predictor.t) (c : Contributor.t) wasWin lr :
  known models c = false <-> learn_in models (Contributor.id c) wasWin lr = None.
Proof.
  rewrite learn_in_none, known_ids. split.
  - intros H C.
    assert (X : existsb (fun i => String.eqb i (Contributor.id c))
                  (map id_or_name models) = true).
    { apply existsb_exists. exists (Contributor.id c). split;
        [exact C | apply String.eqb_refl]. }
    congruence.
  - intros H. destruct (existsb _ _) eqn:E; [|reflexivity].
    apply existsb_exists in E. destruct E as (i & Hi & Ei).
    apply String.eqb_eq in Ei. subst i. contradiction.
Qed.

Lemma default_manager_learns :
  Forall (@learns_as_repository ExactMath) (Manager.models default_manager).
Proof.
  repeat constructor; intros s w [|[x|]| |negative]; reflexivity.
Qed.

Lemma has_id_or_name (m : Predictor.t) :
  has_id m -> id_or_name m = Model.id (Predictor.st m).
Proof.
  unfold has_id, id_or_name, str_or. intros H.
  destruct (Model.id (Predictor.st m)); [contradiction|reflexivity].
Qed.

Section CreditLemmas.
Context {M : JSMath}.

Lemma learn_in_roster (models : list Predictor.t) (key : string) wasWin lr
    models' m' res :
  Forall learns_as_repository models ->
  learn_in models key wasWin lr = Some (models', m', res) ->
  map id_or_name models' = map id_or_name models
  /\ Forall learns_as_repository models'.
Proof.
  revert models'. induction models as [|m rest IH]; intros models' Hl; cbn [learn_in].
  - discriminate.
  - inversion Hl as [|? ? Hm Hrest]; subst.
    destruct (String.eqb (id_or_name m) key).
    + destruct (Predictor.learn m (Predictor.st m) wasWin (ObjArg (Some lr)))
        as [s' r] eqn:E.
      intros [= <- <- <-]. split.
      * cbn [map]. f_equal. unfold id_or_name; cbn [Predictor.st].
        rewrite Hm in E. unfold KBTModel_learn in E. injection E as <- _. reflexivity.
      * constructor; [|exact Hrest]. exact Hm.
    + destruct (learn_in rest key wasWin lr) as [[[r1 m1] res1]|]; [|discriminate].
      intros [= <- <- <-]. destruct (IH r1 Hrest eq_refl) as [E F]. split.
      * cbn [map]. rewrite E. reflexivity.
      * constructor; assumption.
Qed.

Lemma learnMultiple_fold_rates (wasWin : bool) (base total : Q)
    (l : list Contributor.t) (models : list Predictor.t) (results : list LearnResult.t) :
  Forall learns_as_repository models ->
  map LearnResult.lr
    (snd (fold_left (learnMultiple_step wasWin base total) l (models, results)))
  = map LearnResult.lr results ++ map (lr2 base total) (filter (known models) l)
  /\ map id_or_name
       (fst (fold_left (learnMultiple_step wasWin base total) l (models, results)))
     = map id_or_name models.
Proof.
  revert models results. induction l as [|c r IH]; intros models results Hl;
    cbn [fold_left filter].
  - cbn. rewrite app_nil_r. split; reflexivity.
  - unfold learnMultiple_step at 2 4.
    destruct (learn_in models (Contributor.id c) wasWin (lr2 base total c))
      as [[[models' m'] res]|] eqn:E.
    + assert (K : known models c = true).
      { destruct (known models c) eqn:K; [reflexivity|].
        apply (learn_in_known _ _ wasWin (lr2 base total c)) in K. congruence. }
      rewrite K. destruct (learn_in_roster _ _ _ _ _ _ _ Hl E) as [Eid Hl'].
      destruct (IH models' (results ++ [ {| LearnResult.id := Model.id (Predictor.st m');
                                            LearnResult.lr := lr2 base total c;
                                            LearnResult.res := res |} ]) Hl')
        as [R1 R2].
      rewrite R1, R2, Eid. split; [|reflexivity].
      rewrite map_app. cbn [map LearnResult.lr]. rewrite <- app_assoc. cbn [app].
      f_equal. f_equal. f_equal. apply filter_ext. intros c'.
      rewrite !known_ids, Eid. reflexivity.
    + assert (K : known models c = false) by (apply learn_in_known in E; exact E).
      rewrite K. apply IH. exact Hl.
Qed.




End CreditLemmas.

(** ** The statements at concrete inputs *)

(** The default manager on two BIG events returns a decision of
    confidence at least 65. *)
Lemma predict_confidence_floor_witness :
  no_null_recent two_big = true
  /\ exists d, ModelManager_predict default_manager 0 two_big no_options = Ok d
               /\ Manager.minConfidence default_manager <= Decision.confidence d.
Proof.
  split; [reflexivity|].
  destruct (predict_confidence_floor default_manager 0 two_big no_options) as [Ht Hf].
  destruct (Ht eq_refl) as [d Hd].
  exists d. split; [exact Hd | apply (Hf d Hd)].
Defined.

(** C4 as stated fails.  On two BIG events the default manager has the
    scores 60 and 55 (gap 5) and a share of BIG of 1; the decision is BIG
    with confidence 65, the floor, where [max(55, round(60 - 10))] is 55. *)
Lemma fallback_bias_counterexample :
  match sorted_preds default_manager 0 two_big no_options,
        recent_bias two_big,
        ModelManager_predict default_manager 0 two_big no_options with
  | p0 :: p1 :: _, Ok bias, Ok d =>
      Pred.score p0 - Pred.score p1 < 15
      /\ 6 # 10 < bias
      /\ Decision.prediction d = "BIG"
      /\ Decision.confidence d == 65
      /\ Math_max 55 (inject_Z (Math_round (Signal.confidence (Pred.p p0) - 10))) == 55
  | _, _, _ => False
  end.
Proof.
  vm_compute. repeat split.
Qed.

Lemma fallback_bias_decision_witness :
  6 # 10 < 2 # 2
  /\ exists d, ModelManager_predict default_manager 0 two_big no_options = Ok d
               /\ Decision.prediction d = "BIG"
               /\ Decision.confidence d == 65.
Proof.
  assert (Hb : 6 # 10 < 2 # 2) by (vm_compute; reflexivity).
  split; [exact Hb|].
  assert (Hg : Pred.score (run_model 0 two_big no_options (@KBTModel ExactMath "KBT"))
               - Pred.score (run_model 0 two_big no_options (@AIModel ExactMath "AI_FLONZA"))
               < 15) by (vm_compute; reflexivity).
  destruct (fallback_bias_decision default_manager 0 two_big no_options
              (run_model 0 two_big no_options (@KBTModel ExactMath "KBT"))
              (run_model 0 two_big no_options (@AIModel ExactMath "AI_FLONZA"))
              [] (2 # 2) eq_refl eq_refl Hg eq_refl) as [HB _].
  destruct (HB Hb) as (d & Hd & Hp & Hc).
  exists d. split; [exact Hd|]. split; [exact Hp|].
  rewrite Hc. vm_compute. reflexivity.
Defined.



(** C6 as stated fails.  Three [KBTModel]s that lost thirty rounds each
    (weight 3, reliability about 0.64) agree on two BIG events with the
    confidence 60 and the tag [fallback]: agreement 1, overlap 2/3.  The
    mean weighted by the reliabilities is 60 and the claimed confidence
    [min(92, 60 * 1.2667)] is 76; the code divides the sum [60 * 0.64 * 3]
    by 3, rounds [38.6 * 1.2667] to 49 and raises it to the floor 65. *)
Lemma consensus_confidence_counterexample :
  let preds := sorted_preds three_KBT 0 two_big no_options in
  match Consensus.agreement (calculateConsensusStrength preds),
        Overlap.score (analyzePatternOverlap preds),
        ModelManager_predict three_KBT 0 two_big no_options with
  | Some agreement, Some overlap, Ok d =>
      (2 <= List.length preds)%nat
      /\ 75 # 100 < agreement
      /\ 6 # 10 < overlap
      /\ Decision.chosenModel d = Some "enhanced_ensemble"
      /\ Decision.confidence d == 65
      /\ enhanced_confidence_spec preds agreement overlap == 76
  | _, _, _ => False
  end.
Proof.
  vm_compute. repeat split. repeat constructor.
Qed.

Lemma consensus_confidence_witness :
  (2 <= List.length (sorted_preds three_KBT 0 two_big no_options))%nat
  /\ exists (d : Decision.t) (r : Z),
       ModelManager_predict three_KBT 0 two_big no_options = Ok d
       /\ Decision.prediction d = "BIG"
       /\ Decision.confidence d
          = Math_max (Manager.minConfidence three_KBT) (Math_min 92 (inject_Z r))
       /\ (48 <= r <= 50)%Z.
Proof.
  assert (Hnd : NoDup (map (fun m => Model.id (Predictor.st m))
                         (Manager.models three_KBT))).
  { vm_compute. repeat constructor; cbn; intuition discriminate. }
  assert (Hlen : (2 <= List.length (sorted_preds three_KBT 0 two_big no_options))%nat).
  { vm_compute. repeat constructor. }
  assert (Ha : Consensus.agreement
                 (calculateConsensusStrength
                    (sorted_preds three_KBT 0 two_big no_options)) = Some (3 # 3))
    by (vm_compute; reflexivity).
  assert (Ho : Overlap.score
                 (analyzePatternOverlap
                    (sorted_preds three_KBT 0 two_big no_options)) = Some (2 # 3))
    by (vm_compute; reflexivity).
  assert (La : 75 # 100 < 3 # 3) by (vm_compute; reflexivity).
  assert (Lo : 6 # 10 < 2 # 3) by (vm_compute; reflexivity).
  split; [exact Hlen|].
  destruct (consensus_confidence three_KBT 0 two_big no_options (3 # 3) (2 # 3)
              Hnd Hlen Ha Ho La Lo) as (d & r & Hd & Hp & Hc & Hr).
  exists d, r. split; [exact Hd|]. split; [|split; [exact Hc|]].
  - rewrite Hp. vm_compute. reflexivity.
  - apply Qabs_Qle_condition in Hr.
    match type of Hr with
    | context [inject_Z r - ?x] =>
        assert (Hx : 48 + (6 # 10) <= x <= 49 + (4 # 10))
          by (split; vm_compute; discriminate);
        set (v := x) in *
    end.
    assert (L : inject_Z 48 <= inject_Z r <= inject_Z 50).
    { change (inject_Z 48) with 48. change (inject_Z 50) with 50.
      destruct Hr, Hx. split; lra. }
    destruct L as [L1 L2]. rewrite <- Zle_Qle in L1, L2. lia.
Defined.

(** Twelve new [KBTModel]s on two BIG events: the confidences are 60, the
    reliabilities 1, the agreement 1 and the overlap 11/12, and the exact
    product [60 * (1 + 0.2 + 11/120)] is 77.5, a half.  The two integers
    next to it are the ones C6 allows: 78, to which the exact product
    rounds, and 77, to which the code rounds its double
    77.49999999999999. *)
Example consensus_confidence_at_half :
  let preds := sorted_preds twelve_KBT 0 two_big no_options in
  let base :=
    fold_left
      (fun acc p => acc + Signal.confidence (Pred.p p) * reliability_of (Pred.model p))
      preds 0
    / inject_Z (Z.of_nat (List.length preds)) in
  let factor := Math_min (13 # 10) (1 + (12 # 12) * (2 # 10) + (11 # 12) * (1 # 10)) in
  Consensus.agreement (calculateConsensusStrength preds) = Some (12 # 12)
  /\ Overlap.score (analyzePatternOverlap preds) = Some (11 # 12)
  /\ base * factor == 155 # 2
  /\ Qabs (inject_Z 77 - base * factor) <= (1 # 2) + (1 # 1000)
  /\ Qabs (inject_Z 78 - base * factor) <= (1 # 2) + (1 # 1000).
Proof.
  vm_compute. repeat split; discriminate.
Qed.

(** C7 as stated fails.  The decision of the default manager on two BIG
    events is the fallback on the recent bias: it has no contributor list
    and no pattern, where the two signals carry the tags [fallback] and
    [insufficient_data]. *)
Lemma decision_contents_counterexample :
  match ModelManager_predict default_manager 0 two_big no_options with
  | Ok d =>
      List.length (Manager.models default_manager) = 2%nat
      /\ Decision.chosenModel d = Some "fallback"
      /\ Decision.contributing d = None
      /\ Decision.patterns d = []
      /\ flat_map (fun x => patterns_or_empty (Pred.p x))
           (sorted_preds default_manager 0 two_big no_options)
         = ["fallback"; "insufficient_data"]
  | Throw => False
  end.
Proof.
  vm_compute. repeat split.
Qed.

(** On eleven BIG events the scores of the default manager are 25 apart:
    the decision is the one of the model KBT, with the two contributors. *)
Lemma decision_contents_witness :
  Manager.models default_manager <> []
  /\ exists d, ModelManager_predict default_manager 0 eleven_stamped no_options = Ok d
       /\ Decision.chosenModel d = Some "KBT"
       /\ exists l top rest,
            Decision.contributing d = Some l
            /\ contributors_of (sorted_preds default_manager 0 eleven_stamped no_options) l
            /\ List.length l = 2%nat
            /\ map Contributor.weight l = [Some 1; Some 1]
            /\ map Contributor.id l = ["KBT"; "AI_FLONZA"]
            /\ sorted_preds default_manager 0 eleven_stamped no_options = top :: rest
            /\ Decision.chosenModel d = Some (id_or_name (Pred.model top))
            /\ Decision.prediction d = Signal.prediction (Pred.p top)
            /\ Decision.patterns d = patterns_or_empty (Pred.p top).
Proof.
  assert (Hne : Manager.models default_manager <> []) by discriminate.
  split; [exact Hne|].
  assert (E : exists d,
             ModelManager_predict default_manager 0 eleven_stamped no_options = Ok d
             /\ Decision.chosenModel d = Some "KBT"
             /\ Decision.contributing d = Some decided_contributions).
  { eexists. split; [vm_compute; reflexivity|]. split; reflexivity. }
  destruct E as (d & Hd & Hc & Hl).
  pose proof (decision_contents default_manager 0 eleven_stamped no_options d Hne Hd)
    as H.
  cbv zeta in H. rewrite Hl, Hc in H.
  destruct H as (_ & Hco & Hlen & [(C & _)|(Hw & top & rest & Hp & Hm & Hpr & Hpa & Hi)]);
    [discriminate C|].
  pose proof (sorted_preds_length default_manager 0 eleven_stamped no_options) as L.
  rewrite Hp in L. destruct rest as [|p1 rest]; [discriminate L|].
  exists d. split; [exact Hd|]. split; [exact Hc|].
  exists decided_contributions, top, (p1 :: rest).
  split; [exact Hl|]. split; [exact Hco|]. split; [reflexivity|].
  split; [reflexivity|]. split; [reflexivity|]. split; [exact Hp|].
  split; [rewrite Hc; exact Hm|]. split; [exact Hpr | exact Hpa].
Defined.



(** C9 as stated fails.  The newest of eleven BIG events has no
    [createTime].  Called one minute after the newest stamped event, the
    default manager returns six patterns; called 10000 seconds after it, it
    returns seven: the timing detector reads the clock for the unstamped
    event, and [AI detected] joins the patterns of the top model. *)
Lemma predict_repeatable_counterexample :
  match ModelManager_predict default_manager 1700000060000 eleven_big no_options,
        ModelManager_predict default_manager 1700010000000 eleven_big no_options with
  | Ok d1, Ok d2 =>
      Decision.patterns d1
      = [ "Streak of 11"; "Triple pattern"; "Stable weighted probability";
          "Mirror pattern"; "Fibonacci pattern"; "ML detected" ]
      /\ Decision.patterns d2
         = [ "Streak of 11"; "Triple pattern"; "Stable weighted probability";
             "Mirror pattern"; "AI detected"; "Fibonacci pattern"; "ML detected" ]
      /\ Decision.patterns d1 <> Decision.patterns d2
  | _, _ => False
  end.
Proof.
  vm_compute. repeat split. intros H. discriminate H.
Qed.

Lemma predict_repeatable_witness :
  timestamped eleven_stamped = true
  /\ ModelManager_predict default_manager 1700000060000 eleven_stamped no_options
     = ModelManager_predict default_manager 1700010000000 eleven_stamped no_options.
Proof.
  split; [reflexivity|].
  apply (@predict_repeatable ExactMath default_manager).
  - unfold default_manager, ModelManager_default, ModelManager_new.
    cbn [Manager.models].
    apply Forall_cons; [left; reflexivity|].
    apply Forall_cons; [right; reflexivity|].
    apply Forall_nil.
  - reflexivity.
Defined.

(** ** The scenarios of the specification (section 8) *)

(** Two predictors of weight 1 with the signals [{BIG, 80}] and
    [{BIG, 75}], a recent bias of 0.5: the top model with
    [max(50, 80 - 12) = 68]. *)
Example scenario_top_model :
  match ModelManager_predict
          (ModelManager_new [ fixed_model "P1" (fixed_signal "BIG" 80);
                              fixed_model "P2" (fixed_signal "BIG" 75) ])
          0 big_small no_options with
  | Ok d =>
      Decision.prediction d = "BIG"
      /\ Decision.confidence d == 68
      /\ Decision.chosenModel d = Some "P1"
  | Throw => False
  end.
Proof.
  vm_compute. repeat split.
Qed.

(** A single predictor returning [{SMALL, 55}] with [minConfidence = 65]:
    SMALL with confidence 65. *)
Example scenario_single_model :
  match ModelManager_predict
          (ModelManager_new [fixed_model "P" (fixed_signal "SMALL" 55)])
          0 big_small no_options with
  | Ok d => Decision.prediction d = "SMALL" /\ Decision.confidence d == 65
  | Throw => False
  end.
Proof.
  vm_compute. repeat split.
Qed.

(** After 8 wins and 2 losses, one more win moves [emaAccuracy] by
    [(9/11 - emaAccuracy) * 0.05]. *)
Example scenario_ema_update :
  let s := learn_calls (@KBTModel_learn ExactMath)
             (repeat (true, NoArg) 8 ++ repeat (false, NoArg) 2) (KBTModel_new "KBT") in
  let s' := fst (@KBTModel_learn ExactMath s true NoArg) in
  Model.wins s' = 9%Z /\ Model.losses s' = 2%Z
  /\ Model.emaAccuracy s' - Model.emaAccuracy s
     == ((9 # 11) - Model.emaAccuracy s) * (5 # 100).
Proof.
  vm_compute. repeat split.
Qed.


(** * Further properties of the code *)

(** ** The learning state over any sequence of calls *)

Section LearnInvariants.
Context {M : JSMath}.

Lemma learn_calls_snoc learn (calls : list (bool * LearnArg)) c (s : Model.state) :
  learn_calls learn (calls ++ [c]) s
  = fst (learn (learn_calls learn calls s) (fst c) (snd c)).
Proof.
  unfold learn_calls. rewrite fold_left_app. reflexivity.
Qed.

Lemma learn_calls_counters (calls : list (bool * LearnArg)) (s : Model.state) :
  Model.wins (learn_calls KBTModel_learn calls s)
  = (Model.wins s + Z.of_nat (count_occ bool_dec (map fst calls) true))%Z
  /\ Model.losses (learn_calls KBTModel_learn calls s)
     = (Model.losses s + Z.of_nat (count_occ bool_dec (map fst calls) false))%Z.
Proof.
  revert s. induction calls as [|[w a] calls IH]; intros s.
  - cbn. split; lia.
  - change (learn_calls KBTModel_learn ((w, a) :: calls) s)
      with (learn_calls KBTModel_learn calls (fst (KBTModel_learn s w a))).
    destruct (IH (fst (KBTModel_learn s w a))) as [Hw Hl]. rewrite Hw, Hl.
    cbn [map fst]. destruct w; cbn; split; lia.
Qed.

(** X1. After any sequence of [learn] calls from the state the constructor
    leaves, [wins] is the number of calls with a true [wasWin] and [losses]
    the number of the others, whatever the [lr] of each call: no call is
    lost or counted twice, and the two add up to the number of calls.  It
    holds of [KBTModel] and of [AIModel]. *)
Theorem learn_counts_outcomes (calls : list (bool * LearnArg)) (id : string) :
  let wins := Z.of_nat (count_occ bool_dec (map fst calls) true) in
  let losses := Z.of_nat (count_occ bool_dec (map fst calls) false) in
  (wins + losses = Z.of_nat (List.length calls))%Z
  /\ (let s := learn_calls KBTModel_learn calls (KBTModel_new id) in
      Model.wins s = wins /\ Model.losses s = losses)
  /\ (let s := learn_calls AIModel_learn calls (AIModel_new id) in
      Model.wins s = wins /\ Model.losses s = losses).
Proof.
  cbv zeta. split; [|split].
  - induction calls as [|[[|] a] calls IH]; cbn [map fst count_occ List.length].
    + reflexivity.
    + destruct (bool_dec true true); [|congruence].
      destruct (bool_dec true false); [discriminate|]. lia.
    + destruct (bool_dec false true); [discriminate|].
      destruct (bool_dec false false); [|congruence]. lia.
  - destruct (learn_calls_counters calls (KBTModel_new id)) as [Hw Hl].
    rewrite Hw, Hl. cbn. split; reflexivity.
  - rewrite learn_calls_AI.
    destruct (learn_calls_counters calls (AIModel_new id)) as [Hw Hl].
    rewrite Hw, Hl. cbn. split; reflexivity.
Qed.

Lemma push_outcome_skipn (h : list Z) (v : Z) :
  (List.length h <= 200)%nat ->
  push_outcome h v 200 = skipn (List.length (h ++ [v]) - 200) (h ++ [v])
  /\ (List.length (push_outcome h v 200) <= 200)%nat.
Proof.
  intros H. unfold push_outcome. cbv zeta.
  rewrite length_app. cbn [List.length].
  destruct (200 <? Z.of_nat (List.length h + 1))%Z eqn:E.
  - apply Z.ltb_lt in E.
    assert (L : List.length h = 200%nat) by lia.
    replace (List.length h + 1 - 200)%nat with 1%nat by lia.
    destruct h as [|x h]; [discriminate L|]. cbn [app tl skipn].
    split; [reflexivity|]. rewrite length_app. cbn in *. lia.
  - apply Z.ltb_ge in E.
    replace (List.length h + 1 - 200)%nat with 0%nat by lia.
    split; [reflexivity|]. rewrite length_app. cbn. lia.
Qed.

Lemma learn_calls_history (calls : list (bool * LearnArg)) (s : Model.state) :
  Model.lookback s = 200%Z -> (List.length (Model.history s) <= 200)%nat ->
  Model.history (learn_calls KBTModel_learn calls s)
  = skipn (List.length (Model.history s ++ map outcome calls) - 200)
      (Model.history s ++ map outcome calls).
Proof.
  revert s. induction calls as [|[w a] calls IH]; intros s Hl Hh.
  - cbn [map learn_calls fold_left]. rewrite app_nil_r.
    replace (List.length (Model.history s) - 200)%nat with 0%nat by lia.
    reflexivity.
  - change (learn_calls KBTModel_learn ((w, a) :: calls) s)
      with (learn_calls KBTModel_learn calls (fst (KBTModel_learn s w a))).
    assert (Hpush : Model.history (fst (KBTModel_learn s w a))
                    = push_outcome (Model.history s) (outcome (w, a)) 200).
    { unfold KBTModel_learn; cbn [fst Model.history]. rewrite Hl. reflexivity. }
    destruct (push_outcome_skipn (Model.history s) (outcome (w, a)) Hh) as [E L].
    rewrite IH; [|exact Hl|rewrite Hpush; exact L].
    rewrite Hpush. cbn [map].
    set (h := Model.history s) in *. set (v := outcome (w, a)) in *.
    set (rest := map outcome calls).
    replace (h ++ v :: rest) with ((h ++ [v]) ++ rest)
      by (rewrite <- app_assoc; reflexivity).
    rewrite E. rewrite length_app in E |- *.
    destruct (Nat.le_gt_cases (List.length (h ++ [v])) 200) as [C|C].
    + replace (List.length (h ++ [v]) - 200)%nat with 0%nat by lia.
      cbn [skipn]. rewrite !length_app. reflexivity.
    + assert (L1 : List.length (h ++ [v]) = 201%nat).
      { rewrite length_app in *. cbn in *. lia. }
      rewrite L1. replace (201 - 200)%nat with 1%nat by lia.
      destruct (h ++ [v]) as [|x t] eqn:Eh; [discriminate L1|].
      cbn [skipn app List.length]. rewrite !length_app.
      cbn in L1.
      replace (S (List.length t + List.length rest) - 200)%nat
        with (S (List.length t + List.length rest - 200)) by lia.
      reflexivity.
Qed.

(** X2. The [history] of a model is the outcomes of its [learn] calls (1 for
    a win, 0 for a loss) in the order of the calls, and only the last 200
    of them: after [n] calls the first [n - 200] are gone. *)
Theorem learn_history_window (calls : list (bool * LearnArg)) (id : string) :
  Model.history (learn_calls KBTModel_learn calls (KBTModel_new id))
  = skipn (List.length calls - 200) (map outcome calls)
  /\ Model.history (learn_calls AIModel_learn calls (AIModel_new id))
     = skipn (List.length calls - 200) (map outcome calls).
Proof.
  split; [|rewrite learn_calls_AI];
    (rewrite learn_calls_history; [|reflexivity|cbn; lia]);
    cbn [KBTModel_new AIModel_new Model.history app]; rewrite length_map; reflexivity.
Qed.


(** X3. After any sequence of [learn] calls [emaAccuracy] is strictly between
    0 and 1: it starts at 0.5 and each call moves it by a twentieth of the
    way to [wins / (wins + losses)], so a model that has only lost never
    reaches 0 and one that has only won never reaches 1. *)
Theorem emaAccuracy_within_bounds (calls : list (bool * LearnArg)) (id : string) :
  0 < Model.emaAccuracy (learn_calls KBTModel_learn calls (KBTModel_new id)) < 1
  /\ 0 < Model.emaAccuracy (learn_calls AIModel_learn calls (AIModel_new id)) < 1.
Proof.
  split; [|rewrite learn_calls_AI];
    (apply learn_calls_ema;
     [first [apply KBTModel_new_settings | apply AIModel_new_settings] | cbn; lra]).
Qed.

(** The weight after a call with a finite [lr], from a weight that is a
    number. *)
Lemma KBTModel_learn_weight (s : Model.state) (wasWin : bool) (arg : LearnArg)
    (w : Q) :
  default_settings s -> finite_lr arg -> Model.weight s = Some w ->
  Model.weight (fst (KBTModel_learn s wasWin arg))
  = Some (Math_max (2 # 10)
            (Math_min 3
               (w * Math_pow (999 # 1000) (learn_lr arg)
                + (1 + (Model.emaAccuracy (fst (KBTModel_learn s wasWin arg)) - (1 # 2))
                       * (1 # 2)) * learn_lr arg))).
Proof.
  intros (Hl & Ha & Hmin & Hmax & Hd & Hw & Hlo) Hf Hs.
  rewrite (KBTModel_learn_weight_finite s wasWin arg Hf), Hs, Hmin, Hmax, Hd.
  reflexivity.
Qed.

Lemma learn_lr_ge (arg : LearnArg) : 1 # 10 <= learn_lr arg.
Proof.
  destruct arg as [|[x|]| |negative]; cbn; try lra. apply Math_max_l.
Qed.

Lemma clamp_ge (lo hi x w : Q) : w <= hi -> w <= x -> w <= Math_max lo (Math_min hi x).
Proof.
  intros H1 H2. apply Qle_trans with (Math_min hi x); [|apply Math_max_r].
  apply Math_min_glb; assumption.
Qed.

Lemma KBTModel_learn_weight_grows (s : Model.state) (wasWin : bool) (arg : LearnArg)
    (w : Q) :
  default_settings s -> 0 < Model.emaAccuracy s < 1 ->
  Model.weight s = Some w -> 0 <= w <= 3 -> finite_lr arg ->
  1 - learn_lr arg / 4 <= Math_pow (999 # 1000) (learn_lr arg) ->
  exists w', Model.weight (fst (KBTModel_learn s wasWin arg)) = Some w' /\ w <= w'.
Proof.
  intros Hs He Hw Hb Hf Hp.
  rewrite (KBTModel_learn_weight s wasWin arg w Hs Hf Hw).
  eexists. split; [reflexivity|].
  pose proof (KBTModel_learn_ema s wasWin arg Hs He) as He'.
  pose proof (learn_lr_ge arg) as Hlr.
  set (e := Model.emaAccuracy (fst (KBTModel_learn s wasWin arg))) in *.
  set (lr := learn_lr arg) in *. set (p := Math_pow (999 # 1000) lr) in *.
  apply clamp_ge; [lra|].
  assert (E : lr / 4 == lr * (1 # 4)) by reflexivity.
  rewrite E in Hp.
  assert (H1 : w * (1 - lr * (1 # 4)) <= w * p).
  { rewrite (Qmult_comm w (1 - lr * (1 # 4))), (Qmult_comm w p).
    apply Qmult_le_compat_r; lra. }
  assert (H2 : (3 # 4) * lr <= (1 + (e - (1 # 2)) * (1 # 2)) * lr).
  { apply Qmult_le_compat_r; lra. }
  assert (H3 : w * (lr * (1 # 4)) <= 3 * (lr * (1 # 4))).
  { apply Qmult_le_compat_r; lra. }
  lra.
Qed.

Section Monotone.
Hypothesis pow_decay :
  forall e, 1 # 10 <= e -> 1 - e / 4 <= Math_pow (999 # 1000) e.

Lemma KBTModel_learn_never_lowers (s : Model.state) (wasWin : bool) (arg : LearnArg)
    (w : Q) :
  default_settings s -> 0 < Model.emaAccuracy s < 1 ->
  Model.weight s = Some w -> 0 <= w <= 3 -> arg <> ObjNaN ->
  exists w', Model.weight (fst (KBTModel_learn s wasWin arg)) = Some w' /\ w <= w'.
Proof.
  intros Hs He Hw Hb Hn.
  assert (G : forall a, finite_lr a ->
                exists w', Model.weight (fst (KBTModel_learn s wasWin a)) = Some w'
                           /\ w <= w').
  { intros a Hf. apply KBTModel_learn_weight_grows; try assumption.
    apply pow_decay, learn_lr_ge. }
  destruct arg as [|lr| |[|]].
  - apply G. exact I.
  - apply G. exact I.
  - contradiction.
  - rewrite KBTModel_learn_NInf. apply G. exact I.
  - exists 3. split; [apply (KBTModel_learn_PInf s wasWin w Hs He Hw) | lra].
Qed.

(** X4. [learn] never lowers the weight of a model, on a loss no more than on
    a win, whatever the [lr] other than NaN (a finite number, an infinite
    one, or none): in any state reached from the constructor by such calls
    the weight is a number, and the weight after the call is a number that
    is at least the weight before it.  The decay [0.999 ^ lr] takes off
    less than the term [(1 + (emaAccuracy - 0.5) * 0.5) * lr] adds.  Of
    [Math.pow] only [1 - e / 4 <= 0.999 ^ e] for [e >= 0.1] is used, which
    holds of the real power.  (With an [lr] of NaN the weight becomes NaN,
    which is not at least the weight before.) *)
Theorem learn_never_lowers_weight (calls : list (bool * LearnArg)) (id : string)
    (wasWin : bool) (arg : LearnArg) :
  Forall (fun c => snd c <> ObjNaN) calls -> arg <> ObjNaN ->
  (let s := learn_calls KBTModel_learn calls (KBTModel_new id) in
   exists w w', Model.weight s = Some w
                /\ Model.weight (fst (KBTModel_learn s wasWin arg)) = Some w'
                /\ w <= w')
  /\ (let s := learn_calls AIModel_learn calls (AIModel_new id) in
      exists w w', Model.weight s = Some w
                   /\ Model.weight (fst (AIModel_learn s wasWin arg)) = Some w'
                   /\ w <= w').
Proof.
  intros Hc Hn. cbv zeta. split.
  - destruct (learn_calls_weight_bounds calls (KBTModel_new id) 1) as (w & Hw & Hb);
      [apply KBTModel_new_settings | cbn; lra | reflexivity | lra | exact Hc |].
    destruct (KBTModel_learn_never_lowers
                (learn_calls KBTModel_learn calls (KBTModel_new id)) wasWin arg w)
      as (w' & Hw' & Hle); try assumption.
    + apply learn_calls_settings, KBTModel_new_settings.
    + apply learn_calls_ema; [apply KBTModel_new_settings | cbn; lra].
    + lra.
    + exists w, w'. split; [exact Hw|]. split; [exact Hw' | exact Hle].
  - rewrite learn_calls_AI, AIModel_learn_KBT.
    destruct (learn_calls_weight_bounds calls (AIModel_new id) 1) as (w & Hw & Hb);
      [apply AIModel_new_settings | cbn; lra | reflexivity | lra | exact Hc |].
    destruct (KBTModel_learn_never_lowers
                (learn_calls KBTModel_learn calls (AIModel_new id)) wasWin arg w)
      as (w' & Hw' & Hle); try assumption.
    + apply learn_calls_settings, AIModel_new_settings.
    + apply learn_calls_ema; [apply AIModel_new_settings | cbn; lra].
    + lra.
    + exists w, w'. split; [exact Hw|]. split; [exact Hw' | exact Hle].
Qed.
End Monotone.


Lemma saturated (raw : Q) : 3 <= raw -> Math_max (2 # 10) (Math_min 3 raw) = 3.
Proof.
  intros H. unfold Math_min. apply Qle_bool_iff in H. rewrite H. reflexivity.
Qed.

Section Saturation.
Hypothesis pow_decay :
  forall e, 1 <= e -> e <= 4 -> 99 # 100 <= Math_pow (999 # 1000) e.

Lemma manager_rate_lr (arg : LearnArg) :
  manager_rate arg -> finite_lr arg /\ 1 <= learn_lr arg /\ learn_lr arg <= 4.
Proof.
  destruct arg as [|[x|]| |negative]; cbn; intros H; try contradiction;
    (split; [exact I|]); try lra.
  rewrite Math_max_of_le; lra.
Qed.

Lemma raw_weight_lower (s : Model.state) (wasWin : bool) (arg : LearnArg) (a w : Q) :
  default_settings s -> 0 < Model.emaAccuracy s < 1 -> manager_rate arg ->
  0 <= a -> a <= w ->
  (99 # 100) * a + (3 # 4)
  <= w * Math_pow (999 # 1000) (learn_lr arg)
     + (1 + (Model.emaAccuracy (fst (KBTModel_learn s wasWin arg)) - (1 # 2))
            * (1 # 2)) * learn_lr arg.
Proof.
  intros Hs He Hr Ha Haw.
  pose proof (KBTModel_learn_ema s wasWin arg Hs He) as He'.
  destruct (manager_rate_lr arg Hr) as (_ & Hl1 & Hl4).
  pose proof (pow_decay _ Hl1 Hl4) as Hp.
  set (e := Model.emaAccuracy (fst (KBTModel_learn s wasWin arg))) in *.
  set (lr := learn_lr arg) in *. set (p := Math_pow (999 # 1000) lr) in *.
  assert (H1 : a * (99 # 100) <= w * p).
  { apply Qmult_le_compat_nonneg; split; lra. }
  assert (H2 : (3 # 4) * 1 <= (1 + (e - (1 # 2)) * (1 # 2)) * lr).
  { apply Qmult_le_compat_nonneg; split; lra. }
  lra.
Qed.

Lemma weight_step (s : Model.state) (wasWin : bool) (arg : LearnArg) (a w : Q) :
  default_settings s -> 0 < Model.emaAccuracy s < 1 -> manager_rate arg ->
  Model.weight s = Some w ->
  0 <= a -> a <= w -> (99 # 100) * a + (3 # 4) <= 3 ->
  exists w', Model.weight (fst (KBTModel_learn s wasWin arg)) = Some w'
             /\ (99 # 100) * a + (3 # 4) <= w'.
Proof.
  intros Hs He Hr Hw Ha Haw H3.
  rewrite (KBTModel_learn_weight s wasWin arg w Hs (proj1 (manager_rate_lr arg Hr)) Hw).
  eexists. split; [reflexivity|].
  apply clamp_ge; [exact H3|]. apply raw_weight_lower; assumption.
Qed.

Lemma weight_step_max (s : Model.state) (wasWin : bool) (arg : LearnArg) (w : Q) :
  default_settings s -> 0 < Model.emaAccuracy s < 1 -> manager_rate arg ->
  Model.weight s = Some w -> 23 # 10 <= w ->
  Model.weight (fst (KBTModel_learn s wasWin arg)) = Some 3.
Proof.
  intros Hs He Hr Hw Hb.
  rewrite (KBTModel_learn_weight s wasWin arg w Hs (proj1 (manager_rate_lr arg Hr)) Hw).
  f_equal. apply saturated.
  pose proof (raw_weight_lower s wasWin arg (23 # 10) w Hs He Hr) as R.
  lapply R; [clear R; intros R|lra]. specialize (R Hb). lra.
Qed.

Lemma weight_stays_max (calls : list (bool * LearnArg)) (s : Model.state) :
  default_settings s -> 0 < Model.emaAccuracy s < 1 ->
  Forall (fun c => manager_rate (snd c)) calls ->
  Model.weight s = Some 3 ->
  Model.weight (learn_calls KBTModel_learn calls s) = Some 3.
Proof.
  revert s. induction calls as [|c calls IH]; intros s Hs He Hr Hw.
  - exact Hw.
  - change (learn_calls KBTModel_learn (c :: calls) s)
      with (learn_calls KBTModel_learn calls (fst (KBTModel_learn s (fst c) (snd c)))).
    inversion Hr as [|? ? Hc Hrest]; subst.
    apply IH.
    + apply KBTModel_learn_settings; exact Hs.
    + apply KBTModel_learn_ema; assumption.
    + exact Hrest.
    + apply (weight_step_max s (fst c) (snd c) 3); try assumption. lra.
Qed.

Lemma weight_saturates_from (calls : list (bool * LearnArg)) (s : Model.state)
    (w : Q) :
  default_settings s -> 0 < Model.emaAccuracy s < 1 ->
  Model.weight s = Some w -> 1 <= w ->
  Forall (fun c => manager_rate (snd c)) calls ->
  (3 <= List.length calls)%nat ->
  Model.weight (learn_calls KBTModel_learn calls s) = Some 3.
Proof.
  intros Hs He Hw Hb Hr Hlen.
  destruct calls as [|c1 [|c2 [|c3 rest]]]; cbn in Hlen; try lia.
  inversion Hr as [|? ? R1 Hr1]; subst.
  inversion Hr1 as [|? ? R2 Hr2]; subst.
  inversion Hr2 as [|? ? R3 Hr3]; subst.
  set (s1 := fst (KBTModel_learn s (fst c1) (snd c1))).
  set (s2 := fst (KBTModel_learn s1 (fst c2) (snd c2))).
  set (s3 := fst (KBTModel_learn s2 (fst c3) (snd c3))).
  change (learn_calls KBTModel_learn (c1 :: c2 :: c3 :: rest) s)
    with (learn_calls KBTModel_learn rest s3).
  assert (Hs1 : default_settings s1) by (apply KBTModel_learn_settings; exact Hs).
  assert (He1 : 0 < Model.emaAccuracy s1 < 1) by (apply KBTModel_learn_ema; assumption).
  assert (Hs2 : default_settings s2) by (apply KBTModel_learn_settings; exact Hs1).
  assert (He2 : 0 < Model.emaAccuracy s2 < 1) by (apply KBTModel_learn_ema; assumption).
  assert (Hs3 : default_settings s3) by (apply KBTModel_learn_settings; exact Hs2).
  assert (He3 : 0 < Model.emaAccuracy s3 < 1) by (apply KBTModel_learn_ema; assumption).
  destruct (weight_step s (fst c1) (snd c1) 1 w) as (w1 & Hw1 & W1);
    try assumption; try lra.
  fold s1 in Hw1.
  destruct (weight_step s1 (fst c2) (snd c2) (174 # 100) w1) as (w2 & Hw2 & W2);
    try assumption; try lra.
  fold s2 in Hw2.
  apply weight_stays_max; try assumption.
  apply (weight_step_max s2 (fst c3) (snd c3) w2); try assumption. lra.
Qed.

(** X5. With the learning rates the manager passes (between 1 and 4, or
    none), the weight of a model is 3.0, the upper bound, after three
    [learn] calls and after every later one, whatever the outcomes: a model
    that loses every time weighs as much as one that wins every time.  Of
    [Math.pow] only [0.99 <= 0.999 ^ e] for [1 <= e <= 4] is used. *)
Theorem weight_saturates (calls : list (bool * LearnArg)) (id : string) :
  Forall (fun c => manager_rate (snd c)) calls ->
  (3 <= List.length calls)%nat ->
  Model.weight (learn_calls KBTModel_learn calls (KBTModel_new id)) = Some 3
  /\ Model.weight (learn_calls AIModel_learn calls (AIModel_new id)) = Some 3.
Proof.
  intros Hr Hlen. split; [|rewrite learn_calls_AI];
    (apply (weight_saturates_from calls _ 1);
     [first [apply KBTModel_new_settings | apply AIModel_new_settings]
     | cbn; lra | reflexivity | lra | exact Hr | exact Hlen]).
Qed.
End Saturation.

End LearnInvariants.

(** [ExactMath] *)
Lemma decay_power_bounds (n : nat) :
  0 <= Qpower (999 # 1000) (Z.of_nat n) <= 1
  /\ 1 - inject_Z (Z.of_nat n) * (1 # 1000) <= Qpower (999 # 1000) (Z.of_nat n).
Proof.
  induction n as [|n [[IH0 IH1] IH2]].
  - change (Z.of_nat 0) with 0%Z. change (Qpower (999 # 1000) 0) with 1.
    change (inject_Z 0) with 0. split; [split|]; lra.
  - rewrite Nat2Z.inj_succ. unfold Z.succ.
    assert (E : Qpower (999 # 1000) (Z.of_nat n + 1)
                == Qpower (999 # 1000) (Z.of_nat n) * (999 # 1000)).
    { rewrite Qpower_plus; [reflexivity|]. intros C. discriminate C. }
    rewrite E, inject_Z_plus.
    set (x := Qpower (999 # 1000) (Z.of_nat n)) in *.
    set (k := inject_Z (Z.of_nat n)) in *.
    change (inject_Z 1) with 1.
    split; [split|]; lra.
Qed.

Lemma pow_int_decay_lower (e : Q) :
  1 # 10 <= e -> 1 - e / 4 <= pow_int (999 # 1000) e.
Proof.
  intros He. unfold pow_int.
  assert (F0 : (0 <= Qfloor e)%Z).
  { change 0%Z with (Qfloor 0). apply Qfloor_resp_le. lra. }
  destruct (decay_power_bounds (Z.to_nat (Qfloor e))) as [_ B].
  rewrite Z2Nat.id in B by exact F0.
  pose proof (Qfloor_le e) as Fl.
  assert (E : e / 4 == e * (1 # 4)) by reflexivity. rewrite E.
  set (k := inject_Z (Qfloor e)) in *.
  assert (0 <= k) by (subst k; unfold Qle; simpl; lia).
  lra.
Qed.

Lemma pow_int_decay_manager (e : Q) :
  1 <= e -> e <= 4 -> 99 # 100 <= pow_int (999 # 1000) e.
Proof.
  intros H1 H4. unfold pow_int.
  assert (F1 : (1 <= Qfloor e)%Z).
  { change 1%Z with (Qfloor 1). apply Qfloor_resp_le. exact H1. }
  assert (F4 : (Qfloor e <= 4)%Z).
  { change 4%Z with (Qfloor 4). apply Qfloor_resp_le. exact H4. }
  assert (C : Qfloor e = 1%Z \/ Qfloor e = 2%Z \/ Qfloor e = 3%Z \/ Qfloor e = 4%Z)
    by lia.
  destruct C as [C|[C|[C|C]]]; rewrite C; unfold Qle; vm_compute; discriminate.
Qed.

(** Two lost rounds, the second at an infinite rate, and a third. *)
Lemma learn_never_lowers_weight_witness :
  (forall e, 1 # 10 <= e -> 1 - e / 4 <= @Math_pow ExactMath (999 # 1000) e)
  /\ Forall (fun c : bool * LearnArg => snd c <> ObjNaN)
       [(false, NoArg); (false, ObjInfinity false)]
  /\ ObjArg (Some (18 # 10)) <> ObjNaN
  /\ (let s := learn_calls (@KBTModel_learn ExactMath)
                 [(false, NoArg); (false, ObjInfinity false)] (KBTModel_new "KBT") in
      exists w w', Model.weight s = Some w
                   /\ Model.weight
                        (fst (@KBTModel_learn ExactMath s false (ObjArg (Some (18 # 10)))))
                      = Some w'
                   /\ w <= w').
Proof.
  assert (Hc : Forall (fun c : bool * LearnArg => snd c <> ObjNaN)
                 [(false, NoArg); (false, ObjInfinity false)])
    by (repeat constructor; discriminate).
  assert (Hn : ObjArg (Some (18 # 10)) <> ObjNaN) by discriminate.
  split; [exact pow_int_decay_lower|]. split; [exact Hc|]. split; [exact Hn|].
  exact (proj1 (@learn_never_lowers_weight ExactMath pow_int_decay_lower
                  [(false, NoArg); (false, ObjInfinity false)] "KBT" false
                  (ObjArg (Some (18 # 10))) Hc Hn)).
Defined.

Lemma weight_saturates_witness :
  (forall e, 1 <= e -> e <= 4 -> 99 # 100 <= @Math_pow ExactMath (999 # 1000) e)
  /\ Forall (fun c : bool * LearnArg => manager_rate (snd c))
       [(false, NoArg); (false, ObjArg (Some (14 # 10))); (false, ObjArg (Some (18 # 10)))]
  /\ (3 <= List.length
             [(false, NoArg); (false, ObjArg (Some (14 # 10)));
              (false, ObjArg (Some (18 # 10)))])%nat
  /\ Model.weight
       (learn_calls (@KBTModel_learn ExactMath)
          [(false, NoArg); (false, ObjArg (Some (14 # 10)));
           (false, ObjArg (Some (18 # 10)))] (KBTModel_new "KBT")) = Some 3.
Proof.
  assert (R : Forall (fun c : bool * LearnArg => manager_rate (snd c))
                [(false, NoArg); (false, ObjArg (Some (14 # 10)));
                 (false, ObjArg (Some (18 # 10)))]).
  { repeat constructor; cbn; unfold Qle; simpl; lia. }
  split; [exact pow_int_decay_manager|]. split; [exact R|]. split; [cbn; lia|].
  exact (proj1 (@weight_saturates ExactMath pow_int_decay_manager _ "KBT" R
                  (le_n 3))).
Defined.

(** ** [ModelManager.learn] and [learnMultiple]: the model that learns *)

Lemma learn_in_find (models : list Predictor.t) (key : string) wasWin lr :
  match find_model models key with
  | None => learn_in models key wasWin lr = None
  | Some m =>
      exists models' m',
        learn_in models key wasWin lr
        = Some (models', m',
                snd (Predictor.learn m (Predictor.st m) wasWin (ObjArg (Some lr))))
        /\ List.length models' = List.length models
  end.
Proof.
  unfold find_model. induction models as [|m rest IH]; cbn [find learn_in].
  - reflexivity.
  - destruct (String.eqb (id_or_name m) key).
    + destruct (Predictor.learn m (Predictor.st m) wasWin (ObjArg (Some lr)))
        as [s' res]. eexists. eexists. split; reflexivity.
    + destruct (find (fun m0 => String.eqb (id_or_name m0) key) rest) as [f|].
      * destruct IH as (models' & m' & -> & L). eexists. eexists.
        split; [reflexivity|]. cbn [List.length]. rewrite L. reflexivity.
      * rewrite IH. reflexivity.
Qed.

Lemma find_model_none (models : list Predictor.t) (key : string) :
  find_model models key = None <-> ~ In key (map id_or_name models).
Proof.
  unfold find_model. induction models as [|m rest IH]; cbn [find map In].
  - split; [intros _ []|reflexivity].
  - destruct (String.eqb (id_or_name m) key) eqn:E.
    + apply String.eqb_eq in E. split; [discriminate|].
      intros H. exfalso. apply H. left. exact E.
    + apply String.eqb_neq in E. rewrite IH. split.
      * intros H [C|C]; [exact (E C) | exact (H C)].
      * intros H C. apply H. right. exact C.
Qed.

(** X6. [ModelManager.learn] looks for the first model whose id (its name,
    where the id is empty) is the one given.  With an id that no model
    has, it returns [null] and leaves the manager as it is.  With an id
    that a model has, it returns the record that the [learn] of the model
    found returns for [lr = 1 + min(3, consecutiveLosses * 0.4)], and the
    roster keeps its length. *)
Theorem learn_unknown_id (mm : Manager.t) (chosenModelId : string) (wasWin : bool)
    (context : LearnContext.t) :
  (find_model (Manager.models mm) chosenModelId = None
   <-> ~ In chosenModelId (map id_or_name (Manager.models mm)))
  /\ (find_model (Manager.models mm) chosenModelId = None ->
      ModelManager_learn mm chosenModelId wasWin context = (mm, None))
  /\ (forall m, find_model (Manager.models mm) chosenModelId = Some m ->
      id_or_name m = chosenModelId
      /\ snd (ModelManager_learn mm chosenModelId wasWin context)
         = Some (snd (Predictor.learn m (Predictor.st m) wasWin
                        (ObjArg (Some (baseLR context)))))
      /\ List.length
           (Manager.models (fst (ModelManager_learn mm chosenModelId wasWin context)))
         = List.length (Manager.models mm)).
Proof.
  split; [apply find_model_none|].
  pose proof (learn_in_find (Manager.models mm) chosenModelId wasWin (baseLR context))
    as F.
  unfold ModelManager_learn. split.
  - intros E. rewrite E in F. rewrite F. reflexivity.
  - intros m E. rewrite E in F. destruct F as (models' & m' & -> & L).
    split; [|split; [reflexivity | exact L]].
    unfold find_model in E. apply find_some in E. destruct E as [_ E].
    apply String.eqb_eq. exact E.
Qed.

Lemma learn_in_first (pre post : list Predictor.t) (m : Predictor.t) wasWin lr :
  ~ In (id_or_name m) (map id_or_name pre) ->
  learn_in (pre ++ m :: post) (id_or_name m) wasWin lr
  = Some (pre ++ learned m wasWin lr :: post, learned m wasWin lr,
          snd (Predictor.learn m (Predictor.st m) wasWin (ObjArg (Some lr)))).
Proof.
  induction pre as [|p pre IH]; intros H; cbn [app learn_in].
  - rewrite String.eqb_refl. unfold learned.
    destruct (Predictor.learn m (Predictor.st m) wasWin (ObjArg (Some lr))). reflexivity.
  - cbn [map In] in H.
    destruct (String.eqb (id_or_name p) (id_or_name m)) eqn:E.
    + apply String.eqb_eq in E. exfalso. apply H. left. exact E.
    + rewrite IH; [reflexivity|]. intros C. apply H. right. exact C.
Qed.

(** X7. [ModelManager.learn] updates one model, the first of the roster whose
    id (or name) is the one given: that model learns with the rate
    [1 + min(3, consecutiveLosses * 0.4)], every other model and the order
    of the roster are unchanged, and the statistics returned are the ones
    of that call. *)
Theorem learn_updates_first_match (mm : Manager.t) (pre post : list Predictor.t)
    (m : Predictor.t) (wasWin : bool) (context : LearnContext.t) :
  Manager.models mm = pre ++ m :: post ->
  ~ In (id_or_name m) (map id_or_name pre) ->
  ModelManager_learn mm (id_or_name m) wasWin context
  = (with_models mm (pre ++ learned m wasWin (baseLR context) :: post),
     Some (snd (Predictor.learn m (Predictor.st m) wasWin
                  (ObjArg (Some (baseLR context)))))).
Proof.
  intros E H. unfold ModelManager_learn. rewrite E, learn_in_first by exact H.
  reflexivity.
Qed.

Lemma learn_updates_first_match_witness :
  Manager.models default_manager
  = [@KBTModel ExactMath "KBT"] ++ @AIModel ExactMath "AI_FLONZA" :: []
  /\ ~ In (id_or_name (@AIModel ExactMath "AI_FLONZA"))
          (map id_or_name [@KBTModel ExactMath "KBT"])
  /\ ModelManager_learn default_manager (id_or_name (@AIModel ExactMath "AI_FLONZA"))
       false no_context
     = (with_models default_manager
          ([@KBTModel ExactMath "KBT"]
           ++ learned (@AIModel ExactMath "AI_FLONZA") false (baseLR no_context) :: []),
        Some (snd (Predictor.learn (@AIModel ExactMath "AI_FLONZA")
                     (Predictor.st (@AIModel ExactMath "AI_FLONZA")) false
                     (ObjArg (Some (baseLR no_context)))))).
Proof.
  assert (N : ~ In (id_or_name (@AIModel ExactMath "AI_FLONZA"))
                (map id_or_name [@KBTModel ExactMath "KBT"])).
  { cbn. intros [C|[]]. discriminate C. }
  split; [reflexivity|]. split; [exact N|].
  exact (learn_updates_first_match default_manager [@KBTModel ExactMath "KBT"] []
           (@AIModel ExactMath "AI_FLONZA") false no_context eq_refl N).
Defined.

Section CreditProperties.
Context {M : JSMath}.

(** X8. [ModelManager.learnMultiple] on a list that is not empty returns one
    result per contributor whose id names a model, in the order of the
    list, and skips the others; the share of a skipped contributor stays in
    the total, so the rates of the others are
    [baseLR * (0.2 + 0.8 * score / totalScore)] with the total over the
    whole list.  The roster keeps the ids of its models and their order.
    The models are of the repository's classes. *)
Theorem learnMultiple_skips_unknown (mm : Manager.t) (contributions : list Contributor.t)
    (wasWin : bool) (context : LearnContext.t) :
  contributions <> [] ->
  Forall learns_as_repository (Manager.models mm) ->
  exists results,
    snd (ModelManager_learnMultiple mm contributions wasWin context) = Some results
    /\ map LearnResult.lr results
       = map (lr2 (baseLR context) (totalScore contributions))
           (filter (known (Manager.models mm)) contributions)
    /\ map id_or_name
         (Manager.models (fst (ModelManager_learnMultiple mm contributions wasWin context)))
       = map id_or_name (Manager.models mm).
Proof.
  intros Hne Hl. rewrite (learnMultiple_unfold mm contributions wasWin context Hne).
  cbn [fst snd with_models Manager.models]. eexists. split; [reflexivity|].
  destruct (learnMultiple_fold_rates wasWin (baseLR context) (totalScore contributions)
              contributions (Manager.models mm) [] Hl) as [R1 R2].
  split; [exact R1 | exact R2].
Qed.

End CreditProperties.

Lemma learnMultiple_skips_unknown_witness :
  with_stranger <> []
  /\ Forall (@learns_as_repository ExactMath) (Manager.models default_manager)
  /\ exists results,
       snd (ModelManager_learnMultiple default_manager with_stranger
              true no_context) = Some results
       /\ map LearnResult.lr results
          = map (lr2 (baseLR no_context) (totalScore with_stranger))
              (filter (known (Manager.models default_manager))
                 with_stranger)
       /\ map id_or_name
            (Manager.models
               (fst (ModelManager_learnMultiple default_manager
                       with_stranger true no_context)))
          = map id_or_name (Manager.models default_manager).
Proof.
  assert (N : with_stranger <> []) by discriminate.
  split; [exact N|]. split; [exact default_manager_learns|].
  exact (@learnMultiple_skips_unknown ExactMath default_manager
           with_stranger true no_context N default_manager_learns).
Defined.

(** ** The order of the predictions *)

Lemma insert_pred_in (x y : Pred.t) (l : list Pred.t) :
  In y (insert_pred x l) -> y = x \/ In y l.
Proof.
  induction l as [|z r IH]; cbn.
  - intros [E|[]]. left. symmetry. exact E.
  - destruct (Qltb (Pred.score x) (Pred.score z)); cbn.
    + intros [E|H]; [right; left; exact E|].
      destruct (IH H) as [E|H']; [left; exact E | right; right; exact H'].
    + intros [E|H]; [left; symmetry; exact E | right; exact H].
Qed.

Lemma insert_pred_sorted (x : Pred.t) (l : list Pred.t) :
  StronglySorted score_ge l -> StronglySorted score_ge (insert_pred x l).
Proof.
  induction l as [|y r IH]; intros Hs; cbn.
  - constructor; constructor.
  - inversion Hs as [|? ? Hr Hy]; subst.
    destruct (Qltb (Pred.score x) (Pred.score y)) eqn:E.
    + apply Qltb_lt in E. constructor; [apply IH; exact Hr|].
      apply Forall_forall. intros z Hz.
      destruct (insert_pred_in _ _ _ Hz) as [->|Hz'].
      * unfold score_ge. lra.
      * rewrite Forall_forall in Hy. apply Hy. exact Hz'.
    + apply Qltb_ge in E. constructor; [exact Hs|].
      constructor; [exact E|].
      apply Forall_forall. intros z Hz. rewrite Forall_forall in Hy.
      specialize (Hy z Hz). unfold score_ge in *. lra.
Qed.

Lemma sort_preds_sorted (l : list Pred.t) : StronglySorted score_ge (sort_preds l).
Proof.
  induction l as [|x r IH]; cbn; [constructor|].
  apply insert_pred_sorted. exact IH.
Qed.

Lemma insert_pred_filter (v : Q) (x : Pred.t) (l : list Pred.t) :
  filter (fun p => Qeq_bool (Pred.score p) v) (insert_pred x l)
  = filter (fun p => Qeq_bool (Pred.score p) v) (x :: l).
Proof.
  induction l as [|y r IH]; cbn [insert_pred]; [reflexivity|].
  destruct (Qltb (Pred.score x) (Pred.score y)) eqn:E; [|reflexivity].
  apply Qltb_lt in E. cbn [filter] in *. rewrite IH.
  destruct (Qeq_bool (Pred.score x) v) eqn:Ex;
    destruct (Qeq_bool (Pred.score y) v) eqn:Ey; try reflexivity.
  apply Qeq_bool_iff in Ex, Ey. lra.
Qed.

Lemma sort_preds_filter (v : Q) (l : list Pred.t) :
  filter (fun p => Qeq_bool (Pred.score p) v) (sort_preds l)
  = filter (fun p => Qeq_bool (Pred.score p) v) l.
Proof.
  induction l as [|x r IH]; cbn [sort_preds]; [reflexivity|].
  rewrite insert_pred_filter. cbn [filter]. rewrite IH. reflexivity.
Qed.

(** X9. The predictions [ModelManager.predict] works on are those of the
    models, one each, in the order of descending score; models of equal
    score keep the order of the roster (the sort is stable), so [preds[0]]
    is the first of the roster among the models of the highest score. *)
Theorem predictions_sorted_by_score (mm : Manager.t) (now : Z) (history : History)
    (options : Options) :
  let unsorted := map (run_model now history options) (Manager.models mm) in
  let preds := sorted_preds mm now history options in
  StronglySorted score_ge preds
  /\ Permutation unsorted preds
  /\ forall v : Q,
       filter (fun p => Qeq_bool (Pred.score p) v) preds
       = filter (fun p => Qeq_bool (Pred.score p) v) unsorted.
Proof.
  cbv zeta. unfold sorted_preds. split; [apply sort_preds_sorted|]. split.
  - apply Permutation_sym, sort_preds_perm.
  - intros v. apply sort_preds_filter.
Qed.

(** ** The signal providers *)

(** A bind that returns. *)
Lemma bind_Ok {A B : Type} (r : result A) (k : A -> result B) (b : B) :
  bind r k = Ok b -> exists a, r = Ok a /\ k a = Ok b.
Proof.
  destruct r as [a|]; cbn; [|discriminate]. intros H. exists a. split; [reflexivity|exact H].
Qed.

Ltac bind_inv H a Ha :=
  apply bind_Ok in H; destruct H as (a & Ha & H); cbv beta in H.

Lemma Ok_inj {A : Type} (a b : A) : Ok a = Ok b -> a = b.
Proof. intros H. injection H as H. exact H. Qed.

Ltac ok_inv H := apply Ok_inj in H; rewrite <- H in *; clear H.

Lemma determineBestPrediction_BIG (patterns : Patterns.t) (weights : Weights.t) :
  determineBestPrediction patterns weights = "BIG".
Proof.
  unfold determineBestPrediction.
  set (f := fun (acc : option string * Q) (entry : string * num) => _).
  assert (H : forall l acc, fst acc = None -> fst (fold_left f l acc) = None).
  { induction l as [|e l IH]; intros acc Hacc; cbn [fold_left]; [exact Hacc|].
    apply IH. subst f. cbv beta. destruct e as [pattern strength].
    destruct (weight_of weights pattern) as [w|]; [|exact Hacc].
    destruct (nan_mul strength w) as [v|]; [|exact Hacc].
    destruct (Qgtb v (snd acc)); [reflexivity|exact Hacc]. }
  rewrite (H (pattern_entries patterns) (None, 0) eq_refl). reflexivity.
Qed.

Section KBTProperties.
Context {M : JSMath}.

Lemma neuralNetworkPrediction_shape (now : Z) (recent : list (option Event.t))
    (r : NN.t) :
  neuralNetworkPrediction now recent = Ok r ->
  NN.prediction r = "BIG"
  /\ NN.logic r = 19%Z
  /\ (forall c, NN.confidence r = Some c -> 70 <= c <= 92).
Proof.
  unfold neuralNetworkPrediction. intros H.
  bind_inv H bigCount Hb. bind_inv H streaks Hs. bind_inv H alternations Ha.
  bind_inv H distributions Hd. bind_inv H timing Ht. bind_inv H marketCondition Hm.
  injection H as <-. cbn [NN.prediction NN.logic NN.confidence].
  split; [apply determineBestPrediction_BIG|]. split; [reflexivity|].
  intros c Hc.
  destruct (nan_mul _ marketCondition) as [x|]; cbn in Hc; [|discriminate].
  injection Hc as <-. split.
  - apply Math_max_l.
  - apply Math_max_lub; [lra | apply Math_min_l].
Qed.

(** X10. [neuralNetworkPrediction] predicts BIG whenever it returns:
    [determineBestPrediction] reads a [prediction] property that none of
    the four pattern objects has, so the answer is its default.  The logic
    number is 19 and a confidence that is a number lies between 70 and
    92. *)
Theorem neuralNetworkPrediction_always_BIG (now : Z) (recent : list (option Event.t))
    (r : NN.t) :
  neuralNetworkPrediction now recent = Ok r ->
  NN.prediction r = "BIG"
  /\ NN.logic r = 19%Z
  /\ (forall c, NN.confidence r = Some c -> 70 <= c <= 92).
Proof.
  exact (neuralNetworkPrediction_shape now recent r).
Qed.

End KBTProperties.

Lemma count_type_range (ty : string) (l : list (option Event.t)) (n : Z) :
  count_type ty l = Ok n -> (0 <= n <= Z.of_nat (List.length l))%Z.
Proof.
  revert n. induction l as [|[e|] r IH]; intros n; cbn [count_type List.length].
  - intros [= <-]. cbn. lia.
  - intros H. bind_inv H m Hm. injection H as <-.
    specialize (IH m Hm). destruct (is_type ty e); lia.
  - discriminate.
Qed.

Lemma bump_length (freq : list Z) (n : nat) : List.length (bump freq n) = List.length freq.
Proof.
  revert n. induction freq as [|c r IH]; intros [|k]; cbn; try reflexivity.
  rewrite IH. reflexivity.
Qed.

Lemma fold_max_in (r : list Z) (c : Z) : In (fold_left Z.max r c) (c :: r).
Proof.
  revert c. induction r as [|x r IH]; intros c; cbn [fold_left].
  - left. reflexivity.
  - destruct (IH (Z.max c x)) as [E|H].
    + rewrite <- E. destruct (Z.max_spec c x) as [[_ ->]|[_ ->]];
        [right; left; reflexivity | left; reflexivity].
    + right. right. exact H.
Qed.

Lemma indexOf_found (freq : list Z) (v i : Z) :
  In v freq -> (i <= indexOf freq v i < i + Z.of_nat (List.length freq))%Z.
Proof.
  revert i. induction freq as [|c r IH]; intros i H; [contradiction|].
  cbn [indexOf List.length]. destruct (c =? v)%Z eqn:E.
  - lia.
  - apply Z.eqb_neq in E. destruct H as [H|H]; [contradiction|].
    specialize (IH (i + 1)%Z H). lia.
Qed.

Lemma freq_length (nums : list (option Z)) (f : list Z) :
  List.length
    (fold_left
       (fun (freq : list Z) (n : option Z) =>
          match n with
          | Some k => if (0 <=? k)%Z && (k <=? 9)%Z then bump freq (Z.to_nat k) else freq
          | None => freq
          end)
       nums f)
  = List.length f.
Proof.
  revert f. induction nums as [|n nums IH]; intros f; cbn [fold_left]; [reflexivity|].
  rewrite IH. destruct n as [k|]; [|reflexivity].
  destruct ((0 <=? k)%Z && (k <=? 9)%Z); [apply bump_length|reflexivity].
Qed.

Lemma model2_shape (hist : list (option Event.t)) (s : Sub.t) :
  model2_colorNumberAnalysis hist = Ok s ->
  Sub.confidence s = 75
  /\ exists hotNumber : Z,
       (-1 <= hotNumber <= 9)%Z
       /\ ((5 <= hotNumber)%Z /\ Sub.prediction s = "BIG"
           /\ Sub.patterns s = [("Hot_BIG_" ++ string_of_Z hotNumber)%string]
           \/ (hotNumber < 5)%Z /\ Sub.prediction s = "SMALL"
              /\ Sub.patterns s = [("Hot_SMALL_" ++ string_of_Z hotNumber)%string]).
Proof.
  unfold model2_colorNumberAnalysis. intros H. bind_inv H nums Hn.
  cbv zeta in H.
  match type of H with
  | context [if ?b then (-1)%Z else indexOf ?f ?m 0%Z] =>
      assert (R : (-1 <= (if b then (-1)%Z else indexOf f m 0%Z) <= 9)%Z);
      [|set (hot := if b then (-1)%Z else indexOf f m 0%Z) in *]
  end.
  { destruct (existsb _ nums); [lia|].
    pose proof (freq_length nums (repeat 0%Z 10)) as L.
    destruct (fold_left _ nums (repeat 0%Z 10)) as [|c r]; [discriminate L|].
    pose proof (indexOf_found (c :: r) _ 0%Z (fold_max_in r c)) as I.
    rewrite L in I. cbn [List.length repeat] in I. lia. }
  destruct (5 <=? hot)%Z eqn:E5.
  - injection H as <-. cbn. split; [reflexivity|]. exists hot. split; [exact R|].
    left. apply Z.leb_le in E5. repeat split. exact E5.
  - apply Z.leb_gt in E5. assert (E : (hot <? 5)%Z = true) by (apply Z.ltb_lt; exact E5).
    rewrite E in H. injection H as <-. cbn. split; [reflexivity|]. exists hot.
    split; [exact R|]. right. repeat split. exact E5.
Qed.

(** X11. Whenever [model2_colorNumberAnalysis] returns, its confidence is 75
    and it follows its hot number [n], which is between -1 and 9: BIG with
    the one tag [Hot_BIG_n] when [n] is 5 or more, SMALL with [Hot_SMALL_n]
    when it is less.  The last [return], with the tag [Neutral_numbers] and
    confidence 62, is never reached. *)
Theorem model2_never_neutral (hist : list (option Event.t)) (s : Sub.t) :
  model2_colorNumberAnalysis hist = Ok s ->
  Sub.confidence s = 75
  /\ exists hotNumber : Z,
       (-1 <= hotNumber <= 9)%Z
       /\ ((5 <= hotNumber)%Z /\ Sub.prediction s = "BIG"
           /\ Sub.patterns s = [("Hot_BIG_" ++ string_of_Z hotNumber)%string]
           \/ (hotNumber < 5)%Z /\ Sub.prediction s = "SMALL"
              /\ Sub.patterns s = [("Hot_SMALL_" ++ string_of_Z hotNumber)%string]).
Proof.
  exact (model2_shape hist s).
Qed.

Lemma Qnat_pos (n : nat) : (0 < n)%nat -> 0 < Qnat n.
Proof. intros H. unfold Qnat, Qlt; simpl. lia. Qed.

Lemma Qnat_nonneg (n : nat) : 0 <= Qnat n.
Proof. unfold Qnat, Qle; simpl. lia. Qed.

Lemma ratio_range (n : Z) (k : nat) :
  (0 <= n <= Z.of_nat k)%Z -> (0 < k)%nat -> 0 <= inject_Z n / Qnat k <= 1.
Proof.
  intros H Hk. unfold Qnat. apply instantAcc_range; lia.
Qed.

Lemma Math_abs_le (x b : Q) : - b <= x <= b -> Math_abs x <= b.
Proof.
  intros H. unfold Math_abs. apply Qabs_case; intros; lra.
Qed.

Lemma Math_abs_nonneg (x : Q) : 0 <= Math_abs x.
Proof. apply Qabs_nonneg. Qed.

Lemma analyzeWindow_range (history : list (option Event.t)) (w : WindowInfo.t) :
  analyzeWindow history = Ok w ->
  0 <= WindowInfo.confidence w <= 1 # 2
  /\ (WindowInfo.prediction w = "BIG" \/ WindowInfo.prediction w = "SMALL").
Proof.
  unfold analyzeWindow. cbv zeta.
  destruct (Nat.min (List.length history) 15 =? 0)%nat eqn:E.
  - intros [= <-]. cbn. split; [lra|left; reflexivity].
  - apply Nat.eqb_neq in E. intros H. bind_inv H bigCount Hb. ok_inv H.
    cbn [WindowInfo.confidence WindowInfo.prediction].
    pose proof (count_type_range _ _ _ Hb) as R. rewrite length_firstn in R.
    assert (Hm : Nat.min (Nat.min (List.length history) 15) (List.length history)
                 = Nat.min (List.length history) 15) by lia.
    rewrite Hm in R.
    pose proof (ratio_range bigCount _ R ltac:(lia)) as Q.
    split.
    + split; [apply Math_abs_nonneg|]. apply Math_abs_le. lra.
    + destruct (Qgtb _ _); [left|right]; reflexivity.
Qed.

Lemma detectStreaks_loop_current (current : Streak.t) historical l streaks :
  detectStreaks_loop current historical l = Ok streaks ->
  (1 <= Streak.length current)%Z ->
  (1 <= Streak.length (Streaks.current streaks))%Z.
Proof.
  revert current historical. induction l as [|x r IH]; intros current historical;
    cbn [detectStreaks_loop].
  - intros [= <-] H. exact H.
  - intros H Hc. bind_inv H e He.
    destruct (rt_eqb (Event.resultType e) (Streak.type current)).
    + apply (IH _ _ H). cbn. lia.
    + apply (IH _ _ H). cbn. lia.
Qed.

Lemma fold_max_ge (r : list Z) (c : Z) : (c <= fold_left Z.max r c)%Z.
Proof.
  revert c. induction r as [|x r IH]; intros c; cbn [fold_left]; [lia|].
  specialize (IH (Z.max c x)). lia.
Qed.

Lemma calculateStreakStrength_range (streaks : Streaks.t) :
  (1 <= Streak.length (Streaks.current streaks))%Z ->
  0 < calculateStreakStrength streaks <= 1.
Proof.
  intros H. unfold calculateStreakStrength. cbv zeta.
  set (h := match map Streak.length (Streaks.historical streaks) with
            | [] => 0%Z | x :: r => fold_left Z.max r x end).
  assert (Hc : int_or (Streak.length (Streaks.current streaks)) 0
               = Streak.length (Streaks.current streaks)).
  { unfold int_or. destruct (Z.eqb_spec (Streak.length (Streaks.current streaks)) 0);
      [lia|reflexivity]. }
  rewrite Hc.
  set (m := Z.max (Streak.length (Streaks.current streaks)) h).
  assert (Hm : (1 <= m)%Z) by (subst m; lia).
  assert (Q : 1 <= inject_Z m) by (unfold Qle; simpl; lia).
  assert (E : inject_Z m / 10 == inject_Z m * (1 # 10)) by reflexivity.
  split.
  - unfold Math_min. destruct (Qle_bool 1 (inject_Z m / 10)); [lra|]. rewrite E. lra.
  - apply Math_min_l.
Qed.

Lemma detectStreaks_range (history : list (option Event.t)) (r : StreakInfo.t) :
  detectStreaks history = Ok r ->
  exists v, StreakInfo.strength r = Some v /\ 0 < v <= 1.
Proof.
  unfold detectStreaks. intros H. bind_inv H h0 H0. bind_inv H streaks Hs.
  injection H as <-. cbn [StreakInfo.strength]. eexists. split; [reflexivity|].
  apply calculateStreakStrength_range.
  apply (detectStreaks_loop_current _ _ _ _ Hs). cbn. lia.
Qed.

(** X12. The [strength] that [detectStreaks] returns is a number, above 0 and
    at most 1: the current streak has one event at least, and the tenths
    are capped at 1. *)
Theorem detectStreaks_strength (history : list (option Event.t)) (r : StreakInfo.t) :
  detectStreaks history = Ok r ->
  exists v, StreakInfo.strength r = Some v /\ 0 < v <= 1.
Proof.
  exact (detectStreaks_range history r).
Qed.

Lemma detectPatternStrength_nonneg (history : list (option Event.t))
    (p : PatternStrength.t) :
  detectPatternStrength history = Ok p -> 0 < PatternStrength.strength p.
Proof.
  unfold detectPatternStrength. intros H. bind_inv H streaks Hs.
  bind_inv H alternations Ha. injection H as <-. cbn [PatternStrength.strength].
  destruct (detectStreaks_range _ _ Hs) as (v & Ev & Hv). rewrite Ev.
  apply Qlt_le_trans with (nan_or (Some v) 0); [|apply Math_max_l].
  unfold nan_or, num_or. destruct (Qeq_bool v 0) eqn:E; [|lra].
  apply Qeq_bool_iff in E. lra.
Qed.

Lemma detectCyclicalPatterns_strength (history : list (option Event.t)) (c : Cyclical.t) :
  detectCyclicalPatterns history = Ok c ->
  Cyclical.strength c = 0 \/ Cyclical.strength c = 8 # 10 \/ Cyclical.strength c = 2 # 10.
Proof.
  unfold detectCyclicalPatterns. destruct history as [|x r].
  - intros [= <-]. left. reflexivity.
  - intros H. bind_inv H h0 H0. bind_inv H sequences Hs. injection H as <-.
    cbn [Cyclical.strength]. destruct (Qltb _ _); right; [left|right]; reflexivity.
Qed.

Lemma Qdiv_le_same (a b t : Q) : 0 < t -> a <= b -> a / t <= b / t.
Proof.
  intros Ht H. unfold Qdiv. apply Qmult_le_compat_r; [exact H|].
  apply Qlt_le_weak, Qinv_lt_0_compat, Ht.
Qed.

Lemma Qgtb_false (a b : Q) : a <= b -> Qgtb a b = false.
Proof. intros H. unfold Qgtb. apply Qltb_ge. exact H. Qed.

Lemma combineSignals_model4 (st lt : WindowInfo.t) (ps cs : Q) :
  0 <= WindowInfo.confidence st <= 1 # 2 ->
  0 <= WindowInfo.confidence lt <= 1 # 2 ->
  0 < ps ->
  cs = 0 \/ cs = 8 # 10 \/ cs = 2 # 10 ->
  let of_window (w : WindowInfo.t) :=
    {| SigView.confidence := Some (WindowInfo.confidence w);
       SigView.strength := None;
       SigView.prediction := Some (WindowInfo.prediction w) |} in
  let of_strength (s : num) :=
    {| SigView.confidence := None; SigView.strength := s; SigView.prediction := None |} in
  let signals :=
    combineSignals
      [ ("short", of_window st); ("long", of_window lt);
        ("pattern", of_strength (Some ps)); ("trend", of_strength None);
        ("market", of_strength None); ("momentum", of_strength None);
        ("volatility", of_strength None); ("cyclical", of_strength (Some cs)) ] in
  Combined.finalPrediction signals = "SMALL" /\ Combined.activePatterns signals = [].
Proof.
  intros Hs Hl Hp Hc. cbv zeta. unfold combineSignals.
  cbn [fold_left SigView.confidence SigView.strength SigView.prediction].
  change (signal_weight "short") with (3 # 10).
  change (signal_weight "long") with (2 # 10).
  change (signal_weight "pattern") with (2 # 10).
  change (signal_weight "trend") with (1 # 10).
  change (signal_weight "market") with (2 # 10).
  change (signal_weight "momentum") with (1 # 10).
  change (signal_weight "volatility") with (1 # 10).
  change (signal_weight "cyclical") with (1 # 10).
  cbn [rt_eqb nan_or].
  assert (P : num_or ps (5 # 10) = ps).
  { unfold num_or. destruct (Qeq_bool ps 0) eqn:E; [|reflexivity].
    apply Qeq_bool_iff in E. lra. }
  rewrite P.
  assert (C : 2 # 10 <= num_or cs (5 # 10)).
  { destruct Hc as [-> | [-> | ->]]; vm_compute; discriminate. }
  set (c := num_or cs (5 # 10)) in *.
  set (a := WindowInfo.confidence st) in *. set (b := WindowInfo.confidence lt) in *.
  destruct (String.eqb (WindowInfo.prediction st) "BIG");
    destruct (String.eqb (WindowInfo.prediction lt) "BIG");
    cbn [Combined.finalPrediction Combined.activePatterns];
    (split; [|reflexivity]);
    rewrite Qgtb_false; try reflexivity;
    (apply Qdiv_le_same; lra).
Qed.

Lemma model4_shape (now : Z) (hist : list (option Event.t)) (s : Sub.t) :
  hist <> [] ->
  model4_hybridPredictor now hist = Ok s ->
  Sub.prediction s = "SMALL"
  /\ 70 <= Sub.confidence s <= 92
  /\ Sub.patterns s = ["Neural_Trend"].
Proof.
  intros Hne. unfold model4_hybridPredictor. cbv zeta.
  assert (L : (List.length (firstn 15 hist) =? 0)%nat = false).
  { apply Nat.eqb_neq. destruct hist; [contradiction|]. cbn. lia. }
  rewrite L. intros H.
  bind_inv H shortTerm Hs. bind_inv H longTerm Hl. bind_inv H patternStrength Hp.
  bind_inv H trendStrength Ht. bind_inv H marketCondition Hm. bind_inv H momentum Ho.
  bind_inv H volatility Hv. bind_inv H cyclical Hc. ok_inv H.
  destruct (analyzeWindow_range _ _ Hs) as [Rs _].
  destruct (analyzeWindow_range _ _ Hl) as [Rl _].
  pose proof (detectPatternStrength_nonneg _ _ Hp) as Rp.
  pose proof (detectCyclicalPatterns_strength _ _ Hc) as Rc.
  destruct (combineSignals_model4 shortTerm longTerm _ _ Rs Rl Rp Rc) as [E1 E2].
  cbv zeta in E1, E2.
  cbn [Sub.prediction Sub.confidence Sub.patterns].
  rewrite E1, E2. split; [reflexivity|]. split; [|reflexivity]. split.
  - apply Math_max_l.
  - apply Math_max_lub; [lra | apply Math_min_l].
Qed.

(** X13. On a history that is not empty [model4_hybridPredictor] predicts
    SMALL whenever it returns, with a confidence between 70 and 92 and the
    one tag [Neural_Trend]: in [combineSignals] a signal without a
    [prediction] counts for SMALL, and those outweigh the two window
    signals, the only ones that can say BIG. *)
Theorem model4_always_SMALL (now : Z) (hist : list (option Event.t)) (s : Sub.t) :
  hist <> [] ->
  model4_hybridPredictor now hist = Ok s ->
  Sub.prediction s = "SMALL"
  /\ 70 <= Sub.confidence s <= 92
  /\ Sub.patterns s = ["Neural_Trend"].
Proof.
  exact (model4_shape now hist s).
Qed.

Lemma inject_Z_nonneg (z : Z) : (0 <= z)%Z -> 0 <= inject_Z z.
Proof. intros H. unfold Qle. cbn [Qnum Qden inject_Z]. lia. Qed.

Lemma inject_Z_minus (x y : Z) : inject_Z (x - y) = inject_Z x - inject_Z y.
Proof. unfold Z.sub. rewrite inject_Z_plus, inject_Z_opp. reflexivity. Qed.

Lemma opposite_cases (t : option string) : opposite t = "BIG" \/ opposite t = "SMALL".
Proof. unfold opposite. destruct (rt_eqb t (Some "BIG")); [right|left]; reflexivity. Qed.

Lemma num_or_nonzero (x d : Q) : ~ x == 0 -> num_or x d = x.
Proof.
  intros H. unfold num_or. destruct (Qeq_bool x 0) eqn:E; [|reflexivity].
  apply Qeq_bool_iff in E. contradiction.
Qed.

Lemma run_length_nonneg (last : option string) (l : list (option Event.t)) (n : Z) :
  run_length last l = Ok n -> (0 <= n)%Z.
Proof.
  revert n. induction l as [|x r IH]; intros n; cbn [run_length].
  - intros [= <-]. lia.
  - intros H. bind_inv H e He. destruct (rt_eqb (Event.resultType e) last).
    + bind_inv H m Hm. injection H as <-. specialize (IH m Hm). lia.
    + injection H as <-. lia.
Qed.

Lemma model1_shape (hist : list (option Event.t)) (p : Sub.t) :
  model1_patternAnalysis hist = Ok p ->
  (Sub.prediction p = "BIG" \/ Sub.prediction p = "SMALL")
  /\ 60 <= Sub.confidence p <= 100
  /\ exists t, Sub.patterns p = [t] /\ tag_rank t = 10%nat.
Proof.
  unfold model1_patternAnalysis. cbv zeta. intros H.
  bind_inv H bigCount Hb. bind_inv H r0 H0. bind_inv H n Hn.
  pose proof (run_length_nonneg _ _ _ Hn) as Nn.
  destruct (3 <=? 1 + n)%Z eqn:E3.
  { ok_inv H. cbn [Sub.prediction Sub.confidence Sub.patterns].
    split; [apply opposite_cases|]. split.
    - split.
      + apply Math_min_glb; [lra|].
        assert (0 <= inject_Z (1 + n)) by (apply inject_Z_nonneg; lia).
        set (k := inject_Z (1 + n)) in *. lra.
      + apply Qle_trans with 90; [apply Math_min_l | lra].
    - eexists. split; reflexivity. }
  bind_inv H alt Ha.
  destruct (alt && (4 <=? List.length (firstn 20 hist))%nat).
  { bind_inv H rl Hr. ok_inv H. cbn [Sub.prediction Sub.confidence Sub.patterns].
    split; [apply opposite_cases|]. split; [lra|]. eexists. split; reflexivity. }
  bind_inv H mirror Hm. destruct mirror.
  { bind_inv H a1 H1. ok_inv H. cbn [Sub.prediction Sub.confidence Sub.patterns].
    split; [apply opposite_cases|]. split; [lra|]. eexists. split; reflexivity. }
  set (len := List.length (firstn 20 hist)) in *.
  destruct (Qgtb _ (3 # 10)) eqn:Eb.
  - ok_inv H. cbn [Sub.prediction Sub.confidence Sub.patterns].
    split; [destruct (_ <? _)%Z; [right|left]; reflexivity|]. split.
    + apply Qltb_lt in Eb.
      pose proof (count_type_range _ _ _ Hb) as R. fold len in R.
      assert (Lp : (0 < len)%nat).
      { subst len. destruct (firstn 20 hist); [discriminate H0|cbn; lia]. }
      set (bias := Math_abs (inject_Z bigCount - inject_Z (Z.of_nat len - bigCount))
                   / Qnat len) in *.
      assert (B1 : bias <= 1).
      { subst bias. apply Qle_shift_div_r; [apply Qnat_pos; exact Lp|].
        apply Math_abs_le. unfold Qnat. rewrite inject_Z_minus.
        assert (A0 : 0 <= inject_Z bigCount) by (apply inject_Z_nonneg; lia).
        assert (A1 : inject_Z bigCount <= inject_Z (Z.of_nat len))
          by (rewrite <- Zle_Qle; lia).
        set (a := inject_Z bigCount) in *. set (L := inject_Z (Z.of_nat len)) in *.
        lra. }
      lra.
    + destruct (_ <? _)%Z; eexists; split; reflexivity.
  - ok_inv H. cbn [Sub.prediction Sub.confidence Sub.patterns].
    split; [left; reflexivity|]. split; [lra|]. eexists. split; reflexivity.
Qed.

Lemma Math_round_le (x : Q) (n : Z) : x <= inject_Z n -> inject_Z (Math_round x) <= inject_Z n.
Proof.
  intros H. unfold Math_round. rewrite <- Zle_Qle.
  pose proof (Qfloor_le (x + (1 # 2))) as F.
  destruct (Z.le_gt_cases (Qfloor (x + (1 # 2))) n) as [C|C]; [exact C|].
  assert (G : inject_Z (n + 1) <= inject_Z (Qfloor (x + (1 # 2))))
    by (rewrite <- Zle_Qle; lia).
  rewrite inject_Z_plus in G. change (inject_Z 1) with 1 in G.
  set (f := inject_Z (Qfloor (x + (1 # 2)))) in *. set (k := inject_Z n) in *. lra.
Qed.

Lemma Math_round_ge (x : Q) (n : Z) : inject_Z n <= x -> inject_Z n <= inject_Z (Math_round x).
Proof.
  intros H. unfold Math_round. rewrite <- Zle_Qle.
  rewrite <- (Qfloor_Z n). apply Qfloor_resp_le. lra.
Qed.

Lemma detectTrueRandomness_range {M : JSMath} (hist : list (option Event.t)) (r : Q) :
  detectTrueRandomness hist = Ok r -> 0 <= r <= 1.
Proof.
  unfold detectTrueRandomness. intros H. bind_inv H bits Hs.
  destruct (List.length bits <? 10)%nat.
  - ok_inv H. lra.
  - cbv zeta in H. ok_inv H. split; [apply Math_max_l|].
    apply Math_max_lub; [lra|].
    match goal with |- 1 - Math_abs ?z / 3 <= 1 =>
      pose proof (Math_abs_nonneg z) as A;
      assert (E : Math_abs z / 3 == Math_abs z * (1 # 3)) by reflexivity;
      rewrite E; set (a := Math_abs z) in *; lra
    end.
Qed.

Section AIProperties.
Context {M : JSMath}.

Lemma flonzaElitePredict_shape (now : Z) (h : list (option Event.t)) (s : Signal.t) :
  (10 <= List.length h)%nat ->
  flonzaElitePredict now (HArray h) = Ok s ->
  exists pattern colorNumber,
    model1_patternAnalysis h = Ok pattern
    /\ model2_colorNumberAnalysis h = Ok colorNumber
    /\ (Signal.prediction s = "BIG"
        <-> Sub.prediction pattern = "BIG" /\ Sub.prediction colorNumber = "BIG")
    /\ (Signal.prediction s = "BIG" \/ Signal.prediction s = "SMALL")
    /\ 65 <= Signal.confidence s <= 90.
Proof.
  intros Hlen. unfold flonzaElitePredict.
  assert (L : (List.length h <? 10)%nat = false) by (apply Nat.ltb_ge; exact Hlen).
  rewrite L. intros H.
  bind_inv H pattern Hp. bind_inv H colorNumber Hc. bind_inv H anomaly Ha.
  bind_inv H hybrid Hh.
  exists pattern, colorNumber. split; [exact Hp|]. split; [exact Hc|].
  destruct (model1_shape _ _ Hp) as (P1 & C1 & _).
  destruct (model2_shape _ _ Hc) as (C2 & hot & _ & P2).
  assert (Hne : h <> []) by (intros ->; cbn in Hlen; lia).
  destruct (model4_shape _ _ _ Hne Hh) as (P4 & C4 & _).
  cbv beta iota zeta delta [fold_left SubVote.confidence SubVote.prediction] in H.
  rewrite C2, P4 in H.
  rewrite (num_or_nonzero (Sub.confidence pattern)) in H by lra.
  rewrite (num_or_nonzero (Sub.confidence hybrid)) in H by lra.
  change (num_or 75 60) with 75 in H.
  cbn [rt_eqb] in H. change (String.eqb "SMALL" "BIG") with false in H.
  change (String.eqb "SMALL" "SMALL") with true in H.
  set (c1 := Sub.confidence pattern) in *. set (c4 := Sub.confidence hybrid) in *.
  assert (E1 : c1 / 100 == c1 * (1 # 100)) by reflexivity.
  assert (E4 : c4 / 100 == c4 * (1 # 100)) by reflexivity.
  assert (Conf : forall (pr : string) (avg stab : Q),
            65 <= avg <= 90 -> stab <= 1 ->
            65 <= Math_max 65 (inject_Z (Math_round (avg * stab))) <= 90).
  { intros pr avg stab Havg Hstab. split; [apply Math_max_l|].
    apply Math_max_lub; [lra|]. apply (Math_round_le _ 90).
    change (inject_Z 90) with 90.
    assert (avg * stab <= avg * 1).
    { rewrite (Qmult_comm avg stab), (Qmult_comm avg 1).
      apply Qmult_le_compat_r; lra. }
    lra. }
  bind_inv H randomnessScore Hr. pose proof (detectTrueRandomness_range _ _ Hr) as Rr.
  ok_inv H. cbn [Signal.prediction Signal.confidence].
  assert (Stab : (c1 / 100 + (1 - randomnessScore)
                  + (if Anomaly.isManipulated anomaly then 5 # 10 else 1)) / 3 <= 1).
  { apply Qle_shift_div_r; [lra|]. rewrite E1.
    destruct (Anomaly.isManipulated anomaly); lra. }
  assert (Avg : forall x, 65 <= Math_min 90 (Math_max 65 x) <= 90).
  { intros x. split; [apply Math_min_glb; [lra|apply Math_max_l] | apply Math_min_l]. }
  destruct P1 as [P1|P1], P2 as [(_ & P2 & _)|(_ & P2 & _)]; rewrite P1, P2;
    cbn [String.eqb Ascii.eqb Bool.eqb];
    change (String.eqb "BIG" "BIG") with true;
    change (String.eqb "BIG" "SMALL") with false;
    change (String.eqb "SMALL" "BIG") with false;
    change (String.eqb "SMALL" "SMALL") with true; cbv iota.
  all: match goal with
       | |- context [Qgtb ?a ?b] =>
           let X := fresh "X" in
           destruct (Qgtb a b) eqn:X;
           [apply Qltb_lt in X | apply Qltb_ge in X]
       end.
  all: unfold Qdiv in X; change (/ 100) with (1 # 100) in X.
  all: try (exfalso; lra).
  all: split; [split; [intros ?; first [split; reflexivity | discriminate]
                      | intros [? ?]; first [reflexivity | discriminate]] |].
  all: split; [first [left; reflexivity | right; reflexivity] |].
  all: apply (Conf ""); [apply Avg | exact Stab].
Qed.

(** X14. On ten events or more [flonzaElitePredict] predicts BIG exactly when
    [model1_patternAnalysis] and [model2_colorNumberAnalysis] both predict
    BIG, and SMALL otherwise.  Its confidence lies between 65 and 90. *)
Theorem flonzaElitePredict_vote (now : Z) (h : list (option Event.t)) (s : Signal.t) :
  (10 <= List.length h)%nat ->
  flonzaElitePredict now (HArray h) = Ok s ->
  exists pattern colorNumber,
    model1_patternAnalysis h = Ok pattern
    /\ model2_colorNumberAnalysis h = Ok colorNumber
    /\ (Signal.prediction s = "BIG"
        <-> Sub.prediction pattern = "BIG" /\ Sub.prediction colorNumber = "BIG")
    /\ (Signal.prediction s = "BIG" \/ Signal.prediction s = "SMALL")
    /\ 65 <= Signal.confidence s <= 90.
Proof.
  exact (flonzaElitePredict_shape now h s).
Qed.

End AIProperties.

(** ** [enhancedTrendAnalysis] *)

Lemma ranked_nil (lo hi : nat) : ranked lo hi [].
Proof. split; constructor. Qed.

Lemma ranked_mono (lo hi hi' : nat) (l : list string) :
  ranked lo hi l -> (hi <= hi')%nat -> ranked lo hi' l.
Proof.
  intros [S F] H. split; [exact S|].
  eapply Forall_impl; [|exact F]. cbv beta. intros t Ht. lia.
Qed.

Lemma StronglySorted_snoc {A : Type} (R : A -> A -> Prop) (l : list A) (x : A) :
  StronglySorted R l -> Forall (fun y => R y x) l -> StronglySorted R (l ++ [x]).
Proof.
  induction l as [|y r IH]; intros S F; cbn.
  - constructor; constructor.
  - inversion S as [|? ? Sr Fy]; subst. inversion F as [|? ? Ry Fr]; subst.
    constructor; [apply IH; assumption|].
    apply Forall_app. split; [exact Fy|]. constructor; [exact Ry|constructor].
Qed.

Lemma ranked_push (lo k : nat) (l : list string) (t : string) :
  ranked lo k l -> (lo <= tag_rank t)%nat -> (k <= tag_rank t)%nat ->
  ranked lo (S (tag_rank t)) (l ++ [t]).
Proof.
  intros [S F] Hlo Hk. split.
  - apply StronglySorted_snoc; [exact S|].
    eapply Forall_impl; [|exact F]. cbv beta. intros y Hy. lia.
  - apply Forall_app. split.
    + eapply Forall_impl; [|exact F]. cbv beta. intros y Hy. lia.
    + constructor; [lia|constructor].
Qed.

Lemma ranked_NoDup (lo hi : nat) (l : list string) : ranked lo hi l -> NoDup l.
Proof.
  intros [S _]. induction S as [|x r Sr IH Fx]; constructor; [|exact IH].
  intros Hin. rewrite Forall_forall in Fx. specialize (Fx x Hin). lia.
Qed.


Lemma pushed_ok (options : Options) (k k' : nat) acc acc' :
  acc_ok options k acc -> pushed options k' acc acc' -> (k <= k')%nat ->
  acc_ok options (S k') acc'.
Proof.
  intros [R F] [->|(t & c & -> & Ht & Hc)] Hk.
  - split; [|exact F]. apply (ranked_mono 0 k); [exact R|lia].
  - unfold push2; cbn [fst snd]. split.
    + rewrite <- Ht. apply (ranked_push 0 k); [exact R|lia|lia].
    + apply Forall_app. split; [exact F|]. constructor; [exact Hc|constructor].
Qed.

Lemma pushed_in (options : Options) (k : nat) acc acc' (c : Signal.t) :
  pushed options k acc acc' -> In c (snd acc) -> In c (snd acc').
Proof.
  intros [->|(t & c' & -> & _)] H; [exact H|].
  unfold push2; cbn [snd]. apply in_or_app. left. exact H.
Qed.

Lemma best_candidate_max (first : Signal.t) (rest : list Signal.t) :
  In (best_candidate first rest) (first :: rest)
  /\ forall c, In c (first :: rest) ->
       Signal.confidence c <= Signal.confidence (best_candidate first rest).
Proof.
  unfold best_candidate. revert first. induction rest as [|x r IH]; intros first;
    cbn [fold_left].
  - split; [left; reflexivity|]. intros c [<-|[]]. lra.
  - destruct (Qgtb (Signal.confidence x) (Signal.confidence first)) eqn:E.
    + apply Qltb_lt in E. destruct (IH x) as [I Mx]. split.
      * destruct I as [I|I]; [right; left; exact I | right; right; exact I].
      * intros c [<-|[<-|Hc]].
        -- specialize (Mx x (or_introl eq_refl)). lra.
        -- apply Mx. left. reflexivity.
        -- apply Mx. right. exact Hc.
    + apply Qltb_ge in E. destruct (IH first) as [I Mx]. split.
      * destruct I as [I|I]; [left; exact I | right; right; exact I].
      * intros c [<-|[<-|Hc]].
        -- apply Mx. left. reflexivity.
        -- specialize (Mx first (or_introl eq_refl)). lra.
        -- apply Mx. right. exact Hc.
Qed.

Lemma fibonacciPrediction_shape (recent : list (option Event.t)) (c : Signal.t) :
  fibonacciPrediction recent = Ok c ->
  (Signal.prediction c = "BIG" \/ Signal.prediction c = "SMALL")
  /\ Signal.logic c = Some (LogicNum 25)
  /\ (Signal.confidence c = 75 \/ Signal.confidence c = 70 \/ Signal.confidence c = 50).
Proof.
  unfold fibonacciPrediction. cbv zeta. intros H. bind_inv H bigCount Hb.
  destruct (List.length recent =? 0)%nat.
  { ok_inv H. cbn. split; [left; reflexivity|]. split; [reflexivity|].
    right. right. reflexivity. }
  destruct (Qgeb _ _).
  { ok_inv H. cbn. split; [right; reflexivity|]. split; [reflexivity|].
    left. reflexivity. }
  destruct (_ && _).
  { ok_inv H. cbn. split; [left; reflexivity|]. split; [reflexivity|].
    left. reflexivity. }
  bind_inv H r0 H0. ok_inv H. cbn [candidate Signal.prediction Signal.logic Signal.confidence].
  split; [apply opposite_cases|]. split; [reflexivity|]. right. left. reflexivity.
Qed.

Lemma machineLearningPrediction_shape (recent : list (option Event.t)) (c : Signal.t) :
  machineLearningPrediction recent = Ok c ->
  (Signal.prediction c = "BIG" \/ Signal.prediction c = "SMALL")
  /\ Signal.logic c = Some (LogicNum 28)
  /\ (Signal.confidence c = 85 \/ Signal.confidence c = 80
      \/ Signal.confidence c = 78 \/ Signal.confidence c = 75).
Proof.
  unfold machineLearningPrediction. cbv zeta. intros H.
  bind_inv H bigCount Hb. bind_inv H r0 H0. bind_inv H n Hn. bind_inv H alternating Ha.
  destruct (3 <=? 1 + n)%Z.
  { ok_inv H. cbn [candidate Signal.prediction Signal.logic Signal.confidence].
    split; [apply opposite_cases|]. split; [reflexivity|]. left. reflexivity. }
  destruct alternating.
  { bind_inv H rl Hr. ok_inv H.
    cbn [candidate Signal.prediction Signal.logic Signal.confidence].
    split; [apply opposite_cases|]. split; [reflexivity|]. right. left. reflexivity. }
  destruct (Qgtb _ _).
  { ok_inv H. cbn. split; [right; reflexivity|]. split; [reflexivity|].
    right. right. left. reflexivity. }
  destruct (Qgtb _ _).
  { ok_inv H. cbn. split; [left; reflexivity|]. split; [reflexivity|].
    right. right. left. reflexivity. }
  ok_inv H. cbn [candidate Signal.prediction Signal.logic Signal.confidence].
  split; [destruct (_ <? _)%Z; [right|left]; reflexivity|]. split; [reflexivity|].
  right. right. right. reflexivity.
Qed.

Section KBTShape.
Context {M : JSMath}.

Ltac pick :=
  first [left; split; [reflexivity|] | right; pick | split; [reflexivity|]].

Ltac cand :=
  unfold kbt_candidate;
  cbn [candidate Signal.prediction Signal.logic Signal.confidence];
  split; [first [apply opposite_cases | left; reflexivity | right; reflexivity
                | destruct (Qgtb _ _); [right|left]; reflexivity] |];
  eexists; split; [reflexivity|]; unfold logic_confidence; pick.

Ltac push_now := right; eexists; eexists; split; [reflexivity|]; split; [reflexivity|].

Lemma enhancedTrendAnalysis_shape (now : Z) (h : list (option Event.t))
    (options : Options) (s : Signal.t) :
  (3 <= List.length h)%nat ->
  enhancedTrendAnalysis now (HArray h) options = Ok s ->
  exists first rest tags,
    Forall (kbt_candidate options) (first :: rest)
    /\ ranked 0 9 tags
    /\ Signal.patterns s = Some tags
    /\ Signal.prediction s = Signal.prediction (best_candidate first rest)
    /\ Signal.confidence s = Signal.confidence (best_candidate first rest)
    /\ Signal.logic s = Signal.logic (best_candidate first rest)
    /\ (loss_recovery options = true ->
        exists c, In c (first :: rest) /\ Signal.logic c = Some (LogicNum 22)).
Proof.
  intros Hlen. unfold enhancedTrendAnalysis.
  assert (L : (List.length h <? 3)%nat = false) by (apply Nat.ltb_ge; exact Hlen).
  cbv zeta. rewrite L. intros H.
  bind_inv H h0 H0. bind_inv H n Hn.
  pose proof (run_length_nonneg _ _ _ Hn) as Nn.
  (* the streak *)
  match type of H with
  | context [if (3 <=? 1 + n)%Z then ?a else ?b] =>
      remember (if (3 <=? 1 + n)%Z then a else b) as acc0 eqn:E0 in H
  end.
  assert (P0 : pushed options 0 ([], []) acc0).
  { subst acc0. destruct (3 <=? 1 + n)%Z eqn:E3; [|left; reflexivity].
    apply Z.leb_le in E3. push_now. cand.
    assert (Q3 : 3 <= inject_Z (1 + n)) by (change 3 with (inject_Z 3); rewrite <- Zle_Qle; exact E3).
    set (k := inject_Z (1 + n)) in *. split.
    - apply Math_min_glb; lra.
    - apply Math_min_l. }
  clear E0.
  (* the alternation *)
  bind_inv H alternating Ha. bind_inv H acc1 H1.
  assert (P1 : pushed options 1 acc0 acc1).
  { destruct (alternating && (4 <=? List.length h)%nat).
    - bind_inv H1 hl Hl. ok_inv H1. push_now. cand. reflexivity.
    - ok_inv H1. left. reflexivity. }
  clear H1.
  (* the triple *)
  bind_inv H acc2 H2.
  assert (P2 : pushed options 2 acc1 acc2).
  { destruct (5 <=? List.length h)%nat; [|ok_inv H2; left; reflexivity].
    bind_inv H2 l0 Hl0. bind_inv H2 l1 Hl1.
    destruct (rt_eqb (Event.resultType l0) (Event.resultType l1));
      [|ok_inv H2; left; reflexivity].
    bind_inv H2 l2 Hl2.
    destruct (rt_eqb (Event.resultType l0) (Event.resultType l2));
      [|ok_inv H2; left; reflexivity].
    ok_inv H2. push_now. cand. reflexivity. }
  clear H2.
  (* the weighted probability *)
  bind_inv H bigCount Hb. bind_inv H shortBig Hsb. bind_inv H longBig Hlb.
  match type of H with
  | context [if ?c then push2 acc2 ?t ?x else acc2] =>
      remember (if c then push2 acc2 t x else acc2) as acc3 eqn:E3 in H
  end.
  assert (P3 : pushed options 3 acc2 acc3).
  { subst acc3.
    match goal with
    | |- context [if ?c1 && ?c2 then _ else _] =>
        destruct c1 eqn:C1; [|left; reflexivity];
        destruct c2; [|left; reflexivity]
    end.
    cbn [andb]. apply Qltb_lt in C1. push_now. cand. split.
    - unfold Math_min. destruct (Qle_bool 85 _); lra.
    - apply Math_min_l. }
  clear E3.
  (* the loss recovery *)
  bind_inv H acc4 H4.
  assert (P4 : pushed options 4 acc3 acc4
               /\ (loss_recovery options = true ->
                   exists c, In c (snd acc4) /\ Signal.logic c = Some (LogicNum 22))).
  { destruct options as [|[cl|] [lp|]]; try discriminate H4;
      try (ok_inv H4; split; [left; reflexivity | discriminate]).
    cbn [loss_recovery losses_of].
    destruct (negb (cl =? 0)%Z && (2 <=? cl)%Z && negb (String.eqb lp "")) eqn:C.
    - ok_inv H4. split.
      + push_now. cand. split; [exact C | reflexivity].
      + intros _. eexists. split.
        * unfold push2; cbn [snd]. apply in_or_app. right. left. reflexivity.
        * reflexivity.
    - ok_inv H4. split; [left; reflexivity | discriminate]. }
  destruct P4 as [P4 LR]. clear H4.
  (* the mirror *)
  bind_inv H acc5 H5.
  assert (P5 : pushed options 5 acc4 acc5).
  { destruct (4 <=? List.length h)%nat; [|ok_inv H5; left; reflexivity].
    bind_inv H5 a0 Ha0. bind_inv H5 a2 Ha2.
    destruct (rt_eqb (Event.resultType a0) (Event.resultType a2));
      [|ok_inv H5; left; reflexivity].
    bind_inv H5 a1 Ha1. bind_inv H5 a3 Ha3.
    destruct (rt_eqb (Event.resultType a1) (Event.resultType a3));
      [|ok_inv H5; left; reflexivity].
    ok_inv H5. push_now. cand. reflexivity. }
  clear H5.
  (* the neural network *)
  bind_inv H acc6 H6.
  assert (P6 : pushed options 6 acc5 acc6).
  { destruct (8 <=? List.length h)%nat; [|ok_inv H6; left; reflexivity].
    bind_inv H6 nnPrediction Hnn.
    destruct (neuralNetworkPrediction_shape _ _ _ Hnn) as (Np & Nl & Nc).
    destruct (NN.confidence nnPrediction) as [c|]; [|ok_inv H6; left; reflexivity].
    destruct (Qgtb c 70) eqn:C; [|ok_inv H6; left; reflexivity].
    apply Qltb_lt in C. ok_inv H6. push_now. unfold kbt_candidate.
    cbn [Signal.prediction Signal.logic Signal.confidence]. rewrite Np, Nl.
    split; [left; reflexivity|]. eexists. split; [reflexivity|].
    unfold logic_confidence. pick. specialize (Nc c eq_refl). lra. }
  clear H6.
  (* the Fibonacci levels *)
  bind_inv H acc7 H7.
  assert (P7 : pushed options 7 acc6 acc7).
  { destruct (8 <=? List.length h)%nat; [|ok_inv H7; left; reflexivity].
    bind_inv H7 fibPrediction Hf.
    destruct (fibonacciPrediction_shape _ _ Hf) as (Fp & Fl & Fc).
    destruct (Qgtb (Signal.confidence fibPrediction) 65) eqn:C;
      [|ok_inv H7; left; reflexivity].
    apply Qltb_lt in C. ok_inv H7. push_now. unfold kbt_candidate. rewrite Fl.
    split; [exact Fp|]. eexists. split; [reflexivity|]. unfold logic_confidence. pick.
    destruct Fc as [Fc|[Fc|Fc]]; [left; exact Fc | right; exact Fc|].
    rewrite Fc in C. lra. }
  clear H7.
  (* the machine learning *)
  bind_inv H acc8 H8.
  assert (P8 : pushed options 8 acc7 acc8).
  { destruct (10 <=? List.length h)%nat; [|ok_inv H8; left; reflexivity].
    bind_inv H8 mlPrediction Hm.
    destruct (machineLearningPrediction_shape _ _ Hm) as (Mp & Ml & Mc).
    destruct (Qgtb (Signal.confidence mlPrediction) 75) eqn:C;
      [|ok_inv H8; left; reflexivity].
    apply Qltb_lt in C. ok_inv H8. push_now. unfold kbt_candidate. rewrite Ml.
    split; [exact Mp|]. eexists. split; [reflexivity|]. unfold logic_confidence. pick.
    destruct Mc as [Mc|[Mc|[Mc|Mc]]];
      [left; exact Mc | right; left; exact Mc | right; right; exact Mc|].
    rewrite Mc in C. lra. }
  clear H8.
  (* the candidates *)
  assert (A0 : acc_ok options 0 ([], [])) by (split; [apply ranked_nil | constructor]).
  pose proof (pushed_ok _ _ _ _ _ A0 P0 (le_n _)) as A1.
  pose proof (pushed_ok _ _ _ _ _ A1 P1 (le_n _)) as A2.
  pose proof (pushed_ok _ _ _ _ _ A2 P2 (le_n _)) as A3.
  pose proof (pushed_ok _ _ _ _ _ A3 P3 (le_n _)) as A4.
  pose proof (pushed_ok _ _ _ _ _ A4 P4 (le_n _)) as A5.
  pose proof (pushed_ok _ _ _ _ _ A5 P5 (le_n _)) as A6.
  pose proof (pushed_ok _ _ _ _ _ A6 P6 (le_n _)) as A7.
  pose proof (pushed_ok _ _ _ _ _ A7 P7 (le_n _)) as A8.
  pose proof (pushed_ok _ _ _ _ _ A8 P8 (le_n _)) as [R9 F9].
  assert (LR8 : loss_recovery options = true ->
                exists c, In c (snd acc8) /\ Signal.logic c = Some (LogicNum 22)).
  { intros Hl. destruct (LR Hl) as (c & Hc & Lc). exists c. split; [|exact Lc].
    apply (pushed_in _ _ _ _ _ P8), (pushed_in _ _ _ _ _ P7),
      (pushed_in _ _ _ _ _ P6), (pushed_in _ _ _ _ _ P5). exact Hc. }
  bind_inv H predictions Hp. ok_inv H.
  cbn [Signal.patterns Signal.prediction Signal.confidence Signal.logic].
  exists (fst predictions), (snd predictions), (fst acc8).
  assert (Fc : Forall (kbt_candidate options) (fst predictions :: snd predictions)
               /\ (snd acc8 <> [] -> snd acc8 = fst predictions :: snd predictions)).
  { destruct (snd acc8) as [|first rest] eqn:E8.
    - bind_inv Hp b0 Hb0. bind_inv Hp b1 Hb1.
      destruct (_ && _); ok_inv Hp; cbn [fst snd];
        (split; [|intros C; contradiction]);
        (constructor; [|constructor]); cand; reflexivity.
    - ok_inv Hp. cbn [fst snd]. split; [exact F9 | reflexivity]. }
  destruct Fc as [Fc Ec].
  split; [exact Fc|]. split; [exact R9|]. repeat (split; [reflexivity|]).
  intros Hl. destruct (LR8 Hl) as (c & Hc & Lc). exists c. split; [|exact Lc].
  rewrite <- Ec; [exact Hc|]. intros C. rewrite C in Hc. contradiction.
Qed.

End KBTShape.

Lemma logic_confidence_range (options : Options) (logic : Z) (confidence : Q) :
  logic_confidence options logic confidence ->
  (loss_recovery options = true -> (2 <= losses_of options)%Z) ->
  50 < confidence
  /\ (logic <> 22%Z -> confidence <= 92)
  /\ (logic = 22%Z -> loss_recovery options = true
                      /\ confidence = 75 + inject_Z (losses_of options) * 5)
  /\ In logic [1; 3; 5; 8; 22; 6; 19; 25; 28; 4; 12]%Z.
Proof.
  intros H Hl. unfold logic_confidence in H.
  repeat match type of H with
         | _ \/ _ => destruct H as [H|H]
         end.
  all: destruct H as [-> H].
  all: split; [|split; [|split]]; try (cbn; tauto); try (intros; discriminate);
    try (intros _; exact H).
  all: repeat match type of H with
              | _ \/ _ => destruct H as [H|H]
              | _ = _ => rewrite H
              end; try lra.
  destruct H as [Hr ->]. specialize (Hl Hr).
    assert (2 <= inject_Z (losses_of options))
      by (change 2 with (inject_Z 2); rewrite <- Zle_Qle; exact Hl).
    set (k := inject_Z (losses_of options)) in *. lra.
Qed.

Lemma loss_recovery_losses (options : Options) :
  loss_recovery options = true -> (2 <= losses_of options)%Z.
Proof.
  destruct options as [|[cl|] [lp|]]; cbn; try discriminate.
  intros H. apply andb_true_iff in H. destruct H as [H _].
  apply andb_true_iff in H. destruct H as [_ H]. apply Z.leb_le. exact H.
Qed.

Section KBTRanges.
Context {M : JSMath}.

Lemma enhancedTrendAnalysis_fallback (now : Z) (history : History) (options : Options) :
  match history with
  | NotArray => True
  | HArray h => (List.length h < 3)%nat
  end ->
  enhancedTrendAnalysis now history options
  = Ok {| Signal.prediction := "BIG"; Signal.confidence := 60;
          Signal.logic := Some (LogicNum 8); Signal.patterns := Some ["fallback"];
          Signal.contributors := None; Signal.modelId := None;
          Signal.modelName := None; Signal.modelWeight := None |}.
Proof.
  unfold enhancedTrendAnalysis. destruct history as [|h]; [reflexivity|].
  intros H. apply Nat.ltb_lt in H. cbv zeta. rewrite H. reflexivity.
Qed.

Lemma enhancedTrendAnalysis_range (now : Z) (history : History)
    (options : Options) (s : Signal.t) :
  enhancedTrendAnalysis now history options = Ok s ->
  (Signal.prediction s = "BIG" \/ Signal.prediction s = "SMALL")
  /\ 50 < Signal.confidence s
  /\ (loss_recovery options = false -> Signal.confidence s <= 92)
  /\ exists logic, Signal.logic s = Some (LogicNum logic)
                   /\ In logic [1; 3; 5; 8; 22; 6; 19; 25; 28; 4; 12]%Z.
Proof.
  intros H.
  assert (C : match history with
              | NotArray => True
              | HArray h => (List.length h < 3)%nat
              end
              \/ exists h, history = HArray h /\ (3 <= List.length h)%nat).
  { destruct history as [|h]; [left; exact I|].
    destruct (Nat.lt_ge_cases (List.length h) 3); [left; assumption|].
    right. exists h. split; [reflexivity|assumption]. }
  destruct C as [C|(h & -> & C)].
  - rewrite (enhancedTrendAnalysis_fallback now history options C) in H. ok_inv H.
    cbn [Signal.prediction Signal.confidence Signal.logic].
    split; [left; reflexivity|]. split; [lra|]. split; [intros _; lra|].
    exists 8%Z. split; [reflexivity|]. cbn. tauto.
  - destruct (enhancedTrendAnalysis_shape now h options s C H)
      as (first & rest & tags & F & _ & _ & Ep & Ec & El & _).
    destruct (best_candidate_max first rest) as [I _].
    rewrite Forall_forall in F. destruct (F _ I) as (Bp & logic & Bl & Bc).
    rewrite Ep, Ec, El.
    destruct (logic_confidence_range _ _ _ Bc (loss_recovery_losses options))
      as (R1 & R2 & R3 & R4).
    split; [exact Bp|]. split; [exact R1|]. split.
    + intros Hl. apply R2. intros ->. destruct (R3 eq_refl) as [C' _]. congruence.
    + exists logic. split; [exact Bl | exact R4].
Qed.

(** X15. A signal of [enhancedTrendAnalysis] is BIG or SMALL with a confidence
    above 50, and its [logic] is one of the numbers 1, 3, 5, 8, 22, 6, 19,
    25, 28, 4 and 12.  Unless the loss-recovery candidate is in play (two
    consecutive losses or more and a last prediction), the confidence is at
    most 92. *)
Theorem enhancedTrendAnalysis_confidence (now : Z) (history : History)
    (options : Options) (s : Signal.t) :
  enhancedTrendAnalysis now history options = Ok s ->
  (Signal.prediction s = "BIG" \/ Signal.prediction s = "SMALL")
  /\ 50 < Signal.confidence s
  /\ (loss_recovery options = false -> Signal.confidence s <= 92)
  /\ exists logic, Signal.logic s = Some (LogicNum logic)
                   /\ In logic [1; 3; 5; 8; 22; 6; 19; 25; 28; 4; 12]%Z.
Proof.
  exact (enhancedTrendAnalysis_range now history options s).
Qed.

(** X16. With [consecutiveLosses >= 2] and a last prediction, on three events
    or more, the confidence of [enhancedTrendAnalysis] is at least
    [75 + 5 * consecutiveLosses], which is 85 or more and grows with the
    losses: the loss-recovery candidate is not capped, and the candidate of
    the highest confidence is returned. *)
Theorem loss_recovery_confidence (now : Z) (h : list (option Event.t))
    (options : Options) (s : Signal.t) :
  (3 <= List.length h)%nat ->
  loss_recovery options = true ->
  enhancedTrendAnalysis now (HArray h) options = Ok s ->
  85 <= 75 + inject_Z (losses_of options) * 5
  /\ 75 + inject_Z (losses_of options) * 5 <= Signal.confidence s.
Proof.
  intros Hlen Hl H.
  destruct (enhancedTrendAnalysis_shape now h options s Hlen H)
    as (first & rest & tags & F & _ & _ & _ & Ec & _ & LR).
  destruct (LR Hl) as (c & Hc & Lc).
  destruct (best_candidate_max first rest) as [_ Mx].
  rewrite Forall_forall in F. destruct (F _ Hc) as (_ & logic & Bl & Bc).
  rewrite Lc in Bl. injection Bl as <-.
  destruct (logic_confidence_range _ _ _ Bc (loss_recovery_losses options))
    as (_ & _ & R3 & _).
  destruct (R3 eq_refl) as [_ E]. split; [|rewrite Ec, <- E; apply Mx; exact Hc].
  pose proof (loss_recovery_losses options Hl) as L2.
  assert (2 <= inject_Z (losses_of options))
    by (change 2 with (inject_Z 2); rewrite <- Zle_Qle; exact L2).
  set (k := inject_Z (losses_of options)) in *. lra.
Qed.

Lemma enhancedTrendAnalysis_patterns (now : Z) (history : History)
    (options : Options) (s : Signal.t) :
  enhancedTrendAnalysis now history options = Ok s ->
  exists tags, Signal.patterns s = Some tags /\ ranked 0 10 tags.
Proof.
  intros H.
  assert (C : match history with
              | NotArray => True
              | HArray h => (List.length h < 3)%nat
              end
              \/ exists h, history = HArray h /\ (3 <= List.length h)%nat).
  { destruct history as [|h]; [left; exact I|].
    destruct (Nat.lt_ge_cases (List.length h) 3); [left; assumption|].
    right. exists h. split; [reflexivity|assumption]. }
  destruct C as [C|(h & -> & C)].
  - rewrite (enhancedTrendAnalysis_fallback now history options C) in H. ok_inv H.
    eexists. split; [reflexivity|]. split.
    + constructor; constructor.
    + constructor; [cbn; lia|constructor].
  - destruct (enhancedTrendAnalysis_shape now h options s C H)
      as (first & rest & tags & _ & R & Et & _).
    exists tags. split; [exact Et|]. apply (ranked_mono 0 9); [exact R|lia].
Qed.

Lemma flonzaElitePredict_patterns (now : Z) (history : History) (s : Signal.t) :
  flonzaElitePredict now history = Ok s ->
  exists tags, Signal.patterns s = Some tags /\ ranked 10 14 tags.
Proof.
  unfold flonzaElitePredict.
  assert (Fb : ranked 10 14 ["insufficient_data"]).
  { split; [constructor; constructor|]. constructor; [cbn; lia|constructor]. }
  destruct history as [|h].
  { intros H. ok_inv H. eexists. split; [reflexivity|exact Fb]. }
  destruct (List.length h <? 10)%nat eqn:L.
  { intros H. ok_inv H. eexists. split; [reflexivity|exact Fb]. }
  intros H.
  bind_inv H pattern Hp. bind_inv H colorNumber Hc. bind_inv H anomaly Ha.
  bind_inv H hybrid Hh. cbv zeta in H.
  destruct (fold_left _ _ _) as [[totalWeight big] small].
  bind_inv H randomnessScore Hr. ok_inv H. cbn [Signal.patterns].
  eexists. split; [reflexivity|].
  destruct (model1_shape _ _ Hp) as (_ & _ & t1 & E1 & R1).
  destruct (model2_shape _ _ Hc) as (_ & hot & _ & P2).
  assert (N1 : String.eqb t1 "" = false).
  { destruct t1; [discriminate R1|reflexivity]. }
  assert (E2 : exists t2, Sub.patterns colorNumber = [t2] /\ tag_rank t2 = 11%nat
                          /\ String.eqb t2 "" = false).
  { destruct P2 as [(_ & _ & E)|(_ & _ & E)]; rewrite E; eexists;
      (split; [reflexivity|]); split; reflexivity. }
  destruct E2 as (t2 & E2 & R2 & N2). rewrite E1, E2.
  destruct (Anomaly.isManipulated anomaly); cbn [app filter]; rewrite N1, N2; cbn [negb].
  - change (String.eqb "⚠️ manipulation_risk" "") with false. cbn [negb].
    split.
    + constructor; [constructor; [constructor; constructor|]|].
      * constructor; [|constructor]. rewrite R2. cbn. lia.
      * constructor; [rewrite R1, R2; lia|]. constructor; [|constructor].
        rewrite R1. cbn. lia.
    + constructor; [rewrite R1; lia|]. constructor; [rewrite R2; lia|].
      constructor; [cbn; lia|constructor].
  - split.
    + constructor; [constructor; constructor|].
      constructor; [rewrite R1, R2; lia|constructor].
    + constructor; [rewrite R1; lia|]. constructor; [rewrite R2; lia|constructor].
Qed.

End KBTRanges.

(** ** The manager of a [KBTModel] and an [AIModel] *)

Lemma set_from_NoDup (seen l : list string) :
  NoDup l -> (forall x, In x l -> ~ In x seen) -> set_from seen l = l.
Proof.
  revert seen. induction l as [|x r IH]; intros seen Hn Hs; cbn [set_from]; [reflexivity|].
  inversion Hn as [|? ? Hx Hr]; subst.
  destruct (existsb (String.eqb x) seen) eqn:E.
  - exfalso. apply existsb_exists in E. destruct E as (y & Hy & Ey).
    apply String.eqb_eq in Ey. subst y. apply (Hs x); [left; reflexivity|exact Hy].
  - f_equal. apply IH; [exact Hr|]. intros y Hy [C|C].
    + subst y. contradiction.
    + apply (Hs y); [right; exact Hy|exact C].
Qed.

Lemma overlap_NoDup (preds : list Pred.t) :
  NoDup (flat_map (fun p => patterns_or_empty (Pred.p p)) preds) ->
  nan_gtb (Overlap.score (analyzePatternOverlap preds)) (6 # 10) = false.
Proof.
  intros H. unfold analyzePatternOverlap. cbv zeta. cbn [Overlap.score].
  set (allPatterns := flat_map _ preds) in *.
  destruct (List.length allPatterns =? 0)%nat eqn:E; [reflexivity|].
  apply Nat.eqb_neq in E. cbn [nan_gtb]. apply Qgtb_false.
  unfold Set_of. rewrite set_from_NoDup; [|exact H|intros x _ []].
  set (n := inject_Z (Z.of_nat (List.length allPatterns))).
  assert (Hn : 0 < n) by (subst n; unfold Qlt; simpl; lia).
  assert (En : n / n == 1) by (field; lra).
  rewrite En. lra.
Qed.

Section RosterProperties.
Context {M : JSMath}.

Lemma run_model_KBT (now : Z) (history : History) (options : Options)
    (m : Predictor.t) :
  Predictor.predict m = KBTModel_predict ->
  (Pred.p (run_model now history options m) = neutral
   \/ exists s, enhancedTrendAnalysis now history options = Ok s
                /\ Signal.prediction (Pred.p (run_model now history options m))
                   = Signal.prediction s
                /\ Signal.confidence (Pred.p (run_model now history options m))
                   = Signal.confidence s
                /\ Signal.logic (Pred.p (run_model now history options m))
                   = Signal.logic s
                /\ Signal.patterns (Pred.p (run_model now history options m))
                   = Signal.patterns s).
Proof.
  intros E. unfold run_model. rewrite E. unfold KBTModel_predict.
  destruct (enhancedTrendAnalysis now history options) as [s|]; cbn [bind try_catch Pred.p].
  - right. exists s. repeat split.
  - left. reflexivity.
Qed.

Lemma run_model_AI (now : Z) (history : History) (options : Options)
    (m : Predictor.t) :
  Predictor.predict m = AIModel_predict ->
  (Pred.p (run_model now history options m) = neutral
   \/ exists s, flonzaElitePredict now history = Ok s
                /\ Signal.prediction (Pred.p (run_model now history options m))
                   = Signal.prediction s
                /\ Signal.confidence (Pred.p (run_model now history options m))
                   = Signal.confidence s
                /\ Signal.logic (Pred.p (run_model now history options m))
                   = Signal.logic s
                /\ Signal.patterns (Pred.p (run_model now history options m))
                   = Signal.patterns s).
Proof.
  intros E. unfold run_model. rewrite E. unfold AIModel_predict.
  destruct (flonzaElitePredict now history) as [s|]; cbn [bind try_catch Pred.p].
  - right. exists s. repeat split.
  - left. reflexivity.
Qed.

Lemma run_model_KBT_patterns now history options (m : Predictor.t) :
  Predictor.predict m = KBTModel_predict ->
  ranked 0 10 (patterns_or_empty (Pred.p (run_model now history options m))).
Proof.
  intros E. destruct (run_model_KBT now history options m E)
    as [->|(s & Hs & _ & _ & _ & Ep)].
  - apply ranked_nil.
  - unfold patterns_or_empty. rewrite Ep.
    destruct (enhancedTrendAnalysis_patterns _ _ _ _ Hs) as (tags & -> & R). exact R.
Qed.

Lemma run_model_AI_patterns now history options (m : Predictor.t) :
  Predictor.predict m = AIModel_predict ->
  ranked 10 14 (patterns_or_empty (Pred.p (run_model now history options m))).
Proof.
  intros E. destruct (run_model_AI now history options m E)
    as [->|(s & Hs & _ & _ & _ & Ep)].
  - apply ranked_nil.
  - unfold patterns_or_empty. rewrite Ep.
    destruct (flonzaElitePredict_patterns _ _ _ Hs) as (tags & -> & R). exact R.
Qed.

Lemma ranked_disjoint (l1 l2 : list string) :
  ranked 0 10 l1 -> ranked 10 14 l2 -> NoDup (l1 ++ l2).
Proof.
  intros R1 R2. apply NoDup_app.
  - apply (ranked_NoDup _ _ _ R1).
  - apply (ranked_NoDup _ _ _ R2).
  - intros t H1 H2. destruct R1 as [_ F1], R2 as [_ F2].
    rewrite Forall_forall in F1, F2. specialize (F1 t H1). specialize (F2 t H2). lia.
Qed.

Lemma roster_no_consensus (mm : Manager.t) (kbt ai : Predictor.t) now history options :
  Manager.models mm = [kbt; ai] ->
  Predictor.predict kbt = KBTModel_predict ->
  Predictor.predict ai = AIModel_predict ->
  consensus_reached (sorted_preds mm now history options) = false.
Proof.
  intros Em Ek Ea. unfold consensus_reached.
  rewrite overlap_NoDup; [apply andb_false_r|].
  unfold sorted_preds. rewrite Em. cbn [map].
  eapply Permutation_NoDup.
  - apply Permutation_flat_map. apply Permutation_sym, sort_preds_perm.
  - cbn [flat_map]. rewrite app_nil_r. apply ranked_disjoint.
    + apply run_model_KBT_patterns. exact Ek.
    + apply run_model_AI_patterns. exact Ea.
Qed.

Lemma roster_sorted (mm : Manager.t) (kbt ai : Predictor.t) now history options :
  Manager.models mm = [kbt; ai] ->
  exists p0 p1,
    sorted_preds mm now history options = [p0; p1]
    /\ (p0 = run_model now history options kbt \/ p0 = run_model now history options ai).
Proof.
  intros Em. unfold sorted_preds. rewrite Em. cbn [map sort_preds insert_pred].
  destruct (Qltb _ _); eexists; eexists; (split; [reflexivity|]);
    [right | left]; reflexivity.
Qed.

(** X17. A manager of a [KBTModel] and an [AIModel], the roster of the
    constructor, never takes the consensus path: the tags of the two
    classes are disjoint, so the pattern overlap is never above 0.6.  The
    [chosenModel] of every decision is ['fallback'] or the id (or name) of
    one of the two models. *)
Theorem repository_roster_never_consensus (mm : Manager.t) (kbt ai : Predictor.t)
    (now : Z) (history : History) (options : Options) :
  Manager.models mm = [kbt; ai] ->
  Predictor.predict kbt = KBTModel_predict ->
  Predictor.predict ai = AIModel_predict ->
  consensus_reached (sorted_preds mm now history options) = false
  /\ forall d, ModelManager_predict mm now history options = Ok d ->
       Decision.chosenModel d = Some "fallback"
       \/ Decision.chosenModel d = Some (id_or_name kbt)
       \/ Decision.chosenModel d = Some (id_or_name ai).
Proof.
  intros Em Ek Ea.
  pose proof (roster_no_consensus mm kbt ai now history options Em Ek Ea) as Hc.
  split; [exact Hc|]. intros d.
  rewrite ModelManager_predict_unfold.
  destruct (roster_sorted mm kbt ai now history options Em) as (p0 & p1 & Es & Hp0).
  rewrite Es in *. rewrite (decide_low_consensus _ _ _ _ Hc).
  intros H. bind_inv H final Hf. ok_inv H.
  destruct (enforce_minConfidence_fields (Manager.minConfidence mm) final)
    as (_ & _ & _ & -> & _).
  destruct (low_consensus_contents _ _ _ _ _ Hf) as [(_ & C & _)|(_ & C & _)].
  - left. exact C.
  - right. rewrite C. destruct Hp0 as [-> | ->]; rewrite run_model_model;
      [left|right]; reflexivity.
Qed.


Lemma run_model_KBT_confidence now history options (m : Predictor.t) :
  Predictor.predict m = KBTModel_predict -> loss_recovery options = false ->
  Signal.confidence (Pred.p (run_model now history options m)) <= 92.
Proof.
  intros E Hl. destruct (run_model_KBT now history options m E)
    as [->|(s & Hs & _ & -> & _)].
  - cbn. lra.
  - destruct (enhancedTrendAnalysis_range _ _ _ _ Hs) as (_ & _ & R & _).
    apply R. exact Hl.
Qed.

Lemma flonzaElitePredict_confidence (now : Z) (history : History) (s : Signal.t) :
  flonzaElitePredict now history = Ok s -> 55 <= Signal.confidence s <= 90.
Proof.
  intros H.
  assert (C : match history with
              | NotArray => True
              | HArray h => (List.length h < 10)%nat
              end
              \/ exists h, history = HArray h /\ (10 <= List.length h)%nat).
  { destruct history as [|h]; [left; exact I|].
    destruct (Nat.lt_ge_cases (List.length h) 10); [left; assumption|].
    right. exists h. split; [reflexivity|assumption]. }
  destruct C as [C|(h & -> & C)].
  - unfold flonzaElitePredict in H. destruct history as [|h].
    + ok_inv H. cbn [Signal.confidence]. lra.
    + apply Nat.ltb_lt in C. rewrite C in H. ok_inv H. cbn [Signal.confidence]. lra.
  - destruct (flonzaElitePredict_shape now h s C H) as (_ & _ & _ & _ & _ & _ & R). lra.
Qed.

Lemma run_model_AI_confidence now history options (m : Predictor.t) :
  Predictor.predict m = AIModel_predict ->
  Signal.confidence (Pred.p (run_model now history options m)) <= 92.
Proof.
  intros E. destruct (run_model_AI now history options m E)
    as [->|(s & Hs & _ & -> & _)].
  - cbn. lra.
  - pose proof (flonzaElitePredict_confidence _ _ _ Hs). lra.
Qed.

Lemma low_consensus_confidence (p0 p1 : Pred.t) preds history d :
  low_consensus p0 p1 preds history = Ok d ->
  Signal.confidence (Pred.p p0) <= 92 ->
  Decision.confidence d <= 92.
Proof.
  unfold low_consensus. cbv zeta. intros H Hc.
  assert (F : forall prediction,
            Decision.confidence
              (fallback_decision prediction (Signal.confidence (Pred.p p0))) <= 92).
  { intros prediction. unfold fallback_decision; cbn [Decision.confidence].
    apply Math_max_lub; [lra|]. apply (Math_round_le _ 92).
    change (inject_Z 92) with 92. lra. }
  destruct (Qltb _ 15).
  - bind_inv H bias Hb. destruct (Qgtb bias (6 # 10)).
    { ok_inv H. apply F. }
    destruct (Qltb bias (4 # 10)).
    { ok_inv H. apply F. }
    ok_inv H. unfold top_decision; cbn [Decision.confidence].
    apply Math_max_lub; [lra|]. apply (Math_round_le _ 92).
    change (inject_Z 92) with 92. lra.
  - ok_inv H. unfold top_decision; cbn [Decision.confidence]. exact Hc.
Qed.

(** X18. The confidence of a decision of the manager of a [KBTModel] and an
    [AIModel] lies between [minConfidence] and 92, when [minConfidence] is
    at most 92 (it is 65) and the loss-recovery candidate is not in play. *)
Theorem repository_roster_confidence (mm : Manager.t) (kbt ai : Predictor.t)
    (now : Z) (history : History) (options : Options) (d : Decision.t) :
  Manager.models mm = [kbt; ai] ->
  Predictor.predict kbt = KBTModel_predict ->
  Predictor.predict ai = AIModel_predict ->
  loss_recovery options = false ->
  Manager.minConfidence mm <= 92 ->
  ModelManager_predict mm now history options = Ok d ->
  Manager.minConfidence mm <= Decision.confidence d <= 92.
Proof.
  intros Em Ek Ea Hl Hmin.
  pose proof (roster_no_consensus mm kbt ai now history options Em Ek Ea) as Hc.
  rewrite ModelManager_predict_unfold.
  destruct (roster_sorted mm kbt ai now history options Em) as (p0 & p1 & Es & Hp0).
  rewrite Es in *. rewrite (decide_low_consensus _ _ _ _ Hc).
  intros H. bind_inv H final Hf. ok_inv H.
  rewrite enforce_minConfidence_confidence. split; [apply Math_max_l|].
  apply Math_max_lub; [exact Hmin|].
  apply (low_consensus_confidence _ _ _ _ _ Hf).
  destruct Hp0 as [-> | ->].
  - apply run_model_KBT_confidence; assumption.
  - apply run_model_AI_confidence; assumption.
Qed.

End RosterProperties.

Lemma repository_roster_never_consensus_witness :
  Manager.models default_manager = [@KBTModel ExactMath "KBT"; @AIModel ExactMath "AI_FLONZA"]
  /\ Predictor.predict (@KBTModel ExactMath "KBT") = @KBTModel_predict ExactMath
  /\ Predictor.predict (@AIModel ExactMath "AI_FLONZA") = @AIModel_predict ExactMath
  /\ consensus_reached (sorted_preds default_manager 0 eleven_stamped no_options) = false
  /\ forall d, ModelManager_predict default_manager 0 eleven_stamped no_options = Ok d ->
       Decision.chosenModel d = Some "fallback"
       \/ Decision.chosenModel d = Some (id_or_name (@KBTModel ExactMath "KBT"))
       \/ Decision.chosenModel d = Some (id_or_name (@AIModel ExactMath "AI_FLONZA")).
Proof.
  split; [reflexivity|]. split; [reflexivity|]. split; [reflexivity|].
  exact (@repository_roster_never_consensus ExactMath default_manager
           (@KBTModel ExactMath "KBT") (@AIModel ExactMath "AI_FLONZA")
           0 eleven_stamped no_options eq_refl eq_refl eq_refl).
Defined.

Lemma repository_roster_confidence_witness :
  Manager.models default_manager = [@KBTModel ExactMath "KBT"; @AIModel ExactMath "AI_FLONZA"]
  /\ Predictor.predict (@KBTModel ExactMath "KBT") = @KBTModel_predict ExactMath
  /\ Predictor.predict (@AIModel ExactMath "AI_FLONZA") = @AIModel_predict ExactMath
  /\ loss_recovery no_options = false
  /\ Manager.minConfidence default_manager <= 92
  /\ exists d, ModelManager_predict default_manager 0 eleven_stamped no_options = Ok d
               /\ Manager.minConfidence default_manager <= Decision.confidence d <= 92.
Proof.
  assert (Hm : Manager.minConfidence default_manager <= 92) by (cbn; lra).
  split; [reflexivity|]. split; [reflexivity|]. split; [reflexivity|].
  split; [reflexivity|]. split; [exact Hm|].
  eexists. split; [vm_compute; reflexivity|].
  apply (@repository_roster_confidence ExactMath default_manager
           (@KBTModel ExactMath "KBT") (@AIModel ExactMath "AI_FLONZA")
           0 eleven_stamped no_options _ eq_refl eq_refl eq_refl eq_refl Hm).
  vm_compute. reflexivity.
Defined.

(** ** The providers at concrete inputs *)

Lemma neuralNetworkPrediction_always_BIG_witness :
  exists r, @neuralNetworkPrediction ExactMath 0 (entries eleven_stamped) = Ok r
            /\ NN.prediction r = "BIG"
            /\ NN.logic r = 19%Z
            /\ (forall c, NN.confidence r = Some c -> 70 <= c <= 92).
Proof.
  eexists. split; [vm_compute; reflexivity|].
  apply (@neuralNetworkPrediction_always_BIG ExactMath 0 (entries eleven_stamped)).
  vm_compute. reflexivity.
Defined.

Lemma model2_never_neutral_witness :
  exists s, model2_colorNumberAnalysis (entries eleven_stamped) = Ok s
            /\ Sub.confidence s = 75
            /\ exists hotNumber : Z,
                 (-1 <= hotNumber <= 9)%Z
                 /\ ((5 <= hotNumber)%Z /\ Sub.prediction s = "BIG"
                     /\ Sub.patterns s = [("Hot_BIG_" ++ string_of_Z hotNumber)%string]
                     \/ (hotNumber < 5)%Z /\ Sub.prediction s = "SMALL"
                        /\ Sub.patterns s
                           = [("Hot_SMALL_" ++ string_of_Z hotNumber)%string]).
Proof.
  eexists. split; [vm_compute; reflexivity|].
  apply (model2_never_neutral (entries eleven_stamped)). vm_compute. reflexivity.
Defined.

Lemma detectStreaks_strength_witness :
  exists r, detectStreaks (entries eleven_stamped) = Ok r
            /\ exists v, StreakInfo.strength r = Some v /\ 0 < v <= 1.
Proof.
  eexists. split; [vm_compute; reflexivity|].
  apply (detectStreaks_strength (entries eleven_stamped)). vm_compute. reflexivity.
Defined.

Lemma model4_always_SMALL_witness :
  entries eleven_stamped <> []
  /\ exists s, model4_hybridPredictor 0 (entries eleven_stamped) = Ok s
               /\ Sub.prediction s = "SMALL"
               /\ 70 <= Sub.confidence s <= 92
               /\ Sub.patterns s = ["Neural_Trend"].
Proof.
  assert (N : entries eleven_stamped <> []) by discriminate.
  split; [exact N|].
  eexists. split; [vm_compute; reflexivity|].
  apply (model4_always_SMALL 0 (entries eleven_stamped) _ N). vm_compute. reflexivity.
Defined.

Lemma flonzaElitePredict_vote_witness :
  (10 <= List.length (entries eleven_stamped))%nat
  /\ exists s, @flonzaElitePredict ExactMath 0 (HArray (entries eleven_stamped)) = Ok s
               /\ exists pattern colorNumber,
                    model1_patternAnalysis (entries eleven_stamped) = Ok pattern
                    /\ model2_colorNumberAnalysis (entries eleven_stamped) = Ok colorNumber
                    /\ (Signal.prediction s = "BIG"
                        <-> Sub.prediction pattern = "BIG"
                            /\ Sub.prediction colorNumber = "BIG")
                    /\ (Signal.prediction s = "BIG" \/ Signal.prediction s = "SMALL")
                    /\ 65 <= Signal.confidence s <= 90.
Proof.
  assert (L : (10 <= List.length (entries eleven_stamped))%nat) by (cbn; lia).
  split; [exact L|].
  eexists. split; [vm_compute; reflexivity|].
  apply (@flonzaElitePredict_vote ExactMath 0 (entries eleven_stamped) _ L).
  vm_compute. reflexivity.
Defined.

Lemma enhancedTrendAnalysis_confidence_witness :
  exists s, @enhancedTrendAnalysis ExactMath 0 eleven_stamped no_options = Ok s
            /\ (Signal.prediction s = "BIG" \/ Signal.prediction s = "SMALL")
            /\ 50 < Signal.confidence s
            /\ (loss_recovery no_options = false -> Signal.confidence s <= 92)
            /\ exists logic, Signal.logic s = Some (LogicNum logic)
                             /\ In logic [1; 3; 5; 8; 22; 6; 19; 25; 28; 4; 12]%Z.
Proof.
  eexists. split; [vm_compute; reflexivity|].
  apply (@enhancedTrendAnalysis_confidence ExactMath 0 eleven_stamped no_options).
  vm_compute. reflexivity.
Defined.

Lemma loss_recovery_confidence_witness :
  (3 <= List.length (entries big_small ++ entries big_small))%nat
  /\ loss_recovery three_losses = true
  /\ exists s, @enhancedTrendAnalysis ExactMath 0
                 (HArray (entries big_small ++ entries big_small)) three_losses = Ok s
               /\ 85 <= 75 + inject_Z (losses_of three_losses) * 5
               /\ 75 + inject_Z (losses_of three_losses) * 5 <= Signal.confidence s.
Proof.
  assert (L : (3 <= List.length (entries big_small ++ entries big_small))%nat)
    by (cbn; lia).
  split; [exact L|]. split; [reflexivity|].
  eexists. split; [vm_compute; reflexivity|].
  apply (@loss_recovery_confidence ExactMath 0 _ three_losses _ L eq_refl).
  vm_compute. reflexivity.
Defined.

(** ** The CommonJS manager of kbt_models.js *)

Lemma rel_get_in (l : Reliability) (k : string) :
  In k (map fst l) -> exists v, rel_get l k = Some v /\ In (k, v) l.
Proof.
  induction l as [|[k' v] l IH]; cbn [map In rel_get fst]; [intros []|].
  intros H. destruct (String.eqb k' k) eqn:E.
  - apply String.eqb_eq in E. subst k'. exists v. split; [reflexivity|left; reflexivity].
  - apply String.eqb_neq in E. destruct H as [H|H]; [contradiction|].
    destruct (IH H) as (v' & Ev & Iv). exists v'. split; [exact Ev|right; exact Iv].
Qed.

Lemma num_or_neq0 (x d : Q) : ~ d == 0 -> ~ num_or x d == 0.
Proof.
  intros Hd. unfold num_or. destruct (Qeq_bool x 0) eqn:E; [exact Hd|].
  apply Qeq_bool_neq in E. exact E.
Qed.

Lemma nan_or_neq0 (x : num) (d : Q) : ~ d == 0 -> ~ nan_or x d == 0.
Proof.
  intros Hd. unfold nan_or. destruct x as [v|]; [apply num_or_neq0|]; exact Hd.
Qed.

Lemma reliability_of_neq0 (m : Predictor.t) : ~ reliability_of m == 0.
Proof.
  unfold reliability_of, Math_min.
  pose proof (nan_or_neq0 (Model.weight (Predictor.st m)) (1 # 2)) as Hw.
  pose proof (num_or_neq0 (Model.emaAccuracy (Predictor.st m)) (1 # 2)) as He.
  assert (H12 : ~ (1 # 2) == 0) by (intros C; discriminate C).
  specialize (Hw H12). specialize (He H12).
  set (w := nan_or (Model.weight (Predictor.st m)) (1 # 2)) in *.
  set (e := num_or (Model.emaAccuracy (Predictor.st m)) (1 # 2)) in *.
  destruct (Qle_bool 1 (w * e * 2)); [intros C; discriminate C|].
  intros C.
  assert (Z0 : w * e == 0) by lra.
  apply Qmult_integral in Z0. tauto.
Qed.

Lemma rel_get_assess_neq0 (preds : list Pred.t) (p : Pred.t) :
  In p preds ->
  exists r, rel_get (assessModelReliability preds)
              (Model.id (Predictor.st (Pred.model p))) = Some r
            /\ num_or r 1 = r.
Proof.
  intros Hin. unfold assessModelReliability. rewrite assess_fold, app_nil_r.
  destruct (rel_get_in
              (rev (map (fun p => (Model.id (Predictor.st (Pred.model p)),
                                   reliability_of (Pred.model p))) preds))
              (Model.id (Predictor.st (Pred.model p)))) as (v & Ev & Iv).
  - rewrite map_rev, map_map. cbn [fst]. apply -> in_rev.
    apply (in_map (fun p => Model.id (Predictor.st (Pred.model p)))). exact Hin.
  - exists v. split; [exact Ev|]. apply in_rev in Iv. apply in_map_iff in Iv.
    destruct Iv as (q & Eq & _). injection Eq as _ <-.
    apply num_or_nonzero, reliability_of_neq0.
Qed.

Lemma contributing_consensus_prototype (preds : list Pred.t) :
  Forall (fun p => has_id (Pred.model p)) preds ->
  prototype_contributing_consensus (assessModelReliability preds) preds
  = contributing_consensus (assessModelReliability preds) preds.
Proof.
  intros H. unfold prototype_contributing_consensus, contributing_consensus.
  apply map_ext_in. intros p Hp. cbv zeta.
  rewrite Forall_forall in H. rewrite (has_id_or_name _ (H p Hp)).
  destruct (rel_get_assess_neq0 preds p Hp) as (r & -> & ->). reflexivity.
Qed.

Lemma contributing_top_prototype (preds : list Pred.t) :
  Forall (fun p => has_id (Pred.model p)) preds ->
  contributing_single preds = contributing_top preds.
Proof.
  intros H. unfold contributing_single, contributing_top.
  apply map_ext_in. intros p Hp. cbv zeta.
  rewrite Forall_forall in H. rewrite (has_id_or_name _ (H p Hp)). reflexivity.
Qed.

Lemma sorted_preds_has_id (mm : Manager.t) now history options :
  Forall has_id (Manager.models mm) ->
  Forall (fun p => has_id (Pred.model p)) (sorted_preds mm now history options).
Proof.
  intros H. apply Forall_forall. intros p Hp.
  rewrite Forall_forall in H. apply H.
  apply (Permutation_in _ (sorted_preds_models mm now history options)).
  apply in_map. exact Hp.
Qed.

Lemma enforce_single (minConfidence : Q) (top : Pred.t) (preds : list Pred.t) :
  enforce_minConfidence minConfidence
    (prototype_top_decision top (Signal.confidence (Pred.p top)) preds)
  = single_decision minConfidence top preds.
Proof.
  unfold enforce_minConfidence, prototype_top_decision, single_decision, Math_max, Qltb.
  cbn [Decision.confidence Decision.prediction Decision.logic Decision.patterns
       Decision.chosenModel Decision.contributing].
  destruct (Qle_bool minConfidence (Signal.confidence (Pred.p top))); reflexivity.
Qed.

Lemma prototype_learn_in_agrees (models : list Predictor.t) key wasWin lr :
  Forall has_id models ->
  prototype_learn_in models key wasWin lr = learn_in models key wasWin lr.
Proof.
  induction models as [|m rest IH]; intros H; cbn [prototype_learn_in learn_in];
    [reflexivity|].
  inversion H as [|? ? Hm Hr]; subst.
  rewrite (has_id_or_name m Hm), (IH Hr). reflexivity.
Qed.

(** X19. The CommonJS [ModelManager] appended to kbt_models.js and the class
    of model_manager.js differ on the empty roster, where the first throws
    (it reads [preds[0].p]) and the second returns the no-models decision.
    On a roster that is not empty, of models that each have an id, their
    [predict] return the same decision or throw alike, for every history
    and every options object; and their [learn] agree on any roster of
    models with ids. *)
Theorem prototype_manager_agrees (mm : Manager.t) (now : Z) (history : History)
    (consecutiveLosses : option Z) (lastPrediction : option string) :
  (Manager.models mm = [] ->
   ModelManager_prototype_predict mm now history
     (OptionsObj consecutiveLosses lastPrediction) = Throw
   /\ ModelManager_predict mm now history (OptionsObj consecutiveLosses lastPrediction)
      = Ok (no_models_decision (Manager.minConfidence mm)))
  /\ (Manager.models mm <> [] -> Forall has_id (Manager.models mm) ->
      ModelManager_prototype_predict mm now history
        (OptionsObj consecutiveLosses lastPrediction)
      = ModelManager_predict mm now history
          (OptionsObj consecutiveLosses lastPrediction))
  /\ (Forall has_id (Manager.models mm) ->
      forall (chosenModelId : string) (wasWin : bool) (context : LearnContext.t),
        ModelManager_prototype_learn mm chosenModelId wasWin context
        = ModelManager_learn mm chosenModelId wasWin context).
Proof.
  set (options := OptionsObj consecutiveLosses lastPrediction).
  split; [|split].
  - intros E. unfold ModelManager_prototype_predict, ModelManager_predict.
    rewrite E. split; reflexivity.
  - intros Hne Hid. rewrite ModelManager_predict_unfold.
    unfold ModelManager_prototype_predict. cbv zeta.
    change (options_or_empty options) with options.
    pose proof (sorted_preds_has_id mm now history options Hid) as Hp.
    pose proof (sorted_preds_length mm now history options) as L.
    unfold sorted_preds in *.
    destruct (sort_preds (map (run_model now history options) (Manager.models mm)))
      as [|p0 [|p1 rest]] eqn:Es.
    + destruct (Manager.models mm); [contradiction|discriminate L].
    + cbn [bind]. rewrite enforce_single. reflexivity.
    + set (preds := p0 :: p1 :: rest) in *. unfold decide. cbv zeta.
      destruct (Consensus.agreement (calculateConsensusStrength preds)) as [a|];
        destruct (Overlap.score (analyzePatternOverlap preds)) as [sc|].
      2-4: unfold low_consensus, top_decision, prototype_top_decision; cbv zeta;
        rewrite (contributing_top_prototype preds Hp);
        inversion Hp as [|? ? Hp0 _]; subst; rewrite (has_id_or_name _ Hp0);
        reflexivity.
      destruct (Qgtb a (75 # 100) && Qgtb sc (6 # 10)).
      * cbn [bind]. unfold prototype_consensus_decision, consensus_decision.
        rewrite (contributing_consensus_prototype preds Hp). reflexivity.
      * unfold low_consensus, top_decision, prototype_top_decision; cbv zeta.
        rewrite (contributing_top_prototype preds Hp).
        inversion Hp as [|? ? Hp0 _]; subst. rewrite (has_id_or_name _ Hp0).
        reflexivity.
  - intros H chosenModelId wasWin context.
    unfold ModelManager_prototype_learn, ModelManager_learn.
    rewrite (prototype_learn_in_agrees _ _ _ _ H). reflexivity.
Qed.

(** ** Engine names *)

Example parseInt_examples :
  parseInt "19" = Some 19%Z /\ parseInt "  -42px" = Some (-42)%Z
  /\ parseInt "0x1f" = Some 31%Z /\ parseInt "KBT:19" = None
  /\ parseInt "" = None /\ parseInt "+7.9" = Some 7%Z.
Proof. vm_compute. repeat split. Qed.

(** The logic numbers of [enhancedTrendAnalysis] and their engines. *)
Lemma kbt_logic_engines :
  Forall (fun n => In (getEngineName (IdNumber (Some (inject_Z n))))
                     ["Pattern Bias"; "Machine Learning"; "Fibonacci Engine";
                      "Loss Recovery"])
    [1; 3; 5; 8; 22; 6; 19; 25; 28; 4; 12]%Z.
Proof.
  repeat (apply Forall_cons; [vm_compute; tauto|]). apply Forall_nil.
Qed.

Lemma low_consensus_logic (p0 p1 : Pred.t) preds history d :
  low_consensus p0 p1 preds history = Ok d ->
  Decision.logic d = "fallback-low-consensus-bias"
  \/ Decision.logic d
     = (Model.id (Predictor.st (Pred.model p0)) ++ ":" ++ logic_or_model (Pred.p p0))%string.
Proof.
  unfold low_consensus. cbv zeta. intros H.
  destruct (Qltb _ 15).
  - bind_inv H bias Hb. destruct (Qgtb bias (6 # 10)); [ok_inv H; left; reflexivity|].
    destruct (Qltb bias (4 # 10)); ok_inv H; [left|right]; reflexivity.
  - ok_inv H. right. reflexivity.
Qed.

Lemma roster_logics_engine :
  Forall (fun l => getEngineName (IdString l) = "Trend Logic") roster_logics.
Proof.
  repeat constructor.
Qed.

Section EngineProperties.
Context {M : JSMath}.

(** X20. Every [logic] number that [enhancedTrendAnalysis] returns has a name
    with [getEngineName] other than the default: Pattern Bias, Machine
    Learning, Fibonacci Engine or Loss Recovery. *)
Theorem enhancedTrendAnalysis_engine (now : Z) (history : History) (options : Options)
    (s : Signal.t) :
  enhancedTrendAnalysis now history options = Ok s ->
  exists n, Signal.logic s = Some (LogicNum n)
            /\ In (getEngineName (IdNumber (Some (inject_Z n))))
                 ["Pattern Bias"; "Machine Learning"; "Fibonacci Engine";
                  "Loss Recovery"].
Proof.
  intros H. destruct (enhancedTrendAnalysis_range _ _ _ _ H)
    as (_ & _ & _ & n & El & Hn).
  exists n. split; [exact El|].
  pose proof kbt_logic_engines as F. rewrite Forall_forall in F. apply F. exact Hn.
Qed.

Lemma flonzaElitePredict_logic (now : Z) (history : History) (s : Signal.t) :
  flonzaElitePredict now history = Ok s ->
  Signal.logic s = Some (LogicStr "fallback")
  \/ Signal.logic s = Some (LogicStr "FLONZA_V4_ENHANCED").
Proof.
  unfold flonzaElitePredict. destruct history as [|h].
  { intros H. ok_inv H. left. reflexivity. }
  destruct (List.length h <? 10)%nat.
  { intros H. ok_inv H. left. reflexivity. }
  intros H.
  bind_inv H pattern Hp. bind_inv H colorNumber Hc. bind_inv H anomaly Ha.
  bind_inv H hybrid Hh. cbv zeta in H.
  destruct (fold_left _ _ _) as [[totalWeight big] small].
  bind_inv H randomnessScore Hr. ok_inv H. right. reflexivity.
Qed.

Lemma run_model_KBT_logic now history options (m : Predictor.t) :
  Predictor.predict m = KBTModel_predict ->
  In (logic_or_model (Pred.p (run_model now history options m)))
    ("model" :: map string_of_Z [1; 3; 5; 8; 22; 6; 19; 25; 28; 4; 12]%Z).
Proof.
  intros E. destruct (run_model_KBT now history options m E)
    as [->|(s & Hs & _ & _ & El & _)].
  - left. reflexivity.
  - destruct (enhancedTrendAnalysis_range _ _ _ _ Hs) as (_ & _ & _ & n & Ln & Hn).
    unfold logic_or_model. rewrite El, Ln. right.
    assert (N0 : (n =? 0)%Z = false).
    { apply Z.eqb_neq. intros ->. cbn in Hn.
      repeat (destruct Hn as [Hn|Hn]; [discriminate Hn|]). exact Hn. }
    rewrite N0. apply in_map. exact Hn.
Qed.

Lemma run_model_AI_logic now history options (m : Predictor.t) :
  Predictor.predict m = AIModel_predict ->
  In (logic_or_model (Pred.p (run_model now history options m)))
    ["model"; "fallback"; "FLONZA_V4_ENHANCED"].
Proof.
  intros E. destruct (run_model_AI now history options m E)
    as [->|(s & Hs & _ & _ & El & _)].
  - left. reflexivity.
  - unfold logic_or_model. rewrite El.
    destruct (flonzaElitePredict_logic _ _ _ Hs) as [-> | ->]; cbn; tauto.
Qed.

(** X21. The server passes the [logic] of the decision of the manager to
    [getEngineName].  For the manager of the models KBT and AI_FLONZA that
    string is ['fallback-low-consensus-bias'], [KBT:] followed by a logic
    number or by [model], or [AI_FLONZA:] followed by a word; [parseInt]
    finds no number at the head of any of them and none contains [DUAL] or
    [FLONZA_V4_HYBRID], so the engine name is always Trend Logic. *)
Theorem decision_engine_name (mm : Manager.t) (kbt ai : Predictor.t)
    (now : Z) (history : History) (options : Options) (d : Decision.t) :
  Manager.models mm = [kbt; ai] ->
  Predictor.predict kbt = KBTModel_predict ->
  Predictor.predict ai = AIModel_predict ->
  Model.id (Predictor.st kbt) = "KBT" ->
  Model.id (Predictor.st ai) = "AI_FLONZA" ->
  ModelManager_predict mm now history options = Ok d ->
  In (Decision.logic d) roster_logics
  /\ getEngineName (IdString (Decision.logic d)) = "Trend Logic".
Proof.
  intros Em Ek Ea Ik Ia.
  pose proof (roster_no_consensus mm kbt ai now history options Em Ek Ea) as Hc.
  rewrite ModelManager_predict_unfold.
  destruct (roster_sorted mm kbt ai now history options Em) as (p0 & p1 & Es & Hp0).
  rewrite Es in *. rewrite (decide_low_consensus _ _ _ _ Hc).
  intros H. bind_inv H final Hf. ok_inv H.
  destruct (enforce_minConfidence_fields (Manager.minConfidence mm) final)
    as (_ & -> & _).
  assert (I : In (Decision.logic final) roster_logics).
  { destruct (low_consensus_logic _ _ _ _ _ Hf) as [-> | ->]; [left; reflexivity|].
    right. apply in_or_app. destruct Hp0 as [-> | ->]; rewrite run_model_model.
    - left. rewrite Ik. apply (in_map (fun x => ("KBT:" ++ x)%string)).
      apply run_model_KBT_logic. exact Ek.
    - right. rewrite Ia. apply (in_map (fun x => ("AI_FLONZA:" ++ x)%string)).
      apply run_model_AI_logic. exact Ea. }
  split; [exact I|].
  pose proof roster_logics_engine as F. rewrite Forall_forall in F. apply F. exact I.
Qed.

End EngineProperties.

Lemma enhancedTrendAnalysis_engine_witness :
  exists s, @enhancedTrendAnalysis ExactMath 0 eleven_stamped no_options = Ok s
            /\ exists n, Signal.logic s = Some (LogicNum n)
                         /\ In (getEngineName (IdNumber (Some (inject_Z n))))
                              ["Pattern Bias"; "Machine Learning"; "Fibonacci Engine";
                               "Loss Recovery"].
Proof.
  eexists. split; [vm_compute; reflexivity|].
  apply (@enhancedTrendAnalysis_engine ExactMath 0 eleven_stamped no_options).
  vm_compute. reflexivity.
Defined.

Lemma decision_engine_name_witness :
  Manager.models default_manager = [@KBTModel ExactMath "KBT"; @AIModel ExactMath "AI_FLONZA"]
  /\ Predictor.predict (@KBTModel ExactMath "KBT") = @KBTModel_predict ExactMath
  /\ Predictor.predict (@AIModel ExactMath "AI_FLONZA") = @AIModel_predict ExactMath
  /\ Model.id (Predictor.st (@KBTModel ExactMath "KBT")) = "KBT"
  /\ Model.id (Predictor.st (@AIModel ExactMath "AI_FLONZA")) = "AI_FLONZA"
  /\ exists d, ModelManager_predict default_manager 0 eleven_stamped no_options = Ok d
               /\ In (Decision.logic d) roster_logics
               /\ getEngineName (IdString (Decision.logic d)) = "Trend Logic".
Proof.
  repeat (split; [reflexivity|]).
  eexists. split; [vm_compute; reflexivity|].
  apply (@decision_engine_name ExactMath default_manager
           (@KBTModel ExactMath "KBT") (@AIModel ExactMath "AI_FLONZA")
           0 eleven_stamped no_options _ eq_refl eq_refl eq_refl eq_refl eq_refl).
  vm_compute. reflexivity.
Defined.

(** ** The learning update of the server *)

Lemma predict_chosenModel (mm : Manager.t) now history options d :
  ModelManager_predict mm now history options = Ok d ->
  (Manager.models mm = [] /\ Decision.chosenModel d = None
   /\ Decision.contributing d = Some [])
  \/ Decision.chosenModel d = Some "enhanced_ensemble"
  \/ Decision.chosenModel d = Some "fallback"
  \/ exists m, In m (Manager.models mm)
               /\ (Decision.chosenModel d = Some (id_or_name m)
                   \/ Manager.models mm = [m]
                      /\ Decision.chosenModel d = Some (Model.id (Predictor.st m))).
Proof.
  rewrite ModelManager_predict_unfold.
  pose proof (sorted_preds_length mm now history options) as L.
  pose proof (sorted_preds_models mm now history options) as P.
  destruct (sorted_preds mm now history options) as [|p0 [|p1 rest]] eqn:Es.
  - intros H. ok_inv H. left. destruct (Manager.models mm); [|discriminate L].
    repeat split.
  - intros H. ok_inv H. right. right. right. exists (Pred.model p0).
    cbn [map] in P.
    destruct (Manager.models mm) as [|m [|m' ms]] eqn:Em; try discriminate L.
    apply Permutation_length_1 in P. subst m.
    split; [left; reflexivity|]. right. split; reflexivity.
  - intros H. bind_inv H final Hf. ok_inv H.
    destruct (enforce_minConfidence_fields (Manager.minConfidence mm) final)
      as (_ & _ & _ & -> & _).
    unfold decide in Hf. cbv zeta in Hf.
    assert (Lc : forall f, low_consensus p0 p1 (p0 :: p1 :: rest) history = Ok f ->
                 Decision.chosenModel f = Some "fallback"
                 \/ exists m, In m (Manager.models mm)
                              /\ Decision.chosenModel f = Some (id_or_name m)).
    { intros f Hl. destruct (low_consensus_contents _ _ _ _ _ Hl)
        as [(_ & C & _)|(_ & C & _)]; [left; exact C|].
      right. exists (Pred.model p0). split; [|exact C].
      apply (Permutation_in _ P). left. reflexivity. }
    assert (Fin : forall f, low_consensus p0 p1 (p0 :: p1 :: rest) history = Ok f ->
                  Decision.chosenModel f = Some "enhanced_ensemble"
                  \/ Decision.chosenModel f = Some "fallback"
                  \/ exists m, In m (Manager.models mm)
                               /\ (Decision.chosenModel f = Some (id_or_name m)
                                   \/ Manager.models mm = [m]
                                      /\ Decision.chosenModel f
                                         = Some (Model.id (Predictor.st m)))).
    { intros f Hl. destruct (Lc f Hl) as [C|(m & Hm & C)]; [right; left; exact C|].
      right. right. exists m. split; [exact Hm|left; exact C]. }
    right.
    destruct (Consensus.agreement (calculateConsensusStrength (p0 :: p1 :: rest)))
      as [a|];
      destruct (Overlap.score (analyzePatternOverlap (p0 :: p1 :: rest))) as [sc|];
      try (apply Fin; exact Hf).
    destruct (Qgtb a (75 # 100) && Qgtb sc (6 # 10)); [|apply Fin; exact Hf].
    ok_inv Hf. left. reflexivity.
Qed.

Lemma learn_unknown (mm : Manager.t) key wasWin context :
  ~ In key (map id_or_name (Manager.models mm)) ->
  ModelManager_learn mm key wasWin context = (mm, None).
Proof.
  intros H. unfold ModelManager_learn.
  apply (learn_in_none _ _ wasWin (baseLR context)) in H. rewrite H. reflexivity.
Qed.

(** X22. The learning update of the server for a prediction it stored from a
    decision of the manager (two models or more, none called [ensemble])
    always goes through [ModelManager.learn] with the stored [model_id]:
    the stored id is never ['ensemble'], so [learnMultiple] is not called
    and the stored contributors are not used.  For a fallback or consensus
    decision, no model being called [fallback] or [enhanced_ensemble], the
    id names no model and the manager learns nothing; only the counter of
    consecutive losses moves. *)
Theorem server_never_credits_contributors (mm : Manager.t) (now : Z)
    (history : History) (options : Options) (d : Decision.t)
    (consecutiveLosses : Z) (isWin : bool) :
  Forall named (Manager.models mm) ->
  (2 <= List.length (Manager.models mm))%nat ->
  ModelManager_predict mm now history options = Ok d ->
  learning_update mm consecutiveLosses (Some (stored_model_id d))
    (Some (stored_contributors d)) isWin
  = (fst (ModelManager_learn mm (stored_model_id d) isWin
            {| LearnContext.consecutiveLosses :=
                 Some (next_losses consecutiveLosses isWin) |}),
     next_losses consecutiveLosses isWin)
  /\ (~ In "enhanced_ensemble" (map id_or_name (Manager.models mm)) ->
      ~ In "fallback" (map id_or_name (Manager.models mm)) ->
      Decision.chosenModel d = Some "enhanced_ensemble"
      \/ Decision.chosenModel d = Some "fallback" ->
      learning_update mm consecutiveLosses (Some (stored_model_id d))
        (Some (stored_contributors d)) isWin
      = (mm, next_losses consecutiveLosses isWin)).
Proof.
  intros Hn Hlen Hd.
  assert (S : stored_model_id d <> "" /\ stored_model_id d <> "ensemble").
  { destruct (predict_chosenModel _ _ _ _ _ Hd)
      as [(E & _)|[C|[C|(m & Hm & [C|[E _]])]]].
    - rewrite E in Hlen. cbn in Hlen. lia.
    - unfold stored_model_id. rewrite C. cbn. split; discriminate.
    - unfold stored_model_id. rewrite C. cbn. split; discriminate.
    - rewrite Forall_forall in Hn. destruct (Hn m Hm) as [N1 N2].
      unfold stored_model_id. rewrite C. unfold str_or.
      destruct (id_or_name m) eqn:Ei; [contradiction|]. split; [discriminate|exact N2].
    - rewrite E in Hlen. cbn in Hlen. lia. }
  destruct S as [S1 S2].
  assert (U : learning_update mm consecutiveLosses (Some (stored_model_id d))
                (Some (stored_contributors d)) isWin
              = (fst (ModelManager_learn mm (stored_model_id d) isWin
                        {| LearnContext.consecutiveLosses :=
                             Some (next_losses consecutiveLosses isWin) |}),
                 next_losses consecutiveLosses isWin)).
  { unfold learning_update, next_losses. cbv zeta.
    destruct (stored_model_id d) as [|a r] eqn:Es; [contradiction|].
    apply String.eqb_neq in S2. rewrite S2. reflexivity. }
  split; [exact U|].
  intros N1 N2 C. rewrite U. f_equal.
  assert (K : ~ In (stored_model_id d) (map id_or_name (Manager.models mm))).
  { unfold stored_model_id. destruct C as [-> | ->]; cbn; assumption. }
  rewrite (learn_unknown _ _ _ _ K). reflexivity.
Qed.

(** ** Consensus strength, pattern overlap, the draw number and the statistics *)

Lemma filter_length_le {A : Type} (f : A -> bool) (l : list A) :
  (List.length (filter f l) <= List.length l)%nat.
Proof.
  induction l as [|x r IH]; cbn; [lia|]. destruct (f x); cbn; lia.
Qed.

Lemma filter_all {A : Type} (f : A -> bool) (l : list A) :
  List.length (filter f l) = List.length l -> Forall (fun x => f x = true) l.
Proof.
  induction l as [|x r IH]; cbn; [constructor|].
  pose proof (filter_length_le f r) as L.
  destruct (f x) eqn:E; cbn; intros H; [|lia].
  constructor; [exact E|]. apply IH. lia.
Qed.

Lemma filter_none {A : Type} (f : A -> bool) (l : list A) :
  List.length (filter f l) = 0%nat -> Forall (fun x => f x = false) l.
Proof.
  induction l as [|x r IH]; cbn; [constructor|].
  destruct (f x) eqn:E; cbn; intros H; [discriminate H|].
  constructor; [exact E|]. apply IH. exact H.
Qed.

(** X23. For predictions that are not none, the [agreement] of
    [calculateConsensusStrength] is between 0.5 and 1, and its [prediction]
    is BIG exactly when more than half of the models predict BIG (SMALL on
    a tie).  With two or three models an agreement above 0.75 means that
    all of them predict the same. *)
Theorem consensus_strength_bounds (preds : list Pred.t) :
  preds <> [] ->
  exists agreement,
    Consensus.agreement (calculateConsensusStrength preds) = Some agreement
    /\ 1 # 2 <= agreement <= 1
    /\ (Consensus.prediction (calculateConsensusStrength preds) = "BIG"
        <-> (List.length preds < 2 * List.length (filter votes_BIG preds))%nat)
    /\ ((List.length preds <= 3)%nat -> 75 # 100 < agreement ->
        Forall (fun p => votes_BIG p = true) preds
        \/ Forall (fun p => votes_BIG p = false) preds).
Proof.
  intros Hne. unfold calculateConsensusStrength. cbv zeta.
  cbn [Consensus.agreement Consensus.prediction].
  change (fun p : Pred.t => String.eqb (Signal.prediction (Pred.p p)) "BIG")
    with votes_BIG.
  pose proof (filter_length_le votes_BIG preds) as Lb.
  set (n := List.length preds) in *. set (b := List.length (filter votes_BIG preds)) in *.
  assert (Hn : (0 < n)%nat) by (subst n; destruct preds; [contradiction|cbn; lia]).
  assert (E0 : (Z.of_nat n =? 0)%Z = false) by (apply Z.eqb_neq; lia).
  rewrite E0. eexists. split; [reflexivity|].
  set (m := Z.max (Z.of_nat b) (Z.of_nat n - Z.of_nat b)).
  assert (Qn : 0 < inject_Z (Z.of_nat n)) by (unfold Qlt; simpl; lia).
  split; [|split].
  - split.
    + apply Qle_shift_div_l; [exact Qn|].
      assert (H : inject_Z (Z.of_nat n) <= inject_Z (2 * m))
        by (rewrite <- Zle_Qle; subst m; lia).
      rewrite inject_Z_mult in H. change (inject_Z 2) with 2 in H.
      set (x := inject_Z (Z.of_nat n)) in *. set (y := inject_Z m) in *. lra.
    + apply Qle_shift_div_r; [exact Qn|]. rewrite Qmult_1_l.
      rewrite <- Zle_Qle. subst m. lia.
  - assert (E2 : inject_Z (Z.of_nat n) / 2 == inject_Z (Z.of_nat n) * (1 # 2))
      by reflexivity.
    destruct (Qgtb (inject_Z (Z.of_nat b)) (inject_Z (Z.of_nat n) / 2)) eqn:G.
    + apply Qltb_lt in G. rewrite E2 in G. split; [intros _|reflexivity].
      assert (H : inject_Z (Z.of_nat n) < inject_Z (2 * Z.of_nat b)).
      { rewrite inject_Z_mult. change (inject_Z 2) with 2.
        set (x := inject_Z (Z.of_nat n)) in *. set (y := inject_Z (Z.of_nat b)) in *.
        lra. }
      rewrite <- Zlt_Qlt in H. lia.
    + apply Qltb_ge in G. rewrite E2 in G. split; [discriminate|]. intros H. exfalso.
      assert (H' : inject_Z (2 * Z.of_nat b) <= inject_Z (Z.of_nat n)).
      { rewrite inject_Z_mult. change (inject_Z 2) with 2.
        set (x := inject_Z (Z.of_nat n)) in *. set (y := inject_Z (Z.of_nat b)) in *.
        lra. }
      rewrite <- Zle_Qle in H'. lia.
  - intros H3 Ha.
    assert (H : inject_Z (3 * Z.of_nat n) < inject_Z (4 * m)).
    { rewrite !inject_Z_mult. change (inject_Z 3) with 3. change (inject_Z 4) with 4.
      set (x := inject_Z (Z.of_nat n)) in *. set (y := inject_Z m) in *.
      apply (Qmult_lt_r _ _ x Qn) in Ha.
      assert (E : y / x * x == y) by (field; lra).
      rewrite E in Ha. lra. }
    rewrite <- Zlt_Qlt in H.
    assert (C : b = n \/ b = 0%nat) by (subst m; lia).
    destruct C as [C|C]; [left; apply filter_all | right; apply filter_none]; exact C.
Qed.

Lemma set_from_spec (seen l : list string) :
  NoDup (set_from seen l)
  /\ (forall x, In x (set_from seen l) <-> In x l /\ ~ In x seen)
  /\ (List.length (set_from seen l) <= List.length l)%nat.
Proof.
  revert seen. induction l as [|x r IH]; intros seen; cbn [set_from].
  - split; [constructor|]. split; [|cbn; lia]. intros y. cbn. tauto.
  - destruct (existsb (String.eqb x) seen) eqn:E.
    + destruct (IH seen) as (N & S & L). split; [exact N|]. split; [|cbn; lia].
      intros y. rewrite S. cbn [In]. split; [tauto|].
      intros [[<-|H] Hs]; [|tauto]. exfalso. apply Hs.
      apply existsb_exists in E. destruct E as (z & Hz & Ez).
      apply String.eqb_eq in Ez. subst z. exact Hz.
    + destruct (IH (x :: seen)) as (N & S & L).
      assert (Nx : ~ In x seen).
      { intros C. assert (X : existsb (String.eqb x) seen = true).
        { apply existsb_exists. exists x. split; [exact C|apply String.eqb_refl]. }
        congruence. }
      split; [|split; [|cbn; lia]].
      * constructor; [|exact N]. rewrite S. cbn [In]. tauto.
      * intros y. cbn [In]. rewrite S. cbn [In]. split.
        -- intros [<-|[H1 H2]]; [tauto|]. split; [right; exact H1|]. tauto.
        -- intros [[<-|H1] H2]; [left; reflexivity|].
           destruct (string_dec x y) as [->|Ne]; [left; reflexivity|].
           right. split; [exact H1|]. intros [C|C]; [exact (Ne C)|exact (H2 C)].
Qed.

(** X24. [analyzePatternOverlap] returns the distinct tags of all the signals,
    each once.  Its score is NaN exactly when there is no tag at all;
    otherwise it is at least 0 and below 1, and 0 exactly when no tag
    occurs twice. *)
Theorem pattern_overlap_bounds (preds : list Pred.t) :
  let allPatterns := flat_map (fun p => patterns_or_empty (Pred.p p)) preds in
  let overlap := analyzePatternOverlap preds in
  NoDup (Overlap.patterns overlap)
  /\ (forall t, In t (Overlap.patterns overlap) <-> In t allPatterns)
  /\ (allPatterns = [] <-> Overlap.score overlap = None)
  /\ (forall score, Overlap.score overlap = Some score ->
      0 <= score < 1 /\ (score == 0 <-> NoDup allPatterns)).
Proof.
  cbv zeta. unfold analyzePatternOverlap. cbv zeta.
  cbn [Overlap.patterns Overlap.score].
  set (allPatterns := flat_map _ preds).
  destruct (set_from_spec [] allPatterns) as (N & S & L). fold (Set_of allPatterns) in *.
  split; [exact N|]. split; [intros t; rewrite S; cbn; tauto|].
  destruct (List.length allPatterns =? 0)%nat eqn:E.
  - apply Nat.eqb_eq in E. split; [|intros score C; discriminate C].
    split; [reflexivity|]. intros _. destruct allPatterns; [reflexivity|discriminate E].
  - apply Nat.eqb_neq in E. split.
    { split; [intros C; rewrite C in E; contradiction | discriminate]. }
    intros score [= <-].
    set (u := List.length (Set_of allPatterns)) in *.
    set (n := List.length allPatterns) in *.
    assert (U : (0 < u)%nat).
    { destruct allPatterns as [|t r] eqn:Ea; [contradiction|].
      assert (I : In t (Set_of (t :: r))) by (apply S; cbn; tauto).
      subst u. destruct (Set_of (t :: r)); [contradiction|cbn; lia]. }
    assert (Qn : 0 < inject_Z (Z.of_nat n)) by (unfold Qlt; simpl; lia).
    assert (Qu : 0 < inject_Z (Z.of_nat u)) by (unfold Qlt; simpl; lia).
    assert (Qun : inject_Z (Z.of_nat u) <= inject_Z (Z.of_nat n))
      by (rewrite <- Zle_Qle; lia).
    assert (R : 0 < inject_Z (Z.of_nat u) / inject_Z (Z.of_nat n) <= 1).
    { split.
      - apply Qlt_shift_div_l; [exact Qn|]. lra.
      - apply Qle_shift_div_r; [exact Qn|]. lra. }
    set (q := inject_Z (Z.of_nat u) / inject_Z (Z.of_nat n)) in *.
    split; [lra|]. split.
    + intros Z0. assert (Q1 : q == 1) by lra.
      assert (Eun : inject_Z (Z.of_nat u) == inject_Z (Z.of_nat n)).
      { subst q. apply (Qmult_inj_r _ _ (/ inject_Z (Z.of_nat n))).
        - intros C. apply Qinv_lt_0_compat, Qlt_not_eq in Qn.
          apply Qn. symmetry. exact C.
        - unfold Qdiv in Q1. rewrite Q1. field. lra. }
      unfold Qeq in Eun. cbn [Qnum Qden inject_Z] in Eun.
      assert (Hun : u = n) by lia.
      assert (P : Permutation (Set_of allPatterns) allPatterns).
      { apply NoDup_Permutation_bis; [exact N | subst u n; lia|].
        intros t Ht. apply S in Ht. tauto. }
      apply (Permutation_NoDup P). exact N.
    + intros Nd. unfold Set_of in *. subst q u.
      rewrite (set_from_NoDup [] allPatterns Nd) by (intros x _ []).
      fold n. field. lra.
Qed.

Lemma draw_checked_all : forallb draw_checked (seq 0 1440) = true.
Proof. vm_compute. reflexivity. Qed.

(** X25. The draw number in the address [generateWingoUrl] builds is four
    decimal digits, the minute of the day with leading zeros: read back as
    a number it is [floor(msSinceMidnight / 60000)] modulo 1440, from a day
    before midnight on. *)
Theorem drawNumber_four_digits (msSinceMidnight : Z) :
  (-86400000 <= msSinceMidnight)%Z ->
  String.length (drawNumber msSinceMidnight) = 4%nat
  /\ Forall (fun a => (48 <= nat_of_ascii a <= 57)%nat)
       (list_ascii_of_string (drawNumber msSinceMidnight))
  /\ parseInt (drawNumber msSinceMidnight) = Some ((msSinceMidnight / 60000) mod 1440)%Z.
Proof.
  intros H. unfold drawNumber. cbv zeta.
  set (m := (msSinceMidnight / 60000)%Z).
  assert (Hm : (-1440 <= m)%Z).
  { subst m. apply Z.div_le_lower_bound; lia. }
  assert (E : Z.rem (m + 1440) 1440 = (m mod 1440)%Z).
  { rewrite Z.rem_mod_nonneg by lia.
    replace (m + 1440)%Z with (m + 1 * 1440)%Z by lia. apply Z.mod_add. lia. }
  rewrite E.
  pose proof (Z.mod_pos_bound m 1440 ltac:(lia)) as B.
  set (v := (m mod 1440)%Z) in *.
  pose proof draw_checked_all as A. rewrite forallb_forall in A.
  specialize (A (Z.to_nat v)).
  assert (I : In (Z.to_nat v) (seq 0 1440)) by (apply in_seq; lia).
  specialize (A I). unfold draw_checked in A. cbv zeta in A.
  rewrite Z2Nat.id in A by lia.
  apply andb_true_iff in A. destruct A as [A A3].
  apply andb_true_iff in A. destruct A as [A1 A2].
  split; [apply Nat.eqb_eq; exact A1|]. split.
  - apply Forall_forall. intros a Ha. rewrite forallb_forall in A2.
    specialize (A2 a Ha). apply andb_true_iff in A2. destruct A2 as [L1 L2].
    apply Nat.leb_le in L1, L2. lia.
  - destruct (parseInt _) as [w|]; [|discriminate A3].
    apply Z.eqb_eq in A3. rewrite A3. reflexivity.
Qed.

Lemma drawNumber_four_digits_witness :
  (-86400000 <= 43259999)%Z
  /\ String.length (drawNumber 43259999) = 4%nat
  /\ Forall (fun a => (48 <= nat_of_ascii a <= 57)%nat)
       (list_ascii_of_string (drawNumber 43259999))
  /\ parseInt (drawNumber 43259999) = Some ((43259999 / 60000) mod 1440)%Z.
Proof.
  assert (H : (-86400000 <= 43259999)%Z) by lia.
  split; [exact H|]. exact (drawNumber_four_digits 43259999 H).
Defined.

Section StatsProperties.
Context {M : JSMath}.

(** X26. After [ModelManager.learn] on a model of the repository's classes,
    the entry of that model in [dumpModelState()] has the weight, wins,
    losses and emaAccuracy that [learn] returned, under the id and the name
    the model had; the entries of the other models are unchanged. *)
Theorem learn_stats_reported (mm : Manager.t) (pre post : list Predictor.t)
    (m : Predictor.t) (wasWin : bool) (context : LearnContext.t) :
  Manager.models mm = pre ++ m :: post ->
  ~ In (id_or_name m) (map id_or_name pre) ->
  learns_as_repository m ->
  exists res,
    snd (ModelManager_learn mm (id_or_name m) wasWin context) = Some res
    /\ nth_error
         (dumpModelState (fst (ModelManager_learn mm (id_or_name m) wasWin context)))
         (List.length pre)
       = Some {| ModelStats.id := Model.id (Predictor.st m);
                 ModelStats.name := Model.name (Predictor.st m);
                 ModelStats.weight := Stats.weight res;
                 ModelStats.wins := Stats.wins res;
                 ModelStats.losses := Stats.losses res;
                 ModelStats.emaAccuracy := Stats.emaAccuracy res |}
    /\ (forall i, i <> List.length pre ->
        nth_error
          (dumpModelState (fst (ModelManager_learn mm (id_or_name m) wasWin context))) i
        = nth_error (dumpModelState mm) i).
Proof.
  intros Em Hn Hl. unfold ModelManager_learn.
  rewrite Em, (learn_in_first pre post m wasWin (baseLR context) Hn).
  cbn [fst snd]. eexists. split; [reflexivity|].
  unfold dumpModelState. rewrite Em. cbn [with_models Manager.models].
  rewrite !map_app. cbn [map]. split.
  - rewrite nth_error_app2; rewrite length_map; [|lia].
    rewrite Nat.sub_diag. cbn [nth_error]. unfold learned. cbn [Predictor.st].
    rewrite Hl. reflexivity.
  - intros i Hi. destruct (Nat.lt_ge_cases i (List.length pre)) as [C|C].
    + rewrite !nth_error_app1 by (rewrite length_map; exact C). reflexivity.
    + rewrite !nth_error_app2 by (rewrite length_map; exact C).
      rewrite !length_map.
      destruct (i - List.length pre)%nat as [|k] eqn:Ek; [lia|]. reflexivity.
Qed.

End StatsProperties.

Lemma learn_stats_reported_witness :
  Manager.models default_manager
  = [@KBTModel ExactMath "KBT"] ++ @AIModel ExactMath "AI_FLONZA" :: []
  /\ ~ In (id_or_name (@AIModel ExactMath "AI_FLONZA"))
          (map id_or_name [@KBTModel ExactMath "KBT"])
  /\ @learns_as_repository ExactMath (@AIModel ExactMath "AI_FLONZA")
  /\ exists res,
       snd (ModelManager_learn default_manager
              (id_or_name (@AIModel ExactMath "AI_FLONZA")) true no_context) = Some res
       /\ nth_error
            (dumpModelState
               (fst (ModelManager_learn default_manager
                       (id_or_name (@AIModel ExactMath "AI_FLONZA")) true no_context)))
            (List.length [@KBTModel ExactMath "KBT"])
          = Some {| ModelStats.id := Model.id (Predictor.st (@AIModel ExactMath "AI_FLONZA"));
                    ModelStats.name :=
                      Model.name (Predictor.st (@AIModel ExactMath "AI_FLONZA"));
                    ModelStats.weight := Stats.weight res;
                    ModelStats.wins := Stats.wins res;
                    ModelStats.losses := Stats.losses res;
                    ModelStats.emaAccuracy := Stats.emaAccuracy res |}
       /\ (forall i, i <> List.length [@KBTModel ExactMath "KBT"] ->
           nth_error
             (dumpModelState
                (fst (ModelManager_learn default_manager
                        (id_or_name (@AIModel ExactMath "AI_FLONZA")) true no_context))) i
           = nth_error (dumpModelState default_manager) i).
Proof.
  assert (N : ~ In (id_or_name (@AIModel ExactMath "AI_FLONZA"))
                (map id_or_name [@KBTModel ExactMath "KBT"])).
  { cbn. intros [C|[]]. discriminate C. }
  assert (L : @learns_as_repository ExactMath (@AIModel ExactMath "AI_FLONZA")).
  { intros s w [|[x|]| |negative]; reflexivity. }
  split; [reflexivity|]. split; [exact N|]. split; [exact L|].
  exact (@learn_stats_reported ExactMath default_manager [@KBTModel ExactMath "KBT"] []
           (@AIModel ExactMath "AI_FLONZA") true no_context eq_refl N L).
Defined.

(** ** The managers at concrete inputs *)

Lemma prototype_manager_agrees_witness :
  Manager.models default_manager <> []
  /\ Forall has_id (Manager.models default_manager)
  /\ ModelManager_prototype_predict default_manager 0 eleven_stamped
       (OptionsObj None None)
     = ModelManager_predict default_manager 0 eleven_stamped (OptionsObj None None).
Proof.
  assert (N : Manager.models default_manager <> []) by discriminate.
  assert (I : Forall has_id (Manager.models default_manager))
    by (repeat constructor; discriminate).
  split; [exact N|]. split; [exact I|].
  exact (proj1 (proj2 (prototype_manager_agrees default_manager 0 eleven_stamped None None)) N I).
Defined.

Lemma server_never_credits_contributors_witness :
  Forall named (Manager.models default_manager)
  /\ (2 <= List.length (Manager.models default_manager))%nat
  /\ exists d,
       ModelManager_predict default_manager 0 two_big no_options = Ok d
       /\ Decision.chosenModel d = Some "fallback"
       /\ learning_update default_manager 2 (Some (stored_model_id d))
            (Some (stored_contributors d)) false
          = (default_manager, next_losses 2 false).
Proof.
  assert (Hn : Forall named (Manager.models default_manager)).
  { repeat constructor; discriminate. }
  assert (Hl : (2 <= List.length (Manager.models default_manager))%nat) by (cbn; lia).
  split; [exact Hn|]. split; [exact Hl|].
  eexists. split; [vm_compute; reflexivity|]. split; [reflexivity|].
  refine (proj2 (server_never_credits_contributors default_manager 0 two_big no_options
                   _ 2 false Hn Hl _) _ _ _).
  - vm_compute. reflexivity.
  - cbn. intros [C|[C|[]]]; discriminate C.
  - cbn. intros [C|[C|[]]]; discriminate C.
  - right. reflexivity.
Defined.

Lemma consensus_strength_bounds_witness :
  sorted_preds default_manager 0 two_big no_options <> []
  /\ exists agreement,
       Consensus.agreement
         (calculateConsensusStrength (sorted_preds default_manager 0 two_big no_options))
       = Some agreement
       /\ 1 # 2 <= agreement <= 1.
Proof.
  assert (N : sorted_preds default_manager 0 two_big no_options <> []).
  { intros C. apply (f_equal (@List.length Pred.t)) in C.
    rewrite sorted_preds_length in C. discriminate C. }
  split; [exact N|].
  destruct (consensus_strength_bounds _ N) as (a & Ea & Ra & _).
  exists a. split; [exact Ea | exact Ra].
Defined.

(** The default manager has no model called [fallback]; its model KBT
    learns from a win. *)
Lemma learn_unknown_id_witness :
  find_model (Manager.models default_manager) "fallback" = None
  /\ ModelManager_learn default_manager "fallback" true no_context
     = (default_manager, None)
  /\ find_model (Manager.models default_manager) "KBT" = Some (@KBTModel ExactMath "KBT")
  /\ snd (ModelManager_learn default_manager "KBT" true no_context)
     = Some (snd (@KBTModel_learn ExactMath (KBTModel_new "KBT") true
                    (ObjArg (Some (baseLR no_context)))))
  /\ Stats.wins (snd (@KBTModel_learn ExactMath (KBTModel_new "KBT") true
                        (ObjArg (Some (baseLR no_context))))) = 1%Z.
Proof.
  assert (N : find_model (Manager.models default_manager) "fallback" = None)
    by reflexivity.
  assert (K : find_model (Manager.models default_manager) "KBT"
              = Some (@KBTModel ExactMath "KBT")) by reflexivity.
  destruct (learn_unknown_id default_manager "fallback" true no_context)
    as (_ & H1 & _).
  destruct (learn_unknown_id default_manager "KBT" true no_context) as (_ & _ & H2).
  split; [exact N|]. split; [exact (H1 N)|]. split; [exact K|].
  split; [exact (proj1 (proj2 (H2 _ K)))|reflexivity].
Defined.

(** ** [fibonacciPrediction] *)

Lemma closer_level (a b r : Q) :
  a < b ->
  (Qltb (Math_abs (b - r)) (Math_abs (a - r)) = true -> (a + b) * (1 # 2) < r)
  /\ (Qltb (Math_abs (b - r)) (Math_abs (a - r)) = false -> r <= (a + b) * (1 # 2)).
Proof.
  intros Hab. unfold Math_abs. split; intros H.
  - apply Qltb_lt in H. revert H.
    apply (Qabs_case (b - r)); apply (Qabs_case (a - r)); intros; lra.
  - apply Qltb_ge in H. revert H.
    apply (Qabs_case (b - r)); apply (Qabs_case (a - r)); intros; lra.
Qed.

Ltac level_step :=
  match goal with
  | |- context [Qltb (Math_abs (?b - ?r)) (Math_abs (?a - ?r))] =>
      lazymatch a with
      | (if _ then _ else _) => fail
      | _ => idtac
      end;
      let E := fresh "E" in
      let L := fresh "L" in
      assert (L : a < b) by reflexivity;
      destruct (Qltb (Math_abs (b - r)) (Math_abs (a - r))) eqn:E;
      [apply (proj1 (closer_level a b r L)) in E
      |apply (proj2 (closer_level a b r L)) in E];
      clear L
  end.

Lemma fibonacci_tie (b : Z) (n : nat) :
  (0 < n < 1000)%nat -> ~ inject_Z b / Qnat n == 559 # 1000.
Proof.
  intros Hn E. unfold Qnat in E.
  assert (Hq : ~ inject_Z (Z.of_nat n) == 0).
  { unfold Qeq; cbn [Qnum Qden inject_Z]. lia. }
  assert (E2 : inject_Z b == (559 # 1000) * inject_Z (Z.of_nat n)).
  { rewrite <- E. field. exact Hq. }
  unfold Qeq, Qmult in E2; cbn [Qnum Qden inject_Z] in E2.
  assert (D : (1000 | 559 * Z.of_nat n)%Z) by (exists b; lia).
  apply Z.gauss in D; [|reflexivity].
  destruct D as [k Hk]. lia.
Qed.

(** X27. [fibonacciPrediction] on the share of BIG among the events it is
    given, which are not none: above 0.559 (the closest level is 0.618 or
    more) SMALL at confidence 75; above 0.118 and at most 0.441 (the
    closest level is 0.236 or 0.382) BIG at 75; at most 0.118, or above
    0.441 and below 0.559 (the closest level is 0 or 0.5), the opposite of
    the latest result at confidence 70.  A share of exactly 0.559 is as far
    from 0.5 as from 0.618 and is left out: there the doubles of the code
    decide (for 0.618).  It takes a thousand events or more: with fewer,
    the three cases are all there is. *)
Theorem fibonacciPrediction_thresholds (recent : list (option Event.t))
    (bigCount : Z) (c : Signal.t) :
  recent <> [] ->
  count_type "BIG" recent = Ok bigCount ->
  fibonacciPrediction recent = Ok c ->
  let ratio := inject_Z bigCount / Qnat (List.length recent) in
  (559 # 1000 < ratio -> Signal.prediction c = "SMALL" /\ Signal.confidence c = 75)
  /\ (118 # 1000 < ratio <= 441 # 1000 ->
      Signal.prediction c = "BIG" /\ Signal.confidence c = 75)
  /\ (ratio <= 118 # 1000 \/ 441 # 1000 < ratio < 559 # 1000 ->
      Signal.confidence c = 70
      /\ exists r0, at_ recent 0 = Ok r0
                    /\ Signal.prediction c = opposite (Event.resultType r0))
  /\ ((List.length recent < 1000)%nat -> ~ ratio == 559 # 1000).
Proof.
  intros Hne Hb Hc ratio.
  assert (T : (List.length recent < 1000)%nat -> ~ ratio == 559 # 1000).
  { intros Hl. apply fibonacci_tie. split; [|exact Hl].
    destruct recent; [contradiction|cbn; lia]. }
  revert Hc. unfold fibonacciPrediction. cbv zeta. rewrite Hb. cbn [bind].
  assert (L : (List.length recent =? 0)%nat = false).
  { apply Nat.eqb_neq. destruct recent; [contradiction|discriminate]. }
  rewrite L. cbn [fold_left]. fold ratio.
  repeat (level_step; cbv iota).
  all: match goal with
       | |- (if ?g then _ else _) = _ -> _ =>
           let v := eval vm_compute in g in change g with v; cbv iota
       end.
  all: try match goal with
       | |- (if ?g then _ else _) = _ -> _ =>
           let v := eval vm_compute in g in change g with v; cbv iota
       end.
  all: intros H; try (bind_inv H r0 H0); ok_inv H;
    cbn [candidate Signal.prediction Signal.confidence];
    (split; [|split; [|split; [|exact T]]]); intros C; try (exfalso; lra);
    try (split; reflexivity).
  all: split; [reflexivity|]; exists r0; split; [exact H0|reflexivity].
Qed.

Lemma fibonacciPrediction_thresholds_witness :
  exists c,
    fibonacciPrediction (entries eleven_stamped) = Ok c
    /\ Signal.prediction c = "SMALL" /\ Signal.confidence c = 75.
Proof.
  eexists. split; [vm_compute; reflexivity|].
  refine (proj1 (fibonacciPrediction_thresholds (entries eleven_stamped) 11 _ _ _ _) _).
  - discriminate.
  - vm_compute. reflexivity.
  - vm_compute. reflexivity.
  - vm_compute. reflexivity.
Defined.
